(** * Task-management API: the task router and its models

    A shallow embedding of [app/models/task_model.py],
    [app/models/response_model.py] and [app/routes/task_router.py].

    The tables of the SQLModel metadata are lists of rows in the order
    of their rowid, which is the order of insertion; a handler is a
    computation over the database that either returns its response
    object or raises.  The ORM calls of the handlers ([session.get],
    [session.add]/[commit]/[refresh], [session.delete], the [tags]
    relationship) are given by the small persistence layer of
    section 3, for the default store of [database.py], sqlite. *)

From Stdlib Require Import ZArith List String Bool Lia.
From Stdlib Require Import Floats.SpecFloat.
From Stdlib Require Import Sorted.
Import ListNotations.
Local Open Scope string_scope.
Local Open Scope list_scope.
Local Open Scope Z_scope.

Set Implicit Arguments.

(* ===================================================================== *)
(** * 1. Python values                                                    *)
(* ===================================================================== *)

(** [datetime]: an instant, in microseconds since the epoch. *)
Definition datetime := Z.

(** [float]: IEEE 754 binary64. *)
Definition prec : Z := 53.
Definition emax : Z := 1024.
Definition float := spec_float.

(** The [int] -> [float] conversion used on the literal [100]. *)
Definition float_of_int (z : Z) : float := binary_normalize prec emax z 0 false.

Definition float_mul (x y : float) : float := SFmul prec emax x y.

(** An [int] seen as an (unnormalised) float, exact whatever its size. *)
Definition exact_of_int (z : Z) : float :=
  match z with
  | Z0 => S754_zero false
  | Zpos p => S754_finite false p 0
  | Zneg p => S754_finite true p 0
  end.

(** Nearest integer to [a / b] for [0 < b], ties to the even one. *)
Definition div_half_even (a b : Z) : Z :=
  let q := a / b in
  let r := a mod b in
  match 2 * r ?= b with
  | Lt => q
  | Gt => q + 1
  | Eq => if Z.even q then q else q + 1
  end.

(** [round(x, ndigits)] on a float, [0 <= ndigits]: the decimal with
    [ndigits] places nearest to the exact value of [x] (ties to even),
    converted back to the nearest float. *)
Definition float_round (x : float) (ndigits : Z) : float :=
  match x with
  | S754_finite s m e =>
      if 0 <=? e then x
      else
        let p := 10 ^ ndigits in
        let n := div_half_even (Zpos m * p) (2 ^ (- e)) in
        match n with
        | Zpos n' => SFdiv prec emax (S754_finite s n' 0) (exact_of_int p)
        | _ => S754_zero s
        end
  | _ => x
  end.

(** What the conditional expression of [get_task_stats] evaluates to:
    a float in one branch, the [int] literal [0] in the other. *)
Inductive number :=
| PyInt (z : Z)
| PyFloat (f : float).

(** The builtin [round(x, ndigits)] for [0 <= ndigits]: an [int] is
    returned as it is. *)
Definition round (x : number) (ndigits : Z) : number :=
  match x with
  | PyInt z => PyInt z
  | PyFloat f => PyFloat (float_round f ndigits)
  end.

(** Truthiness, as the [if x:] tests of the router use it. *)
Definition truthy_int (x : option Z) : bool :=
  match x with
  | Some n => negb (n =? 0)
  | None => false
  end.

Definition truthy_str (s : string) : bool := negb (String.eqb s "").

Definition truthy_list {A} (x : option (list A)) : bool :=
  match x with
  | Some (_ :: _) => true
  | _ => false
  end.

(** An object of a model class is always truthy; only [None] is not. *)
Definition truthy_obj {A} (x : option A) : bool :=
  match x with
  | Some _ => true
  | None => false
  end.

Definition opt_eqb (x : option Z) (y : Z) : bool :=
  match x with
  | Some n => n =? y
  | None => false
  end.

(** ** What the store takes and gives back *)

(** The integers sqlite holds are signed and 64 bits wide; binding any
    other [int] to a statement raises [OverflowError]. *)
Definition int64 (z : Z) : bool :=
  (-9223372036854775808 <=? z) && (z <=? 9223372036854775807).

(** A parameter that may be [None] is bound when it is an [int]. *)
Definition int64_opt (x : option Z) : bool :=
  match x with
  | Some z => int64 z
  | None => true
  end.

(** A float written to a REAL column and read again: NaN is stored as
    NULL, and a float with an integer value is stored as that integer,
    which loses the sign of a zero.  Every other float comes back as it
    went in. *)
Definition sql_real (x : float) : option float :=
  match x with
  | S754_nan => None
  | S754_zero _ => Some (S754_zero false)
  | _ => Some x
  end.

Definition real_column (x : option float) : option float :=
  match x with
  | Some f => sql_real f
  | None => None
  end.

(** [x >= 0] on a float, as the [ge=0] of a field tests it: false for
    NaN, true for either zero. *)
Definition float_ge_0 (x : float) : bool :=
  match SFcompare x (S754_zero false) with
  | Some Gt | Some Eq => true
  | _ => false
  end.

(* ===================================================================== *)
(** * 2. Models ([task_model.py], [response_model.py])                    *)
(* ===================================================================== *)

Module TaskStatus.
Inductive t := PENDING | IN_PROGRESS | COMPLETED | CANCELLED.

Definition value (s : t) : string :=
  match s with
  | PENDING => "pending"
  | IN_PROGRESS => "in_progress"
  | COMPLETED => "completed"
  | CANCELLED => "cancelled"
  end.

Definition eqb (a b : t) : bool :=
  match a, b with
  | PENDING, PENDING | IN_PROGRESS, IN_PROGRESS
  | COMPLETED, COMPLETED | CANCELLED, CANCELLED => true
  | _, _ => false
  end.
End TaskStatus.

Module TaskPriority.
Inductive t := LOW | MEDIUM | HIGH | URGENT.

Definition value (p : t) : string :=
  match p with
  | LOW => "low"
  | MEDIUM => "medium"
  | HIGH => "high"
  | URGENT => "urgent"
  end.

Definition eqb (a b : t) : bool :=
  match a, b with
  | LOW, LOW | MEDIUM, MEDIUM | HIGH, HIGH | URGENT, URGENT => true
  | _, _ => false
  end.
End TaskPriority.

(** ** Table rows.  A stored row always has its primary key. *)

Module TaskTagLink.
Record t := mk { task_id : Z; tag_id : Z }.

Definition eqb (a b : t) : bool :=
  (task_id a =? task_id b) && (tag_id a =? tag_id b).
End TaskTagLink.

Module User.
Record t := mk {
  username : string;
  email : string;
  full_name : option string;
  is_active : bool;
  id : Z;
  created_at : datetime;
  updated_at : datetime
}.
End User.

Module Project.
Record t := mk {
  name : string;
  description : option string;
  is_active : bool;
  id : Z;
  created_at : datetime;
  updated_at : datetime;
  owner_id : option Z
}.
End Project.

Module Tag.
Record t := mk {
  name : string;
  color : option string;
  id : Z;
  created_at : datetime
}.
End Tag.

Module Task.
Record t := mk {
  title : string;
  description : option string;
  status : TaskStatus.t;
  priority : TaskPriority.t;
  is_completed : bool;
  due_date : option datetime;
  estimated_hours : option float;
  actual_hours : option float;
  id : Z;
  created_at : datetime;
  updated_at : datetime;
  project_id : option Z;
  assignee_id : option Z;
  parent_task_id : option Z
}.
End Task.

Module Comment.
Record t := mk {
  content : string;
  id : Z;
  created_at : datetime;
  updated_at : datetime;
  task_id : option Z;
  author_id : option Z
}.
End Comment.

(** ** Request models *)

Module TaskCreate.
Record t := mk {
  title : string;
  description : option string;
  status : TaskStatus.t;
  priority : TaskPriority.t;
  is_completed : bool;
  due_date : option datetime;
  estimated_hours : option float;
  actual_hours : option float;
  project_id : option Z;
  assignee_id : option Z;
  parent_task_id : option Z;
  tag_ids : option (list Z)
}.
End TaskCreate.

(** A field of a request body: left out of the payload, or given (where
    the given value of an [Optional] field may be [None]).  [Given]
    fields are the model's [model_fields_set]. *)
Inductive field (A : Type) :=
| Unset
| Given (v : A).
Arguments Unset {A}.
Arguments Given {A} v.

(** The attribute value of a field whose default is [None]. *)
Definition attr {A} (f : field (option A)) : option A :=
  match f with
  | Unset => None
  | Given v => v
  end.

Module TaskUpdate.
Record t := mk {
  title : field (option string);
  description : field (option string);
  status : field (option TaskStatus.t);
  priority : field (option TaskPriority.t);
  is_completed : field (option bool);
  due_date : field (option datetime);
  estimated_hours : field (option float);
  actual_hours : field (option float);
  assignee_id : field (option Z);
  tag_ids : field (option (list Z))
}.
End TaskUpdate.

Module PaginationParams.
Record t := mk { skip : Z; limit : Z }.
End PaginationParams.

(** ** Response models *)

Module UserRead.
Record t := mk {
  username : string;
  email : string;
  full_name : option string;
  is_active : bool;
  id : Z;
  created_at : datetime;
  updated_at : datetime
}.

Definition model_validate (u : User.t) : t :=
  mk (User.username u) (User.email u) (User.full_name u) (User.is_active u)
     (User.id u) (User.created_at u) (User.updated_at u).
End UserRead.

Module ProjectRead.
Record t := mk {
  name : string;
  description : option string;
  is_active : bool;
  id : Z;
  created_at : datetime;
  updated_at : datetime;
  owner_id : option Z
}.

Definition model_validate (p : Project.t) : t :=
  mk (Project.name p) (Project.description p) (Project.is_active p)
     (Project.id p) (Project.created_at p) (Project.updated_at p)
     (Project.owner_id p).
End ProjectRead.

Module TagRead.
Record t := mk {
  name : string;
  color : option string;
  id : Z;
  created_at : datetime
}.

Definition model_validate (g : Tag.t) : t :=
  mk (Tag.name g) (Tag.color g) (Tag.id g) (Tag.created_at g).
End TagRead.

Module CommentRead.
Record t := mk {
  content : string;
  id : Z;
  created_at : datetime;
  updated_at : datetime;
  task_id : option Z;
  author_id : option Z
}.

Definition model_validate (c : Comment.t) : t :=
  mk (Comment.content c) (Comment.id c) (Comment.created_at c)
     (Comment.updated_at c) (Comment.task_id c) (Comment.author_id c).
End CommentRead.

Module TaskRead.
Record t := mk {
  title : string;
  description : option string;
  status : TaskStatus.t;
  priority : TaskPriority.t;
  is_completed : bool;
  due_date : option datetime;
  estimated_hours : option float;
  actual_hours : option float;
  id : Z;
  created_at : datetime;
  updated_at : datetime;
  project_id : option Z;
  assignee_id : option Z;
  parent_task_id : option Z
}.

Definition model_validate (k : Task.t) : t :=
  mk (Task.title k) (Task.description k) (Task.status k) (Task.priority k)
     (Task.is_completed k) (Task.due_date k) (Task.estimated_hours k)
     (Task.actual_hours k) (Task.id k) (Task.created_at k)
     (Task.updated_at k) (Task.project_id k) (Task.assignee_id k)
     (Task.parent_task_id k).
End TaskRead.

Module TaskReadWithRelations.
Record t := mk {
  base : TaskRead.t;
  project : option ProjectRead.t;
  assignee : option UserRead.t;
  parent_task : option TaskRead.t;
  subtasks : list TaskRead.t;
  tags : list TagRead.t;
  comments : list CommentRead.t
}.
End TaskReadWithRelations.

(** [ResponseModel[T]]: the standard successful response. *)
Module ResponseModel.
Record t (T : Type) := mk {
  success : bool;
  message : string;
  data : option T
}.

(** [ResponseModel(data=d)]: the other fields take their defaults. *)
Definition of_data {T} (d : T) : t T := mk true "OK" (Some d).
End ResponseModel.

(** What [get_task_stats] returns (a plain [dict]). *)
Module Stats.
Record t := mk {
  total_tasks : Z;
  completed_tasks : Z;
  pending_tasks : Z;
  in_progress_tasks : Z;
  completion_rate : number
}.
End Stats.

(* ===================================================================== *)
(** * 3. The database and the session                                     *)
(* ===================================================================== *)

(** The tables of [SQLModel.metadata], each in the order of its rowid. *)
Record DB := mkDB {
  users : list User.t;
  projects : list Project.t;
  tags : list Tag.t;
  tasks : list Task.t;
  tasktaglink : list TaskTagLink.t;
  comments : list Comment.t
}.

Inductive exn :=
| HTTPException (status_code : Z) (detail : string)
| IntegrityError
| InvalidRequestError
| OverflowError
| ZeroDivisionError.

Inductive result (A : Type) :=
| Return (a : A)
| Raise (e : exn).
Arguments Return {A} a.
Arguments Raise {A} e.

(** A request handler: runs on the committed database, and leaves the
    database as committed when it returned or raised. *)
Definition M (A : Type) : Type := DB -> result A * DB.

Definition ret {A} (a : A) : M A := fun db => (Return a, db).

Definition bind {A B} (m : M A) (k : A -> M B) : M B :=
  fun db =>
    match m db with
    | (Return a, db') => k a db'
    | (Raise e, db') => (Raise e, db')
    end.

Definition raise {A} (e : exn) : M A := fun db => (Raise e, db).

(** A read of the database. *)
Definition query {A} (f : DB -> A) : M A := fun db => (Return (f db), db).

(** A transaction: [f] gives the database to commit, or [None] when a
    constraint fails, and then everything is rolled back. *)
Definition commit (f : DB -> option DB) : M unit :=
  fun db =>
    match f db with
    | Some db' => (Return tt, db')
    | None => (Raise IntegrityError, db)
    end.

Declare Scope monad_scope.
Delimit Scope monad_scope with monad.
Notation "x <- m ;; k" := (bind m (fun x => k))
  (at level 61, m at next level, right associativity) : monad_scope.
Notation "m ;;; k" := (bind m (fun _ => k))
  (at level 61, right associativity) : monad_scope.
Local Open Scope monad_scope.

(** The row of a table with a primary key, if there is one. *)
Definition get_by {A} (pk : A -> Z) (rows : list A) (k : Z) : option A :=
  find (fun r => pk r =? k) rows.

Definition get_User (db : DB) := get_by User.id (users db).
Definition get_Project (db : DB) := get_by Project.id (projects db).
Definition get_Tag (db : DB) := get_by Tag.id (tags db).
Definition get_Task (db : DB) := get_by Task.id (tasks db).

(** [session.get(Model, pk)] in a session that has not loaded the
    object: the key is bound to a SELECT, which raises for an [int]
    the store cannot hold. *)
Definition session_get {A} (get : DB -> Z -> option A) (pk : Z) : M (option A) :=
  if int64 pk then query (fun db => get db pk) else raise OverflowError.

(** The key an INSERT without id receives: an [INTEGER PRIMARY KEY]
    column of the default sqlite database takes the largest key in the
    table plus one (as long as that is a key the store can hold). *)
Definition next_id (ids : list Z) : Z := fold_right Z.max 0 ids + 1.

(** ** The [Task.tags] relationship ([link_model=TaskTagLink]) *)

(** The pair is a row of the link table. *)
Definition has_link (r : TaskTagLink.t) (table : list TaskTagLink.t) : bool :=
  existsb (TaskTagLink.eqb r) table.

(** Loading [task.tags]: the rows of the tag table that a link row
    joins to the task.  They come in the order of the tag table, that
    is, of the tag keys, whatever the order of the link rows. *)
Definition load_tags (db : DB) (task_id : Z) : list Tag.t :=
  filter (fun g => has_link (TaskTagLink.mk task_id (Tag.id g)) (tasktaglink db))
         (tags db).

(** Membership of a tag in a collection, by identity (its key). *)
Definition has_tag (i : Z) (l : list Tag.t) : bool :=
  existsb (fun g => Tag.id g =? i) l.

(** The objects of a list, each once: the session holds one object per
    key, and the unit of work handles a pair of objects once however
    often the list names it. *)
Fixpoint distinct (l : list Tag.t) : list Tag.t :=
  match l with
  | [] => []
  | g :: rest =>
      g :: filter (fun h => negb (Tag.id h =? Tag.id g)) (distinct rest)
  end.

(** The change of a list collection that the unit of work flushes: the
    objects of [current] that were not among the loaded ones are added,
    each once. *)
Definition added (original current : list Tag.t) : list Tag.t :=
  distinct (filter (fun c => negb (has_tag (Tag.id c) original)) current).

(** The loaded members that the collection no longer has. *)
Definition deleted (original current : list Tag.t) : list Tag.t :=
  filter (fun o => negb (has_tag (Tag.id o) current)) original.

(** INSERT of link rows; the composite primary key refuses a pair that
    is already in the table. *)
Fixpoint insert_links (rows table : list TaskTagLink.t)
  : option (list TaskTagLink.t) :=
  match rows with
  | [] => Some table
  | r :: rest =>
      if has_link r table then None else insert_links rest (table ++ [r])
  end.

(** DELETE of link rows. *)
Definition delete_links (rows table : list TaskTagLink.t) : list TaskTagLink.t :=
  filter (fun l => negb (has_link l rows)) table.

(** The link rows of a task for a list of tags. *)
Definition links_of (task_id : Z) (l : list Tag.t) : list TaskTagLink.t :=
  map (fun g => TaskTagLink.mk task_id (Tag.id g)) l.

(** Flushing [task.tags] from [original] (as loaded) to [current]. *)
Definition flush_tags (task_id : Z) (original current : list Tag.t)
    (table : list TaskTagLink.t) : option (list TaskTagLink.t) :=
  insert_links (links_of task_id (added original current))
               (delete_links (links_of task_id (deleted original current)) table).

(** The loop of both handlers:
    [for tag_id in tag_ids: tag = session.get(Tag, tag_id); if tag: tags.append(tag)]. *)
Fixpoint collect_tags (tag_ids : list Z) : M (list Tag.t) :=
  match tag_ids with
  | [] => ret []
  | tag_id :: rest =>
      tag <- session_get get_Tag tag_id ;;
      tags <- collect_tags rest ;;
      ret (match tag with
           | Some tag => tag :: tags
           | None => tags
           end)
  end.

(** ** Writes to the task table *)

Definition with_tasks (db : DB) (t : list Task.t) : DB :=
  mkDB (users db) (projects db) (tags db) t (tasktaglink db) (comments db).

Definition with_links (db : DB) (l : list TaskTagLink.t) : DB :=
  mkDB (users db) (projects db) (tags db) (tasks db) l (comments db).

(** UPDATE of the row with the key of [row]. *)
Definition replace_task (row : Task.t) (rows : list Task.t) : list Task.t :=
  map (fun r => if Task.id r =? Task.id row then row else r) rows.

(** The [Task] built from [task_dict]: the columns of the payload, both
    timestamps from their [default_factory]; the key comes with the
    INSERT. *)
Definition new_Task (task_data : TaskCreate.t) (id : Z)
    (created updated : datetime) : Task.t :=
  Task.mk (TaskCreate.title task_data) (TaskCreate.description task_data)
          (TaskCreate.status task_data) (TaskCreate.priority task_data)
          (TaskCreate.is_completed task_data) (TaskCreate.due_date task_data)
          (TaskCreate.estimated_hours task_data)
          (TaskCreate.actual_hours task_data)
          id created updated
          (TaskCreate.project_id task_data) (TaskCreate.assignee_id task_data)
          (TaskCreate.parent_task_id task_data).

(** A task row as the table holds it. *)
Definition stored (r : Task.t) : Task.t :=
  Task.mk (Task.title r) (Task.description r) (Task.status r)
          (Task.priority r) (Task.is_completed r) (Task.due_date r)
          (real_column (Task.estimated_hours r))
          (real_column (Task.actual_hours r)) (Task.id r)
          (Task.created_at r) (Task.updated_at r) (Task.project_id r)
          (Task.assignee_id r) (Task.parent_task_id r).

(** [session.add(task); session.commit(); session.refresh(task)] on a
    new object: the object is the row as the table gives it back.
    Foreign keys are not enforced by the store (sqlite leaves them off
    unless asked). *)
Definition insert_task (mk_row : Z -> Task.t) : M Task.t :=
  fun db =>
    let row := stored (mk_row (next_id (map Task.id (tasks db)))) in
    (Return row, with_tasks db (tasks db ++ [row])).

(** Rows that referred to a deleted task through a relationship with
    no delete cascade have that foreign key set to NULL. *)
Definition orphan_subtask (task_id : Z) (r : Task.t) : Task.t :=
  if opt_eqb (Task.parent_task_id r) task_id
  then Task.mk (Task.title r) (Task.description r) (Task.status r)
               (Task.priority r) (Task.is_completed r) (Task.due_date r)
               (Task.estimated_hours r) (Task.actual_hours r) (Task.id r)
               (Task.created_at r) (Task.updated_at r) (Task.project_id r)
               (Task.assignee_id r) None
  else r.

(** The same for the comments of the task. *)
Definition orphan_comment (task_id : Z) (c : Comment.t) : Comment.t :=
  if opt_eqb (Comment.task_id c) task_id
  then Comment.mk (Comment.content c) (Comment.id c) (Comment.created_at c)
                  (Comment.updated_at c) None (Comment.author_id c)
  else c.

(** [session.delete(task); session.commit()]: the row goes, and with
    it the link rows of its [tags]; its subtasks and comments stay,
    detached. *)
Definition delete_row (task_id : Z) (db : DB) : DB :=
  mkDB (users db) (projects db) (tags db)
       (map (orphan_subtask task_id)
            (filter (fun r => negb (Task.id r =? task_id)) (tasks db)))
       (filter (fun l => negb (TaskTagLink.task_id l =? task_id)) (tasktaglink db))
       (map (orphan_comment task_id) (comments db)).

(* ===================================================================== *)
(** * 4. The router ([task_router.py])                                    *)
(* ===================================================================== *)

(** [Task.status == status] and the like, as SQL compares: a NULL
    column equals nothing. *)
Definition status_is (x : option TaskStatus.t) (r : Task.t) : bool :=
  match x with
  | Some s => TaskStatus.eqb (Task.status r) s
  | None => false
  end.

Definition priority_is (x : option TaskPriority.t) (r : Task.t) : bool :=
  match x with
  | Some p => TaskPriority.eqb (Task.priority r) p
  | None => false
  end.

Definition sql_eq (column param : option Z) : bool :=
  match column, param with
  | Some a, Some b => a =? b
  | _, _ => false
  end.

Definition truthy_status (x : option TaskStatus.t) : bool :=
  match x with
  | Some s => truthy_str (TaskStatus.value s)
  | None => false
  end.

Definition truthy_priority (x : option TaskPriority.t) : bool :=
  match x with
  | Some p => truthy_str (TaskPriority.value p)
  | None => false
  end.

(** [query.offset(skip).limit(limit)]: a negative OFFSET skips
    nothing, and a negative LIMIT is no limit. *)
Definition offset_limit {A} (skip limit : Z) (rows : list A) : list A :=
  let rest := skipn (Z.to_nat skip) rows in
  if limit <? 0 then rest else firstn (Z.to_nat limit) rest.

(** [GET /]: all tasks with optional filtering.  The statement is
    executed with the filter keys, the offset and the limit bound to
    it. *)
Definition get_tasks (pagination : PaginationParams.t)
    (status : option TaskStatus.t) (priority : option TaskPriority.t)
    (project_id assignee_id : option Z)
  : M (ResponseModel.t (list TaskRead.t)) :=
  tasks <-
    (if int64 (PaginationParams.skip pagination)
        && int64 (PaginationParams.limit pagination)
        && int64_opt project_id && int64_opt assignee_id
     then
       query (fun db =>
         let q := tasks db in
         let q := if truthy_status status
                  then filter (status_is status) q else q in
         let q := if truthy_priority priority
                  then filter (priority_is priority) q else q in
         let q := if truthy_int project_id
                  then filter (fun r => sql_eq (Task.project_id r) project_id) q
                  else q in
         let q := if truthy_int assignee_id
                  then filter (fun r => sql_eq (Task.assignee_id r) assignee_id) q
                  else q in
         offset_limit (PaginationParams.skip pagination)
                      (PaginationParams.limit pagination) q)
     else raise OverflowError) ;;
  ret (ResponseModel.of_data (map TaskRead.model_validate tasks)).

(** Following a many-to-one relationship from its foreign key. *)
Definition follow {A} (get : Z -> option A) (fk : option Z) : option A :=
  match fk with
  | Some k => get k
  | None => None
  end.

(** [TaskReadWithRelations.model_validate(task)]: the relationships are
    loaded from the task's keys, one level deep. *)
Definition expand (db : DB) (task : Task.t) : TaskReadWithRelations.t :=
  TaskReadWithRelations.mk
    (TaskRead.model_validate task)
    (option_map ProjectRead.model_validate
       (follow (get_Project db) (Task.project_id task)))
    (option_map UserRead.model_validate
       (follow (get_User db) (Task.assignee_id task)))
    (option_map TaskRead.model_validate
       (follow (get_Task db) (Task.parent_task_id task)))
    (map TaskRead.model_validate
       (filter (fun r => opt_eqb (Task.parent_task_id r) (Task.id task))
               (tasks db)))
    (map TagRead.model_validate (load_tags db (Task.id task)))
    (map CommentRead.model_validate
       (filter (fun c => opt_eqb (Comment.task_id c) (Task.id task))
               (comments db))).

Definition not_found {A} (detail : string) : M A :=
  raise (HTTPException 404 detail).

(** [session.refresh(task)]: the row is read again by its key. *)
Definition refresh (task : Task.t) : M Task.t :=
  row <- query (fun db => get_Task db (Task.id task)) ;;
  match row with
  | Some row => ret row
  | None => raise InvalidRequestError
  end.

(** [task = session.get(Task, task_id)] followed by
    [if not task: raise HTTPException(404, "Task not found")]. *)
Definition get_task_or_404 (task_id : Z) : M Task.t :=
  task <- session_get get_Task task_id ;;
  match task with
  | Some task => ret task
  | None => not_found "Task not found"
  end.

(** [GET /{task_id}]: a single task with all relationships. *)
Definition get_task (task_id : Z) : M TaskReadWithRelations.t :=
  task <- get_task_or_404 task_id ;;
  query (fun db => expand db task).

(** [if fk: row = session.get(Model, fk); if not row: raise 404]. *)
Definition validate_exists {A} (get : DB -> Z -> option A) (fk : option Z)
    (detail : string) : M unit :=
  if truthy_int fk then
    row <- match fk with
           | Some pk => session_get get pk
           | None => ret None
           end ;;
    if truthy_obj row then ret tt else not_found detail
  else ret tt.

(** [POST /]: create a new task.  [utc_now n] is the [n]-th reading of
    the clock that the default factories of the new row take. *)
Definition create_task (utc_now : nat -> datetime) (task_data : TaskCreate.t)
  : M TaskRead.t :=
  validate_exists get_Project (TaskCreate.project_id task_data)
                  "Project not found" ;;;
  validate_exists get_User (TaskCreate.assignee_id task_data)
                  "User not found" ;;;
  validate_exists get_Task (TaskCreate.parent_task_id task_data)
                  "Parent task not found" ;;;
  task <- insert_task (fun id =>
            new_Task task_data id (utc_now 0%nat) (utc_now 1%nat)) ;;
  task <- (if truthy_list (TaskCreate.tag_ids task_data) then
     tags <- collect_tags (match TaskCreate.tag_ids task_data with
                           | Some l => l
                           | None => []
                           end) ;;
     original <- query (fun db => load_tags db (Task.id task)) ;;
     commit (fun db =>
       option_map (with_links db)
         (flush_tags (Task.id task) original (original ++ tags)
                     (tasktaglink db))) ;;;
     refresh task
   else ret task) ;;
  ret (TaskRead.model_validate task).

(** [model_dump(exclude_unset=True, exclude={"tag_ids"})]: one entry per
    field that the payload gave, with the value it gave. *)
Inductive setting :=
| set_title (v : option string)
| set_description (v : option string)
| set_status (v : option TaskStatus.t)
| set_priority (v : option TaskPriority.t)
| set_is_completed (v : option bool)
| set_due_date (v : option datetime)
| set_estimated_hours (v : option float)
| set_actual_hours (v : option float)
| set_assignee_id (v : option Z).

Definition dump {A} (f : field A) (entry : A -> setting) : list setting :=
  match f with
  | Unset => []
  | Given v => [entry v]
  end.

Definition model_dump (task_data : TaskUpdate.t) : list setting :=
  dump (TaskUpdate.title task_data) set_title
  ++ dump (TaskUpdate.description task_data) set_description
  ++ dump (TaskUpdate.status task_data) set_status
  ++ dump (TaskUpdate.priority task_data) set_priority
  ++ dump (TaskUpdate.is_completed task_data) set_is_completed
  ++ dump (TaskUpdate.due_date task_data) set_due_date
  ++ dump (TaskUpdate.estimated_hours task_data) set_estimated_hours
  ++ dump (TaskUpdate.actual_hours task_data) set_actual_hours
  ++ dump (TaskUpdate.assignee_id task_data) set_assignee_id.

(** [setattr(task, field, value)].  The result is the row as the
    UPDATE will leave it, a float column with what the store keeps of
    the value; it is [None] once a column declared NOT NULL ([title],
    [status], [priority], [is_completed]) holds [None], which the
    flush refuses. *)
Definition setattr (task : Task.t) (s : setting) : option Task.t :=
  let '(Task.mk title description status priority is_completed due_date
                estimated_hours actual_hours id created_at updated_at
                project_id assignee_id parent_task_id) := task in
  match s with
  | set_title v =>
      option_map (fun title =>
        Task.mk title description status priority is_completed due_date
                estimated_hours actual_hours id created_at updated_at
                project_id assignee_id parent_task_id) v
  | set_description description =>
      Some (Task.mk title description status priority is_completed due_date
                    estimated_hours actual_hours id created_at updated_at
                    project_id assignee_id parent_task_id)
  | set_status v =>
      option_map (fun status =>
        Task.mk title description status priority is_completed due_date
                estimated_hours actual_hours id created_at updated_at
                project_id assignee_id parent_task_id) v
  | set_priority v =>
      option_map (fun priority =>
        Task.mk title description status priority is_completed due_date
                estimated_hours actual_hours id created_at updated_at
                project_id assignee_id parent_task_id) v
  | set_is_completed v =>
      option_map (fun is_completed =>
        Task.mk title description status priority is_completed due_date
                estimated_hours actual_hours id created_at updated_at
                project_id assignee_id parent_task_id) v
  | set_due_date due_date =>
      Some (Task.mk title description status priority is_completed due_date
                    estimated_hours actual_hours id created_at updated_at
                    project_id assignee_id parent_task_id)
  | set_estimated_hours v =>
      Some (Task.mk title description status priority is_completed due_date
                    (real_column v) actual_hours id created_at updated_at
                    project_id assignee_id parent_task_id)
  | set_actual_hours v =>
      Some (Task.mk title description status priority is_completed due_date
                    estimated_hours (real_column v) id created_at updated_at
                    project_id assignee_id parent_task_id)
  | set_assignee_id assignee_id =>
      Some (Task.mk title description status priority is_completed due_date
                    estimated_hours actual_hours id created_at updated_at
                    project_id assignee_id parent_task_id)
  end.

(** [for field, value in update_data.items(): setattr(task, field, value)]. *)
Fixpoint setattrs (task : option Task.t) (update_data : list setting)
  : option Task.t :=
  match update_data with
  | [] => task
  | s :: rest =>
      setattrs (match task with
                | Some task => setattr task s
                | None => None
                end) rest
  end.

(** A read of the session flushes what is pending first: the UPDATE of
    a changed object, which a NULL in a NOT NULL column fails. *)
Definition autoflush (row : option Task.t) : M unit :=
  match row with
  | Some _ => ret tt
  | None => raise IntegrityError
  end.

(** The flush of [update_task]: the UPDATE of the row and, when
    [task.tags] was assigned, the change of its link rows, in one
    transaction. *)
Definition flush_update (task_id : Z) (row : option Task.t)
    (assigned : option (list Tag.t * list Tag.t)) (db : DB) : option DB :=
  match row with
  | None => None
  | Some row =>
      let db' := with_tasks db (replace_task row (tasks db)) in
      match assigned with
      | None => Some db'
      | Some (original, tags) =>
          option_map (with_links db')
            (flush_tags task_id original tags (tasktaglink db))
      end
  end.

(** [PUT /{task_id}]: update an existing task. *)
Definition update_task (task_id : Z) (task_data : TaskUpdate.t)
  : M TaskRead.t :=
  task <- get_task_or_404 task_id ;;
  validate_exists get_User (attr (TaskUpdate.assignee_id task_data))
                  "User not found" ;;;
  let update_data := model_dump task_data in
  let row := setattrs (Some task) update_data in
  assigned <- match attr (TaskUpdate.tag_ids task_data) with
              | Some tag_ids =>
                  autoflush row ;;;
                  tags <- collect_tags tag_ids ;;
                  original <- query (fun db => load_tags db (Task.id task)) ;;
                  ret (Some (original, tags))
              | None => ret None
              end ;;
  commit (flush_update (Task.id task) row assigned) ;;;
  task <- refresh task ;;
  ret (TaskRead.model_validate task).

(** [DELETE /{task_id}]: delete a task. *)
Definition delete_task (task_id : Z) : M TaskRead.t :=
  task <- get_task_or_404 task_id ;;
  let task_read := TaskRead.model_validate task in
  commit (fun db => Some (delete_row (Task.id task) db)) ;;;
  ret task_read.

(** [GET /{task_id}/subtasks]: all subtasks of a task. *)
Definition get_subtasks (task_id : Z)
  : M (ResponseModel.t (list TaskRead.t)) :=
  _ <- get_task_or_404 task_id ;;
  subtasks <- query (fun db =>
    filter (fun r => opt_eqb (Task.parent_task_id r) task_id) (tasks db)) ;;
  ret (ResponseModel.of_data (map TaskRead.model_validate subtasks)).

(** [GET /{task_id}/comments]: all comments for a task. *)
Definition get_task_comments (task_id : Z)
  : M (ResponseModel.t (list Comment.t)) :=
  _ <- get_task_or_404 task_id ;;
  comments <- query (fun db =>
    filter (fun c => opt_eqb (Comment.task_id c) task_id) (comments db)) ;;
  ret (ResponseModel.of_data comments).

(** [a / b] on two [int]s: the float nearest to the quotient. *)
Definition truediv (a b : Z) : M float :=
  if b =? 0 then raise ZeroDivisionError
  else ret (SFdiv prec emax (exact_of_int a) (exact_of_int b)).

Definition len {A} (l : list A) : Z := Z.of_nat (List.length l).

(** [GET /stats/summary]: task statistics summary. *)
Definition get_task_stats : M Stats.t :=
  total_tasks <- query (fun db => len (tasks db)) ;;
  completed_tasks <- query (fun db =>
    len (filter Task.is_completed (tasks db))) ;;
  pending_tasks <- query (fun db =>
    len (filter (status_is (Some TaskStatus.PENDING)) (tasks db))) ;;
  in_progress_tasks <- query (fun db =>
    len (filter (status_is (Some TaskStatus.IN_PROGRESS)) (tasks db))) ;;
  rate <- (if total_tasks >? 0 then
             q <- truediv completed_tasks total_tasks ;;
             ret (PyFloat (float_mul q (float_of_int 100)))
           else ret (PyInt 0)) ;;
  ret (Stats.mk total_tasks completed_tasks pending_tasks in_progress_tasks
                (round rate 2)).

(* ===================================================================== *)
(** * 5. The HTTP surface ([main.py] mounts the router under [/tasks])    *)
(* ===================================================================== *)

(** JSON documents.  A [datetime] is kept as its instant. *)
#[local] Unset Elimination Schemes.
Inductive json :=
| JNull
| JBool (b : bool)
| JInt (z : Z)
| JFloat (f : float)
| JStr (s : string)
| JDatetime (t : datetime)
| JArr (items : list json)
| JObj (members : list (string * json)).
#[local] Set Elimination Schemes.

Definition jopt {A} (enc : A -> json) (x : option A) : json :=
  match x with
  | Some a => enc a
  | None => JNull
  end.

Definition jlist {A} (enc : A -> json) (l : list A) : json :=
  JArr (map enc l).

Definition jstatus (s : TaskStatus.t) : json := JStr (TaskStatus.value s).
Definition jpriority (p : TaskPriority.t) : json := JStr (TaskPriority.value p).

Definition TaskRead_members (r : TaskRead.t) : list (string * json) :=
  [ ("title", JStr (TaskRead.title r));
    ("description", jopt JStr (TaskRead.description r));
    ("status", jstatus (TaskRead.status r));
    ("priority", jpriority (TaskRead.priority r));
    ("is_completed", JBool (TaskRead.is_completed r));
    ("due_date", jopt JDatetime (TaskRead.due_date r));
    ("estimated_hours", jopt JFloat (TaskRead.estimated_hours r));
    ("actual_hours", jopt JFloat (TaskRead.actual_hours r));
    ("id", JInt (TaskRead.id r));
    ("created_at", JDatetime (TaskRead.created_at r));
    ("updated_at", JDatetime (TaskRead.updated_at r));
    ("project_id", jopt JInt (TaskRead.project_id r));
    ("assignee_id", jopt JInt (TaskRead.assignee_id r));
    ("parent_task_id", jopt JInt (TaskRead.parent_task_id r)) ].

Definition TaskRead_json (r : TaskRead.t) : json := JObj (TaskRead_members r).

Definition UserRead_json (u : UserRead.t) : json :=
  JObj [ ("username", JStr (UserRead.username u));
         ("email", JStr (UserRead.email u));
         ("full_name", jopt JStr (UserRead.full_name u));
         ("is_active", JBool (UserRead.is_active u));
         ("id", JInt (UserRead.id u));
         ("created_at", JDatetime (UserRead.created_at u));
         ("updated_at", JDatetime (UserRead.updated_at u)) ].

Definition ProjectRead_json (p : ProjectRead.t) : json :=
  JObj [ ("name", JStr (ProjectRead.name p));
         ("description", jopt JStr (ProjectRead.description p));
         ("is_active", JBool (ProjectRead.is_active p));
         ("id", JInt (ProjectRead.id p));
         ("created_at", JDatetime (ProjectRead.created_at p));
         ("updated_at", JDatetime (ProjectRead.updated_at p));
         ("owner_id", jopt JInt (ProjectRead.owner_id p)) ].

Definition TagRead_json (g : TagRead.t) : json :=
  JObj [ ("name", JStr (TagRead.name g));
         ("color", jopt JStr (TagRead.color g));
         ("id", JInt (TagRead.id g));
         ("created_at", JDatetime (TagRead.created_at g)) ].

Definition CommentRead_json (c : CommentRead.t) : json :=
  JObj [ ("content", JStr (CommentRead.content c));
         ("id", JInt (CommentRead.id c));
         ("created_at", JDatetime (CommentRead.created_at c));
         ("updated_at", JDatetime (CommentRead.updated_at c));
         ("task_id", jopt JInt (CommentRead.task_id c));
         ("author_id", jopt JInt (CommentRead.author_id c)) ].

Definition Comment_json (c : Comment.t) : json :=
  JObj [ ("content", JStr (Comment.content c));
         ("id", JInt (Comment.id c));
         ("created_at", JDatetime (Comment.created_at c));
         ("updated_at", JDatetime (Comment.updated_at c));
         ("task_id", jopt JInt (Comment.task_id c));
         ("author_id", jopt JInt (Comment.author_id c)) ].

Definition TaskReadWithRelations_json (r : TaskReadWithRelations.t) : json :=
  JObj (TaskRead_members (TaskReadWithRelations.base r)
        ++ [ ("project", jopt ProjectRead_json (TaskReadWithRelations.project r));
             ("assignee", jopt UserRead_json (TaskReadWithRelations.assignee r));
             ("parent_task",
              jopt TaskRead_json (TaskReadWithRelations.parent_task r));
             ("subtasks", jlist TaskRead_json (TaskReadWithRelations.subtasks r));
             ("tags", jlist TagRead_json (TaskReadWithRelations.tags r));
             ("comments",
              jlist CommentRead_json (TaskReadWithRelations.comments r)) ]).

Definition ResponseModel_json {T} (enc : T -> json) (r : ResponseModel.t T)
  : json :=
  JObj [ ("success", JBool (ResponseModel.success r));
         ("message", JStr (ResponseModel.message r));
         ("data", jopt enc (ResponseModel.data r)) ].

Definition number_json (x : number) : json :=
  match x with
  | PyInt z => JInt z
  | PyFloat f => JFloat f
  end.

Definition Stats_json (s : Stats.t) : json :=
  JObj [ ("total_tasks", JInt (Stats.total_tasks s));
         ("completed_tasks", JInt (Stats.completed_tasks s));
         ("pending_tasks", JInt (Stats.pending_tasks s));
         ("in_progress_tasks", JInt (Stats.in_progress_tasks s));
         ("completion_rate", number_json (Stats.completion_rate s)) ].

(** ** Request validation

    The bounds that the [Field(...)] declarations of the request models
    put on a value. *)
Inductive constraint :=
| Ge (bound : Z)
| Le (bound : Z)
| MinLength (n : Z)
| MaxLength (n : Z).

(** A broken constraint, with the place of the value in the request. *)
Record violation := mkViolation {
  loc : list string;
  broken : constraint
}.

Definition check (ok : bool) (loc : list string) (c : constraint)
  : list violation :=
  if ok then [] else [mkViolation loc c].

(** The length of a [str], in characters. *)
Definition str_len (s : string) : Z := Z.of_nat (String.length s).

Definition check_length (loc : list string) (lo hi : Z) (s : string)
  : list violation :=
  check (lo <=? str_len s) loc (MinLength lo)
  ++ check (str_len s <=? hi) loc (MaxLength hi).

Definition check_hours (loc : list string) (x : option float)
  : list violation :=
  match x with
  | Some f => check (float_ge_0 f) loc (Ge 0)
  | None => []
  end.

(** [PaginationParams]: [skip >= 0], [1 <= limit <= 100]. *)
Definition validate_PaginationParams (p : PaginationParams.t)
  : list violation :=
  check (0 <=? PaginationParams.skip p) ["query"; "skip"] (Ge 0)
  ++ check (1 <=? PaginationParams.limit p) ["query"; "limit"] (Ge 1)
  ++ check (PaginationParams.limit p <=? 100) ["query"; "limit"] (Le 100).

(** [TaskCreate], with the fields of [TaskBase]. *)
Definition validate_TaskCreate (d : TaskCreate.t) : list violation :=
  check_length ["body"; "title"] 1 200 (TaskCreate.title d)
  ++ match TaskCreate.description d with
     | Some text => check (str_len text <=? 1000) ["body"; "description"]
                          (MaxLength 1000)
     | None => []
     end
  ++ check_hours ["body"; "estimated_hours"] (TaskCreate.estimated_hours d)
  ++ check_hours ["body"; "actual_hours"] (TaskCreate.actual_hours d).

(** [TaskUpdate]: a bound applies to a value that is given and not
    [None]. *)
Definition validate_TaskUpdate (d : TaskUpdate.t) : list violation :=
  match attr (TaskUpdate.title d) with
  | Some title => check_length ["body"; "title"] 1 200 title
  | None => []
  end
  ++ check_hours ["body"; "estimated_hours"]
                 (attr (TaskUpdate.estimated_hours d))
  ++ check_hours ["body"; "actual_hours"] (attr (TaskUpdate.actual_hours d)).

(** ** Responses *)

(** The body of a response: a JSON document; the document
    [{"detail": [...]}] with one entry for each violation that request
    validation found; or, as the application is built with
    [debug=True], the plain-text traceback of an exception that no
    handler caught. *)
Inductive content :=
| Json (document : json)
| ValidationErrors (detail : list violation)
| Traceback (e : exn).

Coercion Json : json >-> content.

Record http_response := mkResponse {
  status_code : Z;
  body : content
}.

(** The response of a route: the returned object through its
    [response_model] with status 200; an [HTTPException] as its status
    and detail; any other exception as a 500 with its traceback. *)
Definition respond {A} (enc : A -> json) (r : result A) : http_response :=
  match r with
  | Return a => mkResponse 200 (enc a)
  | Raise (HTTPException code detail) =>
      mkResponse code (JObj [("detail", JStr detail)])
  | Raise e => mkResponse 500 (Traceback e)
  end.

(** The operations of the task surface. *)
Inductive request :=
| GET_tasks (pagination : PaginationParams.t) (status : option TaskStatus.t)
            (priority : option TaskPriority.t) (project_id assignee_id : option Z)
| GET_task (task_id : Z)
| POST_task (task_data : TaskCreate.t)
| PUT_task (task_id : Z) (task_data : TaskUpdate.t)
| DELETE_task (task_id : Z)
| GET_subtasks (task_id : Z)
| GET_task_comments (task_id : Z)
| GET_stats_summary.

Definition route {A} (enc : A -> json) (handler : M A) (db : DB)
  : http_response * DB :=
  let '(r, db') := handler db in (respond enc r, db').

(** What request validation finds in a request, before its handler
    is called. *)
Definition validate (req : request) : list violation :=
  match req with
  | GET_tasks pagination _ _ _ _ => validate_PaginationParams pagination
  | POST_task task_data => validate_TaskCreate task_data
  | PUT_task _ task_data => validate_TaskUpdate task_data
  | _ => []
  end.

Definition dispatch (utc_now : nat -> datetime) (req : request) (db : DB)
  : http_response * DB :=
  match req with
  | GET_tasks pagination status priority project_id assignee_id =>
      route (ResponseModel_json (jlist TaskRead_json))
            (get_tasks pagination status priority project_id assignee_id) db
  | GET_task task_id =>
      route TaskReadWithRelations_json (get_task task_id) db
  | POST_task task_data =>
      route TaskRead_json (create_task utc_now task_data) db
  | PUT_task task_id task_data =>
      route TaskRead_json (update_task task_id task_data) db
  | DELETE_task task_id =>
      route TaskRead_json (delete_task task_id) db
  | GET_subtasks task_id =>
      route (ResponseModel_json (jlist TaskRead_json)) (get_subtasks task_id) db
  | GET_task_comments task_id =>
      route (ResponseModel_json (jlist Comment_json))
            (get_task_comments task_id) db
  | GET_stats_summary => route Stats_json get_task_stats db
  end.

(** A request that breaks a bound of its model is answered with a 422
    and reaches no handler. *)
Definition serve (utc_now : nat -> datetime) (req : request) (db : DB)
  : http_response * DB :=
  match validate req with
  | [] => dispatch utc_now req db
  | detail => (mkResponse 422 (ValidationErrors detail), db)
  end.

(** A member of a JSON object. *)
Fixpoint member (key : string) (members : list (string * json)) : option json :=
  match members with
  | [] => None
  | (k, v) :: rest => if String.eqb k key then Some v else member key rest
  end.

(** The success envelope [{success: true, message, data}]. *)
Definition is_success_envelope (c : content) : Prop :=
  exists members message data,
    c = JObj members
    /\ member "success" members = Some (JBool true)
    /\ member "message" members = Some (JStr message)
    /\ member "data" members = Some data.

(* ===================================================================== *)
(** * 6. The sample data of [init_db]                                     *)
(* ===================================================================== *)

(** The database [init_db] leaves behind when it starts from empty
    tables and every reading of the clock gives [t0]. *)
Definition sample_db (t0 : datetime) : DB :=
  mkDB
    [ User.mk "john_doe" "john@example.com" (Some "John Doe") true 1 t0 t0;
      User.mk "jane_smith" "jane@example.com" (Some "Jane Smith") true 2 t0 t0 ]
    [ Project.mk "Web Application" (Some "Building a modern web application")
                 true 1 t0 t0 (Some 1);
      Project.mk "Mobile App" (Some "Creating a mobile application")
                 true 2 t0 t0 (Some 2) ]
    [ Tag.mk "Frontend" (Some "#3498db") 1 t0;
      Tag.mk "Backend" (Some "#e74c3c") 2 t0;
      Tag.mk "Database" (Some "#2ecc71") 3 t0;
      Tag.mk "Bug Fix" (Some "#f39c12") 4 t0 ]
    [ Task.mk "Create user authentication"
              (Some "Implement JWT authentication for the application")
              TaskStatus.IN_PROGRESS TaskPriority.HIGH false None
              (Some (float_of_int 8)) None 1 t0 t0 (Some 1) (Some 1) None;
      Task.mk "Design database schema"
              (Some "Create the database schema for the application")
              TaskStatus.COMPLETED TaskPriority.MEDIUM true None
              (Some (float_of_int 4)) (Some (binary_normalize prec emax 7 (-1) false))
              2 t0 t0
              (Some 1) (Some 2) None;
      Task.mk "Build React components"
              (Some "Create reusable React components for the UI")
              TaskStatus.PENDING TaskPriority.MEDIUM false None
              (Some (float_of_int 12)) None 3 t0 t0 (Some 1) (Some 1) (Some 1) ]
    [ TaskTagLink.mk 1 2; TaskTagLink.mk 1 3;
      TaskTagLink.mk 2 3; TaskTagLink.mk 3 1 ]
    [ Comment.mk "Great progress on this task!" 1 t0 t0 (Some 1) (Some 2);
      Comment.mk "Schema looks good, ready for implementation" 2 t0 t0
                 (Some 2) (Some 1) ].

(** ** The seeding routine ([database.py]) *)

Definition with_users (db : DB) (u : list User.t) : DB :=
  mkDB u (projects db) (tags db) (tasks db) (tasktaglink db) (comments db).

Definition with_projects (db : DB) (p : list Project.t) : DB :=
  mkDB (users db) p (tags db) (tasks db) (tasktaglink db) (comments db).

Definition with_tags (db : DB) (g : list Tag.t) : DB :=
  mkDB (users db) (projects db) g (tasks db) (tasktaglink db) (comments db).

Definition with_comments (db : DB) (c : list Comment.t) : DB :=
  mkDB (users db) (projects db) (tags db) (tasks db) (tasktaglink db) c.

(** The INSERT of a new row of each of the other tables; rows added
    together are inserted in the order they were added. *)
Definition insert_User (mk_row : Z -> User.t) : M User.t :=
  fun db =>
    let row := mk_row (next_id (map User.id (users db))) in
    (Return row, with_users db (users db ++ [row])).

Definition insert_Project (mk_row : Z -> Project.t) : M Project.t :=
  fun db =>
    let row := mk_row (next_id (map Project.id (projects db))) in
    (Return row, with_projects db (projects db ++ [row])).

Definition insert_Tag (mk_row : Z -> Tag.t) : M Tag.t :=
  fun db =>
    let row := mk_row (next_id (map Tag.id (tags db))) in
    (Return row, with_tags db (tags db ++ [row])).

Definition insert_Comment (mk_row : Z -> Comment.t) : M Comment.t :=
  fun db =>
    let row := mk_row (next_id (map Comment.id (comments db))) in
    (Return row, with_comments db (comments db ++ [row])).

(** [task.parent_task_id = value]. *)
Definition set_parent_task_id (r : Task.t) (value : option Z) : Task.t :=
  Task.mk (Task.title r) (Task.description r) (Task.status r)
          (Task.priority r) (Task.is_completed r) (Task.due_date r)
          (Task.estimated_hours r) (Task.actual_hours r) (Task.id r)
          (Task.created_at r) (Task.updated_at r) (Task.project_id r)
          (Task.assignee_id r) value.

(** Extending [task.tags] of a stored task by [tags], as a step of a
    transaction on the link table. *)
Definition extend_tags (db : DB) (task : Task.t) (tags : list Tag.t)
    (table : list TaskTagLink.t) : option (list TaskTagLink.t) :=
  let original := load_tags (with_links db table) (Task.id task) in
  flush_tags (Task.id task) original (original ++ tags) table.

(** [init_db()]: the sample data, unless there is a user already.
    [utc_now n] is the [n]-th reading of the clock, taken by the
    default factories as the objects are built. *)
Definition init_db (utc_now : nat -> datetime) : M unit :=
  existing_users <- query (fun db => hd_error (users db)) ;;
  if truthy_obj existing_users then ret tt
  else
    user1 <- insert_User (fun id =>
      User.mk "john_doe" "john@example.com" (Some "John Doe") true id
              (utc_now 0%nat) (utc_now 1%nat)) ;;
    user2 <- insert_User (fun id =>
      User.mk "jane_smith" "jane@example.com" (Some "Jane Smith") true id
              (utc_now 2%nat) (utc_now 3%nat)) ;;
    project1 <- insert_Project (fun id =>
      Project.mk "Web Application" (Some "Building a modern web application")
                 true id (utc_now 4%nat) (utc_now 5%nat)
                 (Some (User.id user1))) ;;
    project2 <- insert_Project (fun id =>
      Project.mk "Mobile App" (Some "Creating a mobile application")
                 true id (utc_now 6%nat) (utc_now 7%nat)
                 (Some (User.id user2))) ;;
    tag1 <- insert_Tag (fun id =>
      Tag.mk "Frontend" (Some "#3498db") id (utc_now 8%nat)) ;;
    tag2 <- insert_Tag (fun id =>
      Tag.mk "Backend" (Some "#e74c3c") id (utc_now 9%nat)) ;;
    tag3 <- insert_Tag (fun id =>
      Tag.mk "Database" (Some "#2ecc71") id (utc_now 10%nat)) ;;
    tag4 <- insert_Tag (fun id =>
      Tag.mk "Bug Fix" (Some "#f39c12") id (utc_now 11%nat)) ;;
    task1 <- insert_task (fun id =>
      Task.mk "Create user authentication"
              (Some "Implement JWT authentication for the application")
              TaskStatus.IN_PROGRESS TaskPriority.HIGH false None
              (Some (float_of_int 8)) None id
              (utc_now 12%nat) (utc_now 13%nat)
              (Some (Project.id project1)) (Some (User.id user1)) None) ;;
    task2 <- insert_task (fun id =>
      Task.mk "Design database schema"
              (Some "Create the database schema for the application")
              TaskStatus.COMPLETED TaskPriority.MEDIUM true None
              (Some (float_of_int 4))
              (Some (binary_normalize prec emax 7 (-1) false)) id
              (utc_now 14%nat) (utc_now 15%nat)
              (Some (Project.id project1)) (Some (User.id user2)) None) ;;
    task3 <- insert_task (fun id =>
      Task.mk "Build React components"
              (Some "Create reusable React components for the UI")
              TaskStatus.PENDING TaskPriority.MEDIUM false None
              (Some (float_of_int 12)) None id
              (utc_now 16%nat) (utc_now 17%nat)
              (Some (Project.id project1)) (Some (User.id user1)) None) ;;
    commit (fun db =>
      Some (with_tasks db
              (replace_task (set_parent_task_id task3 (Some (Task.id task1)))
                            (tasks db)))) ;;;
    commit (fun db =>
      match extend_tags db task1 [tag2; tag3] (tasktaglink db) with
      | Some links1 =>
          match extend_tags db task2 [tag3] links1 with
          | Some links2 =>
              option_map (with_links db) (extend_tags db task3 [tag1] links2)
          | None => None
          end
      | None => None
      end) ;;;
    _ <- insert_Comment (fun id =>
      Comment.mk "Great progress on this task!" id
                 (utc_now 18%nat) (utc_now 19%nat)
                 (Some (Task.id task1)) (Some (User.id user2))) ;;
    _ <- insert_Comment (fun id =>
      Comment.mk "Schema looks good, ready for implementation" id
                 (utc_now 20%nat) (utc_now 21%nat)
                 (Some (Task.id task2)) (Some (User.id user1))) ;;
    ret tt.

(** The tables as [create_db_and_tables] makes them. *)
Definition empty_db : DB := mkDB [] [] [] [] [] [].

(* ===================================================================== *)
(** * 7. Vocabulary of the statements                                     *)
(* ===================================================================== *)

(** The expression of [get_task_stats] on two counts. *)
Definition percent_rounded (c t : Z) : number :=
  round (PyFloat (float_mul (SFdiv prec emax (exact_of_int c) (exact_of_int t))
                            (float_of_int 100))) 2.

(** The summary, in closed form. *)
Definition summary (db : DB) : Stats.t :=
  let total := len (tasks db) in
  let completed := len (filter Task.is_completed (tasks db)) in
  Stats.mk total completed
    (len (filter (status_is (Some TaskStatus.PENDING)) (tasks db)))
    (len (filter (status_is (Some TaskStatus.IN_PROGRESS)) (tasks db)))
    (if total =? 0 then PyInt 0 else percent_rounded completed total).

(** ** Rounding, as the specification understands it *)

(** [n] is the integer nearest to [num / den], for [0 < den], and the
    even one when two are equally near. *)
Definition nearest_even (num den n : Z) : Prop :=
  2 * Z.abs (num - n * den) <= den
  /\ (2 * Z.abs (num - n * den) = den -> Z.even n = true).

(** The binary64 number nearest to [n / 100], with the sign [s]. *)
Definition hundredths (s : bool) (n : Z) : float :=
  match n with
  | Zpos n' => SFdiv 53 1024 (S754_finite s n' 0) (S754_finite false 100 0)
  | _ => S754_zero s
  end.

(** [r] is [x] rounded to two decimal places: a float that is an
    integer, an infinity or NaN is left alone; otherwise [r] is the
    float nearest to [n / 100], where [n] is the integer nearest to a
    hundred times the exact value of [|x|]. *)
Definition rounded_to_2 (x r : float) : Prop :=
  match x with
  | S754_finite s m e =>
      if 0 <=? e then r = x
      else exists n, nearest_even (Zpos m * 100) (2 ^ (- e)) n
                     /\ r = hundredths s n
  | _ => r = x
  end.

(** The float of a count. *)
Definition count_float (n : Z) : float :=
  match n with
  | Zpos p => S754_finite false p 0
  | _ => S754_zero false
  end.

(** [c / t * 100] in binary64: the quotient of the two counts rounded
    to the nearest float, times the float 100, rounded again. *)
Definition percent (c t : Z) : float :=
  SFmul 53 1024 (SFdiv 53 1024 (count_float c) (count_float t))
        (S754_finite false 7036874417766400 (-46)).

(** The only [HTTPException] of the router is the 404. *)
Definition is_failure (e : exn) : Prop :=
  match e with
  | HTTPException code _ => code = 404
  | _ => True
  end.

(** Whatever the computation raises is a 404 or no [HTTPException]. *)
Definition fails_properly {A} (m : M A) : Prop :=
  forall db e db', m db = (Raise e, db') -> is_failure e.

(** The envelope [ResponseModel(data=...)] serialises to. *)
Definition envelope (data : json) : json :=
  JObj [("success", JBool true); ("message", JStr "OK"); ("data", data)].

(** The value of a column after an update: the given one when the
    field is present in the payload, the current one otherwise. *)
Definition keep {A} (f : field A) (current : A) : A :=
  match f with
  | Unset => current
  | Given v => v
  end.

(** The same for a column that is NOT NULL, which no update leaves
    NULL. *)
Definition keep_not_null {A} (f : field (option A)) (current : A) : A :=
  match f with
  | Given (Some v) => v
  | _ => current
  end.

(** The same for a REAL column, which holds what the store keeps of a
    given float. *)
Definition keep_real (f : field (option float)) (current : option float)
  : option float :=
  match f with
  | Unset => current
  | Given v => real_column v
  end.

(** What the specification says an update does to a row: a field of
    the payload that is present takes the given value, every other
    column keeps its current one. *)
Definition patched (task_data : TaskUpdate.t) (task : Task.t) : Task.t :=
  Task.mk (keep_not_null (TaskUpdate.title task_data) (Task.title task))
          (keep (TaskUpdate.description task_data) (Task.description task))
          (keep_not_null (TaskUpdate.status task_data) (Task.status task))
          (keep_not_null (TaskUpdate.priority task_data) (Task.priority task))
          (keep_not_null (TaskUpdate.is_completed task_data)
                         (Task.is_completed task))
          (keep (TaskUpdate.due_date task_data) (Task.due_date task))
          (keep_real (TaskUpdate.estimated_hours task_data)
                     (Task.estimated_hours task))
          (keep_real (TaskUpdate.actual_hours task_data)
                     (Task.actual_hours task))
          (Task.id task) (Task.created_at task) (Task.updated_at task)
          (Task.project_id task)
          (keep (TaskUpdate.assignee_id task_data) (Task.assignee_id task))
          (Task.parent_task_id task).

(** The payload writes NULL into a NOT NULL column. *)
Definition nulls_required (task_data : TaskUpdate.t) : Prop :=
  TaskUpdate.title task_data = Given None
  \/ TaskUpdate.status task_data = Given None
  \/ TaskUpdate.priority task_data = Given None
  \/ TaskUpdate.is_completed task_data = Given None.

(** The tags the loop of the handlers collects from ids that the store
    can hold: the row of each id that has one, in the order of the
    list. *)
Fixpoint found_tags (db : DB) (tag_ids : list Z) : list Tag.t :=
  match tag_ids with
  | [] => []
  | tag_id :: rest =>
      match get_Tag db tag_id with
      | Some tag => tag :: found_tags db rest
      | None => found_tags db rest
      end
  end.

(** The tags [update_task] assigns, with the collection as loaded. *)
Definition assigned_tags (db : DB) (task : Task.t) (task_data : TaskUpdate.t)
  : option (list Tag.t * list Tag.t) :=
  match attr (TaskUpdate.tag_ids task_data) with
  | Some tag_ids => Some (load_tags db (Task.id task), found_tags db tag_ids)
  | None => None
  end.

(** Every id of a list that is given is one the store can hold. *)
Definition int64_list (x : option (list Z)) : bool :=
  match x with
  | Some l => forallb int64 l
  | None => true
  end.

(** The list of ids names the tag. *)
Definition named_by (tag_ids : list Z) (g : Tag.t) : bool :=
  existsb (Z.eqb (Tag.id g)) tag_ids.

(** A payload that renames a task and says nothing else. *)
Definition rename (title : string) : TaskUpdate.t :=
  TaskUpdate.mk (Given (Some title)) Unset Unset Unset Unset Unset Unset
                Unset Unset Unset.

(** The reference is given (truthy) and no row has that key. *)
Definition dangling {A} (get : Z -> option A) (fk : option Z) : bool :=
  truthy_int fk && negb (truthy_obj (follow get fk)).

(** The reference passes its check: it is a key the store can hold,
    and it is 0, not given, or the key of a row. *)
Definition reference_ok {A} (get : Z -> option A) (fk : option Z) : bool :=
  int64_opt fk && negb (dangling get fk).

(** The three references of a create request pass. *)
Definition references_pass (db : DB) (task_data : TaskCreate.t) : bool :=
  reference_ok (get_Project db) (TaskCreate.project_id task_data)
  && reference_ok (get_User db) (TaskCreate.assignee_id task_data)
  && reference_ok (get_Task db) (TaskCreate.parent_task_id task_data).

(** The row [create_task] inserts. *)
Definition created_row (utc_now : nat -> datetime) (task_data : TaskCreate.t)
    (db : DB) : Task.t :=
  stored (new_Task task_data (next_id (map Task.id (tasks db)))
                   (utc_now 0%nat) (utc_now 1%nat)).

(** The database after the first commit of [create_task]. *)
Definition db_with_created (utc_now : nat -> datetime)
    (task_data : TaskCreate.t) (db : DB) : DB :=
  with_tasks db (tasks db ++ [created_row utc_now task_data db]).

(** A payload with a title, the defaults of [TaskBase] and the given
    references and tag ids. *)
Definition new_task (title : string) (project_id assignee_id parent_task_id : option Z)
    (tag_ids : option (list Z)) : TaskCreate.t :=
  TaskCreate.mk title None TaskStatus.PENDING TaskPriority.MEDIUM false
                None None None project_id assignee_id parent_task_id tag_ids.

(** The tag id resolves: [session.get(Tag, tag_id)] finds a row. *)
Definition resolves (db : DB) (tag_id : Z) : bool := truthy_obj (get_Tag db tag_id).

(** Every link row belongs to a stored task. *)
Definition links_attached (db : DB) : Prop :=
  forall l, In l (tasktaglink db) -> get_Task db (TaskTagLink.task_id l) <> None.

(** The tag ids of the payload of a create request, replaced. *)
Definition create_with_tag_ids (task_data : TaskCreate.t) (tag_ids : option (list Z))
  : TaskCreate.t :=
  TaskCreate.mk (TaskCreate.title task_data) (TaskCreate.description task_data)
                (TaskCreate.status task_data) (TaskCreate.priority task_data)
                (TaskCreate.is_completed task_data) (TaskCreate.due_date task_data)
                (TaskCreate.estimated_hours task_data)
                (TaskCreate.actual_hours task_data)
                (TaskCreate.project_id task_data)
                (TaskCreate.assignee_id task_data)
                (TaskCreate.parent_task_id task_data) tag_ids.


(** The same for the payload of an update. *)
Definition update_with_tag_ids (task_data : TaskUpdate.t)
    (tag_ids : field (option (list Z))) : TaskUpdate.t :=
  TaskUpdate.mk (TaskUpdate.title task_data) (TaskUpdate.description task_data)
                (TaskUpdate.status task_data) (TaskUpdate.priority task_data)
                (TaskUpdate.is_completed task_data) (TaskUpdate.due_date task_data)
                (TaskUpdate.estimated_hours task_data)
                (TaskUpdate.actual_hours task_data)
                (TaskUpdate.assignee_id task_data) tag_ids.

(** What the schema promises of the tags and the link table: the id is
    the primary key of a tag and the pair of ids that of a link, and
    every link belongs to a stored task. *)
Record consistent (db : DB) : Prop := {
  tags_unique : NoDup (map Tag.id (tags db));
  links_unique : NoDup (tasktaglink db);
  links_have_task : links_attached db
}.

(** A task passes the filters of a listing: each parameter that is
    given, and not 0 for a key, is met. *)
Definition passes (status : option TaskStatus.t)
    (priority : option TaskPriority.t) (project_id assignee_id : option Z)
    (r : Task.t) : bool :=
  match status with
  | Some s => TaskStatus.eqb (Task.status r) s
  | None => true
  end
  && match priority with
     | Some p => TaskPriority.eqb (Task.priority r) p
     | None => true
     end
  && match project_id with
     | Some k => (k =? 0) || opt_eqb (Task.project_id r) k
     | None => true
     end
  && match assignee_id with
     | Some k => (k =? 0) || opt_eqb (Task.assignee_id r) k
     | None => true
     end.

(** The store can hold every integer that a listing binds to its
    statement: the offset, the limit and the two keys. *)
Definition listing_in_range (pagination : PaginationParams.t)
    (project_id assignee_id : option Z) : bool :=
  int64 (PaginationParams.skip pagination)
  && int64 (PaginationParams.limit pagination)
  && int64_opt project_id && int64_opt assignee_id.

(** The requests with the method GET. *)
Definition is_read (req : request) : bool :=
  match req with
  | POST_task _ | PUT_task _ _ | DELETE_task _ => false
  | _ => true
  end.

(** The keys of the task table grow along the table. *)
Definition keys_increasing (db : DB) : Prop :=
  StronglySorted Z.lt (map Task.id (tasks db)).

(** The parent of a task, when it has one, has a smaller key. *)
Definition parents_older (db : DB) : Prop :=
  forall r p, In r (tasks db) -> Task.parent_task_id r = Some p ->
              p < Task.id r.



(** A task has another among its ancestors: its parent, or an ancestor
    of its parent. *)
Inductive ancestor (db : DB) : Z -> Z -> Prop :=
| ancestor_parent r p :
    In r (tasks db) -> Task.parent_task_id r = Some p ->
    ancestor db (Task.id r) p
| ancestor_above r p a :
    In r (tasks db) -> Task.parent_task_id r = Some p ->
    ancestor db p a -> ancestor db (Task.id r) a.

(** A computation that leaves a user table with a row non-empty. *)
Definition keeps_a_user {A} (m : M A) : Prop :=
  forall db r db', users db <> [] -> m db = (r, db') -> users db' <> [].

(** A computation after which the user table has a row. *)
Definition adds_a_user {A} (m : M A) : Prop :=
  forall db r db', m db = (r, db') -> users db' <> [].

(** [1] for [True], [0] for [False], as [int(b)]. *)
Definition int_of_bool (b : bool) : Z := if b then 1 else 0.

(* ===================================================================== *)
(** * 8. Facts about the session                                          *)
(* ===================================================================== *)

Lemma get_by_key {A} (pk : A -> Z) rows k r :
  get_by pk rows k = Some r -> pk r = k.
Proof.
  unfold get_by. intros H. apply find_some in H. destruct H as [_ H].
  now apply Z.eqb_eq.
Qed.

Lemma get_by_In {A} (pk : A -> Z) rows k r :
  get_by pk rows k = Some r -> In r rows.
Proof. unfold get_by. intros H. now apply find_some in H. Qed.

Lemma get_by_None {A} (pk : A -> Z) rows k :
  get_by pk rows k = None <-> (forall r, In r rows -> pk r <> k).
Proof.
  unfold get_by. split.
  - intros H r Hr E. apply (find_none _ _ H) in Hr. apply Z.eqb_neq in Hr.
    contradiction.
  - intros H. induction rows as [|x rows IH]; [reflexivity|]. simpl.
    destruct (Z.eqb_spec (pk x) k) as [E|_].
    + exfalso. apply (H x); [now left | exact E].
    + apply IH. intros r Hr. apply H. now right.
Qed.

Lemma orphan_subtask_id task_id r : Task.id (orphan_subtask task_id r) = Task.id r.
Proof. unfold orphan_subtask. now destruct (opt_eqb _ _). Qed.


Lemma len_nonneg {A} (l : list A) : 0 <= len l.
Proof. unfold len. lia. Qed.

Lemma len_zero {A} (l : list A) : len l = 0 <-> l = [].
Proof.
  unfold len. destruct l; simpl; split; intros H;
    try reflexivity; try discriminate; lia.
Qed.

(** ** Keys the store can and cannot hold *)


Lemma session_get_run {A} (get : DB -> Z -> option A) pk db :
  int64 pk = true -> session_get get pk db = (Return (get db pk), db).
Proof. intros H. unfold session_get. now rewrite H. Qed.

Lemma session_get_overflow {A} (get : DB -> Z -> option A) pk db :
  int64 pk = false -> session_get get pk db = (Raise OverflowError, db).
Proof. intros H. unfold session_get. now rewrite H. Qed.

(** Whatever [session.get] does, it changes nothing; it returns only
    for a key the store can hold, and then what the table has. *)
Lemma session_get_inv {A} (get : DB -> Z -> option A) pk db res db' :
  session_get get pk db = (res, db') ->
  db' = db
  /\ (forall row, res = Return row -> int64 pk = true /\ row = get db pk)
  /\ (forall e, res = Raise e -> int64 pk = false /\ e = OverflowError).
Proof.
  unfold session_get, query, raise.
  destruct (int64 pk); intros H; inversion H; subst;
    (split; [reflexivity|]); split; intros ? E; inversion E; auto.
Qed.

(** The loop over the tag ids, in closed form. *)
Lemma collect_tags_run tag_ids db :
  collect_tags tag_ids db
  = if forallb int64 tag_ids then (Return (found_tags db tag_ids), db)
    else (Raise OverflowError, db).
Proof.
  induction tag_ids as [|i l IH]; [reflexivity|].
  cbn [collect_tags forallb found_tags]. unfold bind at 1.
  unfold session_get. destruct (int64 i); [|reflexivity].
  unfold query. unfold bind at 1. rewrite IH.
  destruct (forallb int64 l); [|reflexivity].
  cbn [andb]. unfold ret. now destruct (get_Tag db i).
Qed.

(* ===================================================================== *)
(** * 9. Listing and statistics                                           *)
(* ===================================================================== *)

(** C9.  In the task list, a filter value of 0 for [project_id] or for
    [assignee_id] constrains nothing: the listing is the one obtained
    with the parameter left out, whatever the other parameters and the
    database are, also when some task has the foreign key 0. *)
Theorem get_tasks_zero_filter_is_absent :
  forall pagination status priority other db,
    get_tasks pagination status priority (Some 0) other db
      = get_tasks pagination status priority None other db
    /\ get_tasks pagination status priority other (Some 0) db
      = get_tasks pagination status priority other None db.
Proof.
  intros pagination status priority other db.
  unfold get_tasks. split; reflexivity.
Qed.

Lemma get_task_stats_summary db : get_task_stats db = (Return (summary db), db).
Proof.
  unfold get_task_stats, summary, bind, query.
  pose proof (len_nonneg (tasks db)) as Hpos.
  destruct (len (tasks db) >? 0) eqn:Hgt.
  - unfold truediv, raise, ret.
    destruct (Z.eqb_spec (len (tasks db)) 0) as [E|NE].
    + rewrite E in Hgt. discriminate.
    + reflexivity.
  - unfold ret.
    assert (len (tasks db) = 0) as E
      by (rewrite Z.gtb_ltb in Hgt; apply Z.ltb_ge in Hgt; lia).
    rewrite E. reflexivity.
Qed.

(** [div_half_even] finds the nearest integer, the even one at a tie. *)
Lemma div_half_even_nearest num den :
  0 < den -> nearest_even num den (div_half_even num den).
Proof.
  intros Hden. unfold nearest_even, div_half_even.
  pose proof (Z.div_mod num den ltac:(lia)) as Hdm.
  pose proof (Z.mod_pos_bound num den Hden) as Hr.
  set (q := num / den) in *. set (r := num mod den) in *.
  destruct (Z.compare_spec (2 * r) den) as [Heq|Hlt|Hgt].
  - destruct (Z.even q) eqn:Hq; split; try lia.
    + intros _. exact Hq.
    + intros _. rewrite Z.even_add, Hq. reflexivity.
  - split; lia.
  - split; lia.
Qed.

(** The float of two counts the handler divides, and the literal 100. *)
Lemma exact_of_int_count n : 0 <= n -> exact_of_int n = count_float n.
Proof. destruct n; intros H; [reflexivity|reflexivity|lia]. Qed.

Lemma float_of_int_100 :
  float_of_int 100 = S754_finite false 7036874417766400 (-46).
Proof. vm_compute. reflexivity. Qed.

(** [round(x, 2)] on a float is the rounding to two decimal places. *)
Lemma float_round_rounded_to_2 x : rounded_to_2 x (float_round x 2).
Proof.
  destruct x as [s|s| |s m e]; try reflexivity.
  unfold rounded_to_2, float_round.
  destruct (0 <=? e) eqn:He; [reflexivity|].
  apply Z.leb_gt in He.
  exists (div_half_even (Z.pos m * 100) (2 ^ (- e))). split.
  - apply div_half_even_nearest. apply Z.pow_pos_nonneg; lia.
  - reflexivity.
Qed.

(** C8.  On every database the statistics summary is returned (no
    division by zero is raised); it counts all tasks as the total and
    the tasks whose [is_completed] flag is set as completed; its
    [completion_rate] is exactly the integer 0 when there is no task,
    and otherwise the float [completed / total * 100], computed in
    binary64, rounded to two decimal places. *)
Theorem get_task_stats_completion_rate :
  forall db,
    exists s,
      get_task_stats db = (Return s, db)
      /\ Stats.total_tasks s = len (tasks db)
      /\ Stats.completed_tasks s = len (filter Task.is_completed (tasks db))
      /\ (Stats.total_tasks s = 0 -> Stats.completion_rate s = PyInt 0)
      /\ (Stats.total_tasks s <> 0 ->
          exists r,
            Stats.completion_rate s = PyFloat r
            /\ rounded_to_2 (percent (Stats.completed_tasks s)
                                     (Stats.total_tasks s)) r).
Proof.
  intros db. exists (summary db).
  split; [apply get_task_stats_summary|].
  split; [reflexivity|]. split; [reflexivity|].
  unfold summary. cbn [Stats.total_tasks Stats.completed_tasks
                       Stats.completion_rate].
  pose proof (len_nonneg (tasks db)) as Ht.
  pose proof (len_nonneg (filter Task.is_completed (tasks db))) as Hc.
  split.
  - intros E. now rewrite E.
  - intros NE. apply Z.eqb_neq in NE. rewrite NE.
    unfold percent_rounded, round, float_mul, prec, emax.
    rewrite float_of_int_100, !exact_of_int_count by assumption.
    eexists. split; [reflexivity|]. apply float_round_rounded_to_2.
Qed.

(** On the sample data, one completed task out of three: the rate is
    a float, the rounding of [1 / 3 * 100]. *)
Lemma get_task_stats_completion_rate_witness :
  exists s r,
    get_task_stats (sample_db 0) = (Return s, sample_db 0)
    /\ Stats.completion_rate s = PyFloat r
    /\ rounded_to_2 (percent 1 3) r.
Proof.
  destruct (get_task_stats_completion_rate (sample_db 0))
    as [s [E [Ht [Hc [_ Hr]]]]].
  change (len (tasks (sample_db 0))) with 3 in Ht.
  change (len (filter Task.is_completed (tasks (sample_db 0)))) with 1 in Hc.
  rewrite Ht, Hc in Hr. destruct Hr as [r [Hrate Hr]]; [discriminate|].
  exists s, r. split; [exact E|]. split; [exact Hrate | exact Hr].
Defined.

(** One completed task out of three gives 33.33 (the binary64 number
    nearest to it). *)
Example get_task_stats_sample :
  option_map Stats.completion_rate
    (match fst (get_task_stats (sample_db 0)) with
     | Return s => Some s
     | Raise _ => None
     end)
  = Some (PyFloat (S754_finite false 4690780486883082 (-47))).
Proof. vm_compute. reflexivity. Qed.

(* ===================================================================== *)
(** * 10. Deleting                                                         *)
(* ===================================================================== *)

Lemma get_task_or_404_found task_id db task :
  int64 task_id = true ->
  get_Task db task_id = Some task ->
  get_task_or_404 task_id db = (Return task, db).
Proof.
  intros Hk H. unfold get_task_or_404, bind.
  rewrite session_get_run by exact Hk. now rewrite H.
Qed.

Lemma get_task_or_404_missing task_id db :
  int64 task_id = true ->
  get_Task db task_id = None ->
  get_task_or_404 task_id db = (Raise (HTTPException 404 "Task not found"), db).
Proof.
  intros Hk H. unfold get_task_or_404, bind.
  rewrite session_get_run by exact Hk. now rewrite H.
Qed.

Lemma get_task_or_404_overflow task_id db :
  int64 task_id = false ->
  get_task_or_404 task_id db = (Raise OverflowError, db).
Proof.
  intros Hk. unfold get_task_or_404, bind.
  now rewrite session_get_overflow by exact Hk.
Qed.

(** What the lookup of the task can come to. *)
Lemma get_task_or_404_inv task_id db res db' :
  get_task_or_404 task_id db = (res, db') ->
  db' = db
  /\ (int64 task_id = false /\ res = Raise OverflowError
      \/ int64 task_id = true /\ get_Task db task_id = None
         /\ res = Raise (HTTPException 404 "Task not found")
      \/ int64 task_id = true
         /\ exists task, get_Task db task_id = Some task /\ res = Return task).
Proof.
  destruct (int64 task_id) eqn:Hk.
  - destruct (get_Task db task_id) as [task|] eqn:Hget.
    + rewrite (get_task_or_404_found _ _ Hk Hget). intros H. inversion H.
      split; [reflexivity|]. right. right. split; [reflexivity|].
      now exists task.
    + rewrite (get_task_or_404_missing _ _ Hk Hget). intros H. inversion H.
      split; [reflexivity|]. right. left. auto.
  - rewrite (get_task_or_404_overflow _ _ Hk). intros H. inversion H.
    split; [reflexivity|]. left. auto.
Qed.




(* ===================================================================== *)
(** * 11. Response bodies                                                 *)
(* ===================================================================== *)

Lemma fails_ret {A} (a : A) : fails_properly (ret a).
Proof. intros db e db' H. discriminate. Qed.

Lemma fails_query {A} (f : DB -> A) : fails_properly (query f).
Proof. intros db e db' H. discriminate. Qed.

Lemma fails_not_found {A} detail : fails_properly (@not_found A detail).
Proof. intros db e db' H. inversion H. reflexivity. Qed.

Lemma fails_commit f : fails_properly (commit f).
Proof.
  intros db e db' H. unfold commit in H.
  destruct (f db); inversion H. exact I.
Qed.

Lemma fails_bind {A B} (m : M A) (k : A -> M B) :
  fails_properly m -> (forall a, fails_properly (k a)) ->
  fails_properly (bind m k).
Proof.
  intros Hm Hk db e db' H. unfold bind in H.
  destruct (m db) as [[a|e0] db0] eqn:E.
  - exact (Hk a _ _ _ H).
  - inversion H; subst. exact (Hm _ _ _ E).
Qed.

Lemma fails_raise {A} e : is_failure e -> fails_properly (@raise A e).
Proof. intros He db e' db' H. inversion H; subst. exact He. Qed.

Lemma fails_session_get {A} (get : DB -> Z -> option A) pk :
  fails_properly (session_get get pk).
Proof.
  unfold session_get. destruct (int64 pk); [apply fails_query|].
  now apply fails_raise.
Qed.

Lemma fails_collect_tags tag_ids : fails_properly (collect_tags tag_ids).
Proof.
  intros db e db' H. rewrite collect_tags_run in H.
  destruct (forallb int64 tag_ids); inversion H. exact I.
Qed.

Lemma fails_autoflush row : fails_properly (autoflush row).
Proof.
  destruct row; [apply fails_ret | now apply fails_raise].
Qed.

Lemma fails_get_task_or_404 task_id : fails_properly (get_task_or_404 task_id).
Proof.
  unfold get_task_or_404. apply fails_bind; [apply fails_session_get|].
  intros [task|]; [apply fails_ret | apply fails_not_found].
Qed.

Lemma fails_refresh task : fails_properly (refresh task).
Proof.
  unfold refresh. apply fails_bind; [apply fails_query|].
  intros [row|]; [apply fails_ret|]. intros db e db' H. inversion H. exact I.
Qed.

Lemma fails_validate_exists {A} (get : DB -> Z -> option A) fk detail :
  fails_properly (validate_exists get fk detail).
Proof.
  unfold validate_exists. destruct (truthy_int fk); [|apply fails_ret].
  apply fails_bind;
    [destruct fk; [apply fails_session_get | apply fails_ret]|].
  intros row. destruct (truthy_obj row); [apply fails_ret | apply fails_not_found].
Qed.

Create HintDb fails.
#[local] Hint Resolve fails_ret fails_query fails_not_found fails_commit
  fails_get_task_or_404 fails_refresh fails_validate_exists
  fails_session_get fails_collect_tags fails_autoflush : fails.

Ltac fails_step :=
  match goal with
  | |- fails_properly (bind _ _) => apply fails_bind; [|intros ?]
  | |- fails_properly (if ?c then _ else _) => destruct c
  | |- fails_properly (match ?c with Some _ => _ | None => _ end) => destruct c
  | |- fails_properly (raise _) => apply fails_raise; exact I
  | |- fails_properly _ => solve [auto with fails]
  end.

Lemma fails_get_tasks pagination status priority project_id assignee_id :
  fails_properly (get_tasks pagination status priority project_id assignee_id).
Proof. unfold get_tasks. repeat fails_step. Qed.

Lemma fails_get_task task_id : fails_properly (get_task task_id).
Proof. unfold get_task. repeat fails_step. Qed.

Lemma fails_create_task utc_now task_data :
  fails_properly (create_task utc_now task_data).
Proof.
  unfold create_task. repeat fails_step.
  intros db e db' H. discriminate.
Qed.

Lemma fails_update_task task_id task_data :
  fails_properly (update_task task_id task_data).
Proof. unfold update_task. repeat fails_step. Qed.

Lemma fails_delete_task task_id : fails_properly (delete_task task_id).
Proof. unfold delete_task. repeat fails_step. Qed.

Lemma fails_get_subtasks task_id : fails_properly (get_subtasks task_id).
Proof. unfold get_subtasks. repeat fails_step. Qed.

Lemma fails_get_task_comments task_id :
  fails_properly (get_task_comments task_id).
Proof. unfold get_task_comments. repeat fails_step. Qed.

Lemma fails_get_task_stats : fails_properly get_task_stats.
Proof.
  intros db e db' H. rewrite get_task_stats_summary in H. discriminate.
Qed.

(** A route answers 200 exactly when its handler returned. *)
Lemma route_200 {A} (enc : A -> json) (handler : M A) db resp db' :
  fails_properly handler ->
  route enc handler db = (resp, db') ->
  status_code resp = 200 ->
  exists a, handler db = (Return a, db') /\ body resp = enc a.
Proof.
  intros Hf H H200. unfold route in H.
  destruct (handler db) as [[a|e] d] eqn:E; inversion H; subst.
  - now exists a.
  - apply Hf in E. destruct e; simpl in *; try discriminate.
    rewrite E in H200. discriminate.
Qed.

Lemma envelope_is_success_envelope data : is_success_envelope (envelope data).
Proof. exists [("success", JBool true); ("message", JStr "OK"); ("data", data)], "OK", data. repeat split. Qed.

Lemma TaskRead_json_bare r : ~ is_success_envelope (TaskRead_json r).
Proof.
  intros [members [message [data [E [Hs _]]]]].
  inversion E; subst. discriminate.
Qed.

Lemma TaskReadWithRelations_json_bare r :
  ~ is_success_envelope (TaskReadWithRelations_json r).
Proof.
  intros [members [message [data [E [Hs _]]]]].
  inversion E; subst. discriminate.
Qed.

Lemma Stats_json_bare s : ~ is_success_envelope (Stats_json s).
Proof.
  intros [members [message [data [E [Hs _]]]]].
  inversion E; subst. discriminate.
Qed.

Lemma get_tasks_returns pagination status priority project_id assignee_id db a db' :
  get_tasks pagination status priority project_id assignee_id db = (Return a, db') ->
  exists rows, a = ResponseModel.of_data rows.
Proof.
  unfold get_tasks, bind, query, ret, raise.
  destruct (_ && _); intros H; inversion H. eauto.
Qed.

Lemma get_subtasks_returns task_id db a db' :
  get_subtasks task_id db = (Return a, db') ->
  exists rows, a = ResponseModel.of_data rows.
Proof.
  unfold get_subtasks, bind. intros H.
  destruct (get_task_or_404 task_id db) as [[task|e] d]; inversion H. eauto.
Qed.

Lemma get_task_comments_returns task_id db a db' :
  get_task_comments task_id db = (Return a, db') ->
  exists rows, a = ResponseModel.of_data rows.
Proof.
  unfold get_task_comments, bind. intros H.
  destruct (get_task_or_404 task_id db) as [[task|e] d]; inversion H. eauto.
Qed.

(** C2, as the code has it.  Of the successful (status 200) responses
    of the task surface, those of the list, subtasks and comments
    routes are the envelope with [success = true], [message = "OK"] and
    the array under [data]; those of the single get, create, update and
    delete routes are the bare read projection of the task, and those
    of the statistics route the bare summary: objects that have no
    [success] member. *)
Theorem success_bodies_of_task_surface :
  forall utc_now req db resp db',
    serve utc_now req db = (resp, db') ->
    status_code resp = 200 ->
    match req with
    | GET_tasks _ _ _ _ _ | GET_subtasks _ =>
        is_success_envelope (body resp)
        /\ exists rows, body resp = envelope (jlist TaskRead_json rows)
    | GET_task_comments _ =>
        is_success_envelope (body resp)
        /\ exists rows, body resp = envelope (jlist Comment_json rows)
    | GET_task _ =>
        ~ is_success_envelope (body resp)
        /\ exists r, body resp = TaskReadWithRelations_json r
    | POST_task _ | PUT_task _ _ | DELETE_task _ =>
        ~ is_success_envelope (body resp)
        /\ exists r, body resp = TaskRead_json r
    | GET_stats_summary =>
        ~ is_success_envelope (body resp)
        /\ exists s, body resp = Stats_json s
    end.
Proof.
  intros utc_now req db resp db' H H200. unfold serve in H.
  destruct (validate req) as [|v detail];
    [|inversion H; subst; discriminate].
  destruct req; cbn [dispatch] in H.
  - apply route_200 in H; [|apply fails_get_tasks|exact H200].
    destruct H as [a [E ->]]. apply get_tasks_returns in E.
    destruct E as [rows ->]. split; [apply envelope_is_success_envelope|].
    now exists rows.
  - apply route_200 in H; [|apply fails_get_task|exact H200].
    destruct H as [a [_ ->]].
    split; [apply TaskReadWithRelations_json_bare | now exists a].
  - apply route_200 in H; [|apply fails_create_task|exact H200].
    destruct H as [a [_ ->]]. split; [apply TaskRead_json_bare | now exists a].
  - apply route_200 in H; [|apply fails_update_task|exact H200].
    destruct H as [a [_ ->]]. split; [apply TaskRead_json_bare | now exists a].
  - apply route_200 in H; [|apply fails_delete_task|exact H200].
    destruct H as [a [_ ->]]. split; [apply TaskRead_json_bare | now exists a].
  - apply route_200 in H; [|apply fails_get_subtasks|exact H200].
    destruct H as [a [E ->]]. apply get_subtasks_returns in E.
    destruct E as [rows ->]. split; [apply envelope_is_success_envelope|].
    now exists rows.
  - apply route_200 in H; [|apply fails_get_task_comments|exact H200].
    destruct H as [a [E ->]]. apply get_task_comments_returns in E.
    destruct E as [rows ->]. split; [apply envelope_is_success_envelope|].
    now exists rows.
  - apply route_200 in H; [|apply fails_get_task_stats|exact H200].
    destruct H as [a [_ ->]]. split; [apply Stats_json_bare | now exists a].
Qed.

(** On the sample data: the listing of the first two tasks is an
    envelope. *)
Lemma success_bodies_of_task_surface_witness :
  is_success_envelope
    (body (fst (serve (fun _ => 0)
                  (GET_tasks (PaginationParams.mk 0 2) None None None None)
                  (sample_db 0)))).
Proof.
  exact (proj1 (success_bodies_of_task_surface (fun _ => 0)
                  (GET_tasks (PaginationParams.mk 0 2) None None None None)
                  (sample_db 0) eq_refl eq_refl)).
Defined.

(** C2 fails as stated: the single get of task 1 of the sample data
    succeeds with status 200, and its body is not an envelope. *)
Lemma get_task_body_is_no_envelope :
  status_code (fst (serve (fun _ => 0) (GET_task 1) (sample_db 0))) = 200
  /\ ~ is_success_envelope
         (body (fst (serve (fun _ => 0) (GET_task 1) (sample_db 0)))).
Proof.
  split; [reflexivity|].
  intros [members [message [data [E [Hs _]]]]].
  vm_compute in E. inversion E; subst. vm_compute in Hs. discriminate.
Qed.

(* ===================================================================== *)
(** * 12. Updating                                                        *)
(* ===================================================================== *)

Lemma setattrs_None l : setattrs None l = None.
Proof. induction l as [|s l IH]; [reflexivity | exact IH]. Qed.

Lemma setattrs_app o l1 l2 : setattrs o (l1 ++ l2) = setattrs (setattrs o l1) l2.
Proof.
  revert o. induction l1 as [|s l1 IH]; intros o; [reflexivity|].
  simpl. apply IH.
Qed.

(** One field of the payload at a time. *)
Section OneField.
Variable k k' : Task.t.

Ltac one_field f :=
  destruct k; destruct f as [|[v|]]; simpl; intros H;
  inversion H; reflexivity.

Lemma dump_title f :
  setattrs (Some k) (dump f set_title) = Some k' ->
  k' = Task.mk (keep_not_null f (Task.title k)) (Task.description k)
         (Task.status k) (Task.priority k) (Task.is_completed k)
         (Task.due_date k) (Task.estimated_hours k) (Task.actual_hours k)
         (Task.id k) (Task.created_at k) (Task.updated_at k)
         (Task.project_id k) (Task.assignee_id k) (Task.parent_task_id k).
Proof. one_field f. Qed.

Lemma dump_description f :
  setattrs (Some k) (dump f set_description) = Some k' ->
  k' = Task.mk (Task.title k) (keep f (Task.description k))
         (Task.status k) (Task.priority k) (Task.is_completed k)
         (Task.due_date k) (Task.estimated_hours k) (Task.actual_hours k)
         (Task.id k) (Task.created_at k) (Task.updated_at k)
         (Task.project_id k) (Task.assignee_id k) (Task.parent_task_id k).
Proof. one_field f. Qed.

Lemma dump_status f :
  setattrs (Some k) (dump f set_status) = Some k' ->
  k' = Task.mk (Task.title k) (Task.description k)
         (keep_not_null f (Task.status k)) (Task.priority k)
         (Task.is_completed k)
         (Task.due_date k) (Task.estimated_hours k) (Task.actual_hours k)
         (Task.id k) (Task.created_at k) (Task.updated_at k)
         (Task.project_id k) (Task.assignee_id k) (Task.parent_task_id k).
Proof. one_field f. Qed.

Lemma dump_priority f :
  setattrs (Some k) (dump f set_priority) = Some k' ->
  k' = Task.mk (Task.title k) (Task.description k)
         (Task.status k) (keep_not_null f (Task.priority k))
         (Task.is_completed k)
         (Task.due_date k) (Task.estimated_hours k) (Task.actual_hours k)
         (Task.id k) (Task.created_at k) (Task.updated_at k)
         (Task.project_id k) (Task.assignee_id k) (Task.parent_task_id k).
Proof. one_field f. Qed.

Lemma dump_is_completed f :
  setattrs (Some k) (dump f set_is_completed) = Some k' ->
  k' = Task.mk (Task.title k) (Task.description k)
         (Task.status k) (Task.priority k)
         (keep_not_null f (Task.is_completed k))
         (Task.due_date k) (Task.estimated_hours k) (Task.actual_hours k)
         (Task.id k) (Task.created_at k) (Task.updated_at k)
         (Task.project_id k) (Task.assignee_id k) (Task.parent_task_id k).
Proof. one_field f. Qed.

Lemma dump_due_date f :
  setattrs (Some k) (dump f set_due_date) = Some k' ->
  k' = Task.mk (Task.title k) (Task.description k)
         (Task.status k) (Task.priority k) (Task.is_completed k)
         (keep f (Task.due_date k)) (Task.estimated_hours k)
         (Task.actual_hours k)
         (Task.id k) (Task.created_at k) (Task.updated_at k)
         (Task.project_id k) (Task.assignee_id k) (Task.parent_task_id k).
Proof. one_field f. Qed.

Lemma dump_estimated_hours f :
  setattrs (Some k) (dump f set_estimated_hours) = Some k' ->
  k' = Task.mk (Task.title k) (Task.description k)
         (Task.status k) (Task.priority k) (Task.is_completed k)
         (Task.due_date k) (keep_real f (Task.estimated_hours k))
         (Task.actual_hours k)
         (Task.id k) (Task.created_at k) (Task.updated_at k)
         (Task.project_id k) (Task.assignee_id k) (Task.parent_task_id k).
Proof. one_field f. Qed.

Lemma dump_actual_hours f :
  setattrs (Some k) (dump f set_actual_hours) = Some k' ->
  k' = Task.mk (Task.title k) (Task.description k)
         (Task.status k) (Task.priority k) (Task.is_completed k)
         (Task.due_date k) (Task.estimated_hours k)
         (keep_real f (Task.actual_hours k))
         (Task.id k) (Task.created_at k) (Task.updated_at k)
         (Task.project_id k) (Task.assignee_id k) (Task.parent_task_id k).
Proof. one_field f. Qed.

Lemma dump_assignee_id f :
  setattrs (Some k) (dump f set_assignee_id) = Some k' ->
  k' = Task.mk (Task.title k) (Task.description k)
         (Task.status k) (Task.priority k) (Task.is_completed k)
         (Task.due_date k) (Task.estimated_hours k) (Task.actual_hours k)
         (Task.id k) (Task.created_at k) (Task.updated_at k)
         (Task.project_id k) (keep f (Task.assignee_id k))
         (Task.parent_task_id k).
Proof. one_field f. Qed.
End OneField.

Ltac peel H lemma :=
  rewrite setattrs_app in H;
  match type of H with
  | setattrs (setattrs (Some ?k) ?d) _ = Some _ =>
      let k1 := fresh "k" in
      let E := fresh "E" in
      destruct (setattrs (Some k) d) as [k1|] eqn:E;
      [ apply lemma in E; simpl in E; subst k1
      | rewrite setattrs_None in H; discriminate H ]
  end.

(** The loop of [update_task] over the dumped payload computes the
    patched row. *)
Lemma setattrs_model_dump task_data task row :
  setattrs (Some task) (model_dump task_data) = Some row ->
  row = patched task_data task.
Proof.
  unfold model_dump. intros H. destruct task.
  peel H dump_title. peel H dump_description. peel H dump_status.
  peel H dump_priority. peel H dump_is_completed. peel H dump_due_date.
  peel H dump_estimated_hours. peel H dump_actual_hours.
  apply dump_assignee_id in H. subst row. reflexivity.
Qed.


Lemma setattrs_nulls task_data task :
  nulls_required task_data ->
  setattrs (Some task) (model_dump task_data) = None.
Proof.
  assert (forall o s, (s = set_title None \/ s = set_status None
                       \/ s = set_priority None \/ s = set_is_completed None) ->
                      setattrs o [s] = None) as Hnull.
  { intros [k|] s Hs; [|reflexivity].
    destruct k; destruct Hs as [->|[->|[->| ->]]]; reflexivity. }
  unfold model_dump, nulls_required. rewrite !setattrs_app.
  assert (forall A (v : A) e, dump (Given v) e = [e v]) as Hdump
    by reflexivity.
  intros [H|[H|[H|H]]]; rewrite H, Hdump;
    rewrite Hnull by tauto; now rewrite ?setattrs_None.
Qed.

(** The check of a reference, in closed form. *)
Lemma validate_exists_cases {A} (get : DB -> Z -> option A) fk detail db :
  validate_exists get fk detail db
  = if truthy_int fk then
      if int64_opt fk then
        if truthy_obj (follow (get db) fk) then (Return tt, db)
        else (Raise (HTTPException 404 detail), db)
      else (Raise OverflowError, db)
    else (Return tt, db).
Proof.
  unfold validate_exists. destruct (truthy_int fk) eqn:Ht; [|reflexivity].
  destruct fk as [pk|]; [|discriminate]. cbn [int64_opt follow].
  unfold bind, session_get. destruct (int64 pk); [|reflexivity].
  unfold query, not_found, raise, ret. now destruct (truthy_obj (get db pk)).
Qed.

Lemma validate_exists_run {A} (get : DB -> Z -> option A) fk detail db :
  int64_opt fk = true ->
  validate_exists get fk detail db
  = if truthy_int fk && negb (truthy_obj (follow (get db) fk))
    then (Raise (HTTPException 404 detail), db)
    else (Return tt, db).
Proof.
  intros Hfk. rewrite validate_exists_cases, Hfk.
  destruct (truthy_int fk); [|reflexivity].
  now destruct (truthy_obj (follow (get db) fk)).
Qed.

(** A key that the store cannot hold is not 0, so it is looked up. *)
Lemma validate_exists_overflow {A} (get : DB -> Z -> option A) fk detail db :
  int64_opt fk = false ->
  validate_exists get fk detail db = (Raise OverflowError, db).
Proof.
  intros Hfk. rewrite validate_exists_cases, Hfk.
  destruct fk as [pk|]; [|discriminate]. cbn [int64_opt] in Hfk.
  cbn [truthy_int]. destruct (Z.eqb_spec pk 0) as [->|_]; [discriminate|].
  reflexivity.
Qed.

(** The check changes nothing, and returns or raises. *)
Lemma validate_exists_inv {A} (get : DB -> Z -> option A) fk detail db res db' :
  validate_exists get fk detail db = (res, db') ->
  db' = db
  /\ (res = Return tt /\ int64_opt fk = true
      /\ truthy_int fk && negb (truthy_obj (follow (get db) fk)) = false
      \/ res = Raise (HTTPException 404 detail) /\ int64_opt fk = true
         /\ truthy_int fk && negb (truthy_obj (follow (get db) fk)) = true
      \/ res = Raise OverflowError /\ int64_opt fk = false).
Proof.
  destruct (int64_opt fk) eqn:Hfk.
  - rewrite validate_exists_run by exact Hfk.
    destruct (truthy_int fk && _) eqn:E; intros H; inversion H; subst;
      (split; [reflexivity|]); auto.
  - rewrite validate_exists_overflow by exact Hfk.
    intros H; inversion H; subst. auto.
Qed.

Lemma get_replace_same rows row k old :
  get_by Task.id rows k = Some old ->
  Task.id row = k ->
  get_by Task.id (replace_task row rows) k = Some row.
Proof.
  unfold get_by, replace_task. intros H <-.
  induction rows as [|a rows IH]; [discriminate|]. simpl in *.
  destruct (Z.eqb_spec (Task.id a) (Task.id row)) as [E|NE].
  - now rewrite Z.eqb_refl.
  - destruct (Z.eqb_spec (Task.id a) (Task.id row)); [contradiction|].
    now apply IH.
Qed.

Lemma get_replace_other rows row j :
  Task.id row <> j ->
  get_by Task.id (replace_task row rows) j = get_by Task.id rows j.
Proof.
  unfold get_by, replace_task. intros Hne.
  induction rows as [|a rows IH]; [reflexivity|]. simpl.
  destruct (Z.eqb_spec (Task.id a) (Task.id row)) as [E|NE].
  - destruct (Z.eqb_spec (Task.id row) j); [contradiction|].
    destruct (Z.eqb_spec (Task.id a) j); [congruence|]. exact IH.
  - destruct (Z.eqb_spec (Task.id a) j); [reflexivity | exact IH].
Qed.

(** [update_task] on an existing task, step by step, when every key of
    the request is one the store can hold. *)
Lemma update_task_run task_id task_data db task :
  int64 task_id = true ->
  get_Task db task_id = Some task ->
  int64_opt (attr (TaskUpdate.assignee_id task_data)) = true ->
  int64_list (attr (TaskUpdate.tag_ids task_data)) = true ->
  update_task task_id task_data db
  = if truthy_int (attr (TaskUpdate.assignee_id task_data))
       && negb (truthy_obj (follow (get_User db)
                              (attr (TaskUpdate.assignee_id task_data))))
    then (Raise (HTTPException 404 "User not found"), db)
    else
      match flush_update (Task.id task)
              (setattrs (Some task) (model_dump task_data))
              (assigned_tags db task task_data) db with
      | None => (Raise IntegrityError, db)
      | Some db1 =>
          match get_Task db1 (Task.id task) with
          | Some row => (Return (TaskRead.model_validate row), db1)
          | None => (Raise InvalidRequestError, db1)
          end
      end.
Proof.
  intros Hk Hget Ha Hl. unfold update_task, bind at 1.
  rewrite (get_task_or_404_found _ _ Hk Hget). unfold bind at 1.
  rewrite validate_exists_run by exact Ha.
  destruct (truthy_int _ && _); [reflexivity|].
  unfold assigned_tags, int64_list in *.
  destruct (attr (TaskUpdate.tag_ids task_data)) as [tag_ids|].
  - destruct (setattrs (Some task) (model_dump task_data)) as [row|].
    + unfold autoflush. unfold bind. unfold ret at 1.
      rewrite collect_tags_run, Hl.
      unfold refresh, commit, bind, query, ret, raise.
      destruct (flush_update _ _ _ db) as [db1|]; [|reflexivity].
      destruct (get_Task db1 (Task.id task)); reflexivity.
    + reflexivity.
  - unfold refresh, commit, bind, query, ret, raise.
    destruct (flush_update _ _ _ db) as [db1|]; [|reflexivity].
    destruct (get_Task db1 (Task.id task)); reflexivity.
Qed.

(** [update_task] raises [OverflowError] for a key that the store
    cannot hold: the id of the task; the assignee, once the task is
    found; an id of the tag list, once the row passed. *)
Lemma update_task_overflow task_id task_data db :
  (int64 task_id = false ->
   update_task task_id task_data db = (Raise OverflowError, db))
  /\ (forall task,
        int64 task_id = true -> get_Task db task_id = Some task ->
        int64_opt (attr (TaskUpdate.assignee_id task_data)) = false ->
        update_task task_id task_data db = (Raise OverflowError, db))
  /\ (forall task,
        int64 task_id = true -> get_Task db task_id = Some task ->
        int64_opt (attr (TaskUpdate.assignee_id task_data)) = true ->
        dangling (get_User db) (attr (TaskUpdate.assignee_id task_data))
        = false ->
        int64_list (attr (TaskUpdate.tag_ids task_data)) = false ->
        update_task task_id task_data db
        = (Raise (if truthy_obj (setattrs (Some task) (model_dump task_data))
                  then OverflowError else IntegrityError), db)).
Proof.
  split; [|split].
  - intros Hk. unfold update_task, bind at 1.
    now rewrite (get_task_or_404_overflow _ _ Hk).
  - intros task Hk Hget Ha. unfold update_task, bind at 1.
    rewrite (get_task_or_404_found _ _ Hk Hget). unfold bind at 1.
    now rewrite validate_exists_overflow by exact Ha.
  - intros task Hk Hget Ha Hd Hl. unfold update_task, bind at 1.
    rewrite (get_task_or_404_found _ _ Hk Hget). unfold bind at 1.
    rewrite validate_exists_run by exact Ha. unfold dangling in Hd.
    rewrite Hd. unfold int64_list in Hl.
    destruct (attr (TaskUpdate.tag_ids task_data)) as [tag_ids|];
      [|discriminate].
    destruct (setattrs (Some task) (model_dump task_data)) as [row|].
    + unfold autoflush. unfold bind. unfold ret at 1.
      now rewrite collect_tags_run, Hl.
    + reflexivity.
Qed.

(** What a flushed update leaves in the database. *)
Lemma flush_update_inv task_id row assigned db db1 :
  flush_update task_id row assigned db = Some db1 ->
  exists r,
    row = Some r
    /\ tasks db1 = replace_task r (tasks db)
    /\ users db1 = users db /\ projects db1 = projects db
    /\ tags db1 = tags db /\ comments db1 = comments db
    /\ match assigned with
       | None => tasktaglink db1 = tasktaglink db
       | Some (original, current) =>
           flush_tags task_id original current (tasktaglink db)
           = Some (tasktaglink db1)
       end.
Proof.
  unfold flush_update. destruct row as [r|]; [|discriminate].
  destruct assigned as [[original current]|].
  - destruct (flush_tags _ _ _ _) as [l|]; [|discriminate].
    intros H. inversion H. exists r. repeat split; reflexivity.
  - intros H. inversion H. exists r. repeat split; reflexivity.
Qed.

Lemma update_task_user_missing task_id task_data db task :
  int64 task_id = true -> get_Task db task_id = Some task ->
  int64_opt (attr (TaskUpdate.assignee_id task_data)) = true ->
  dangling (get_User db) (attr (TaskUpdate.assignee_id task_data)) = true ->
  update_task task_id task_data db
  = (Raise (HTTPException 404 "User not found"), db).
Proof.
  intros Hk Hget Ha Hd. unfold update_task, bind at 1.
  rewrite (get_task_or_404_found _ _ Hk Hget). unfold bind at 1.
  rewrite validate_exists_run by exact Ha. unfold dangling in Hd.
  now rewrite Hd.
Qed.

(** Every outcome of [update_task] on an existing task: it raises and
    the database is as before, or it returns the patched row, which is
    then the stored one. *)
Lemma update_task_outcome task_id task_data db task res db' :
  get_Task db task_id = Some task ->
  update_task task_id task_data db = (res, db') ->
  (exists e, res = Raise e /\ db' = db)
  \/ (res = Return (TaskRead.model_validate (patched task_data task))
      /\ get_Task db' task_id = Some (patched task_data task)
      /\ ~ nulls_required task_data
      /\ flush_update (Task.id task) (Some (patched task_data task))
           (assigned_tags db task task_data) db = Some db').
Proof.
  intros Hget H.
  destruct (int64 task_id) eqn:Hk.
  2:{ rewrite (proj1 (update_task_overflow task_id task_data db) Hk) in H.
      left. inversion H. eauto. }
  destruct (int64_opt (attr (TaskUpdate.assignee_id task_data))) eqn:Ha.
  2:{ rewrite (proj1 (proj2 (update_task_overflow task_id task_data db))
                 task Hk Hget Ha) in H.
      left. inversion H. eauto. }
  destruct (dangling (get_User db) (attr (TaskUpdate.assignee_id task_data)))
    eqn:Hd.
  { rewrite (@update_task_user_missing task_id task_data db task Hk Hget Ha Hd) in H.
    left. inversion H. eauto. }
  destruct (int64_list (attr (TaskUpdate.tag_ids task_data))) eqn:Hl.
  2:{ rewrite (proj2 (proj2 (update_task_overflow task_id task_data db))
                 task Hk Hget Ha Hd Hl) in H.
      left. inversion H. eauto. }
  rewrite (@update_task_run task_id task_data db task Hk Hget Ha Hl) in H.
  pose proof (get_by_key _ _ _ Hget) as Hid.
  destruct (truthy_int _ && _).
  { left. inversion H. eauto. }
  destruct (flush_update _ _ _ db) as [db1|] eqn:Hflush.
  2:{ left. inversion H. eauto. }
  destruct (flush_update_inv _ _ _ _ Hflush)
    as [r [Hrow [Htasks _]]].
  pose proof (setattrs_model_dump _ _ Hrow) as ->.
  assert (get_Task db1 (Task.id task) = Some (patched task_data task)) as Hnew.
  { unfold get_Task. rewrite Htasks.
    apply get_replace_same with (old := task); [|reflexivity].
    rewrite Hid. exact Hget. }
  rewrite Hnew in H. inversion H; subst. right.
  rewrite Hrow in Hflush.
  split; [reflexivity|]. split; [exact Hnew|]. split; [|exact Hflush].
  intros Hnull. apply setattrs_nulls with (task := task) in Hnull. congruence.
Qed.

(** An update that raises changes nothing; one that returns found its
    task, and every key of the request was one the store can hold. *)
Lemma update_task_inv task_id task_data db res db' :
  update_task task_id task_data db = (res, db') ->
  (exists e, res = Raise e /\ db' = db)
  \/ (exists task,
        int64 task_id = true /\ get_Task db task_id = Some task
        /\ int64_opt (attr (TaskUpdate.assignee_id task_data)) = true
        /\ dangling (get_User db) (attr (TaskUpdate.assignee_id task_data))
           = false
        /\ int64_list (attr (TaskUpdate.tag_ids task_data)) = true
        /\ res = Return (TaskRead.model_validate (patched task_data task))).
Proof.
  intros H.
  destruct (get_Task db task_id) as [task|] eqn:Hget.
  2:{ unfold update_task, bind at 1 in H.
      destruct (get_task_or_404 task_id db) as [r d] eqn:E.
      destruct (get_task_or_404_inv _ _ E) as [-> [[_ ->]|[[_ [_ ->]]|[_ [t [Ht _]]]]]];
        try congruence; left; inversion H; eauto. }
  destruct (update_task_outcome _ _ _ Hget H) as [?|[-> _]]; [now left|].
  destruct (int64 task_id) eqn:Hk.
  2:{ rewrite (proj1 (update_task_overflow task_id task_data db) Hk) in H.
      discriminate. }
  destruct (int64_opt (attr (TaskUpdate.assignee_id task_data))) eqn:Ha.
  2:{ rewrite (proj1 (proj2 (update_task_overflow task_id task_data db))
                 task Hk Hget Ha) in H. discriminate. }
  destruct (dangling (get_User db) (attr (TaskUpdate.assignee_id task_data)))
    eqn:Hd.
  { rewrite (@update_task_user_missing task_id task_data db task Hk Hget Ha Hd) in H. discriminate. }
  destruct (int64_list (attr (TaskUpdate.tag_ids task_data))) eqn:Hl.
  2:{ rewrite (proj2 (proj2 (update_task_overflow task_id task_data db))
                 task Hk Hget Ha Hd Hl) in H. discriminate. }
  right. exists task. repeat split; reflexivity.
Qed.

(** C6.  An update of an existing task writes the fields that are
    present in the payload and no other: whatever the combination of
    present and absent fields, each absent field of the stored task
    keeps its value, as do the columns that are no field of the payload
    and every other task; when the update succeeds each present field
    holds the value given (a float column what the store keeps of
    it). *)
Theorem update_task_writes_only_present_fields :
  forall task_id task_data db res db' before,
    get_Task db task_id = Some before ->
    update_task task_id task_data db = (res, db') ->
    exists after,
      get_Task db' task_id = Some after
      /\ (TaskUpdate.title task_data = Unset ->
          Task.title after = Task.title before)
      /\ (TaskUpdate.description task_data = Unset ->
          Task.description after = Task.description before)
      /\ (TaskUpdate.status task_data = Unset ->
          Task.status after = Task.status before)
      /\ (TaskUpdate.priority task_data = Unset ->
          Task.priority after = Task.priority before)
      /\ (TaskUpdate.is_completed task_data = Unset ->
          Task.is_completed after = Task.is_completed before)
      /\ (TaskUpdate.due_date task_data = Unset ->
          Task.due_date after = Task.due_date before)
      /\ (TaskUpdate.estimated_hours task_data = Unset ->
          Task.estimated_hours after = Task.estimated_hours before)
      /\ (TaskUpdate.actual_hours task_data = Unset ->
          Task.actual_hours after = Task.actual_hours before)
      /\ (TaskUpdate.assignee_id task_data = Unset ->
          Task.assignee_id after = Task.assignee_id before)
      /\ (Task.id after = Task.id before
          /\ Task.created_at after = Task.created_at before
          /\ Task.project_id after = Task.project_id before
          /\ Task.parent_task_id after = Task.parent_task_id before)
      /\ (forall other, other <> task_id ->
                        get_Task db' other = get_Task db other)
      /\ (forall r, res = Return r ->
          (forall v, TaskUpdate.title task_data = Given v ->
                     v = Some (Task.title after))
          /\ (forall v, TaskUpdate.description task_data = Given v ->
                        v = Task.description after)
          /\ (forall v, TaskUpdate.status task_data = Given v ->
                        v = Some (Task.status after))
          /\ (forall v, TaskUpdate.priority task_data = Given v ->
                        v = Some (Task.priority after))
          /\ (forall v, TaskUpdate.is_completed task_data = Given v ->
                        v = Some (Task.is_completed after))
          /\ (forall v, TaskUpdate.due_date task_data = Given v ->
                        v = Task.due_date after)
          /\ (forall v, TaskUpdate.estimated_hours task_data = Given v ->
                        real_column v = Task.estimated_hours after)
          /\ (forall v, TaskUpdate.actual_hours task_data = Given v ->
                        real_column v = Task.actual_hours after)
          /\ (forall v, TaskUpdate.assignee_id task_data = Given v ->
                        v = Task.assignee_id after)).
Proof.
  intros task_id task_data db res db' before Hget H.
  pose proof (get_by_key _ _ _ Hget) as Hid.
  destruct (update_task_outcome _ _ _ Hget H)
    as [[e [-> ->]] | [-> [Hafter [Hnn Hflush]]]].
  - exists before. split; [exact Hget|].
    repeat (split; [intros; reflexivity|]).
    split; [repeat split; reflexivity|].
    split; [reflexivity|]. intros r Hr. discriminate.
  - exists (patched task_data before). split; [exact Hafter|].
    unfold patched; simpl.
    repeat (split; [intros ->; reflexivity|]).
    split; [repeat split; reflexivity|]. split.
    + intros other Hother.
      destruct (flush_update_inv _ _ _ _ Hflush) as [r [Hr [Htasks _]]].
      inversion Hr; subst r. unfold get_Task. rewrite Htasks.
      apply get_replace_other. simpl. congruence.
    + intros r _. unfold nulls_required in Hnn.
      repeat split; intros v Hv; rewrite Hv in *; simpl;
        try reflexivity; (destruct v; [reflexivity | exfalso; tauto]).
Qed.

(** C1, as the code has it.  A successful update of a task leaves both
    timestamps of the stored row as they were: [created_at] is
    unchanged, and [updated_at] is unchanged too (it is not advanced),
    which the returned projection shows as well. *)
Theorem update_task_keeps_timestamps :
  forall task_id task_data db r db' before,
    get_Task db task_id = Some before ->
    update_task task_id task_data db = (Return r, db') ->
    exists after,
      get_Task db' task_id = Some after
      /\ Task.created_at after = Task.created_at before
      /\ Task.updated_at after = Task.updated_at before
      /\ TaskRead.updated_at r = Task.updated_at before.
Proof.
  intros task_id task_data db r db' before Hget H.
  destruct (update_task_outcome _ _ _ Hget H)
    as [[e [He _]] | [Hr [Hafter _]]]; [discriminate|].
  exists (patched task_data before). split; [exact Hafter|].
  inversion Hr. repeat split; reflexivity.
Qed.

Lemma update_task_keeps_timestamps_witness :
  exists after,
    get_Task (snd (update_task 1 (rename "Sign in") (sample_db 5))) 1 = Some after
    /\ Task.created_at after = 5
    /\ Task.updated_at after = 5
    /\ TaskRead.updated_at
         (TaskRead.model_validate (patched (rename "Sign in")
            (Task.mk "Create user authentication"
               (Some "Implement JWT authentication for the application")
               TaskStatus.IN_PROGRESS TaskPriority.HIGH false None
               (Some (float_of_int 8)) None 1 5 5 (Some 1) (Some 1) None)))
       = 5.
Proof.
  exact (@update_task_keeps_timestamps 1 (rename "Sign in") (sample_db 5)
           _ _ _ eq_refl eq_refl).
Defined.

(** C1 fails as stated: renaming task 1 of the sample data succeeds,
    and the stored [updated_at] is not later than it was. *)
Lemma update_task_does_not_advance_updated_at :
  exists r db' before after,
    get_Task (sample_db 5) 1 = Some before
    /\ update_task 1 (rename "Sign in") (sample_db 5) = (Return r, db')
    /\ get_Task db' 1 = Some after
    /\ Task.title after = "Sign in"
    /\ ~ Task.updated_at before < Task.updated_at after.
Proof.
  do 4 eexists.
  split; [cbv; reflexivity|]. split; [cbv; reflexivity|].
  split; [cbv; reflexivity|]. split; [reflexivity|].
  cbv. intros H. discriminate H.
Qed.

Lemma update_task_writes_only_present_fields_witness :
  exists after,
    get_Task (snd (update_task 1 (rename "Sign in") (sample_db 5))) 1 = Some after
    /\ Task.title after = "Sign in"
    /\ Task.status after = TaskStatus.IN_PROGRESS
    /\ Task.assignee_id after = Some 1.
Proof.
  destruct (@update_task_writes_only_present_fields 1 (rename "Sign in")
              (sample_db 5) _ _ _ eq_refl eq_refl)
    as [after [Hget [_ [_ [Hstatus [_ [_ [_ [_ [_ [Hassignee [_ [_ Hgiven]]]]]]]]]]]]].
  exists after. split; [exact Hget|].
  destruct (Hgiven _ eq_refl) as [Htitle _].
  specialize (Htitle _ eq_refl). inversion Htitle.
  split; [reflexivity|].
  split; [exact (Hstatus eq_refl) | exact (Hassignee eq_refl)].
Defined.

(* ===================================================================== *)
(** * 13. Creating                                                        *)
(* ===================================================================== *)

Lemma id_below_next_id rows r :
  In r rows -> Task.id r < next_id (map Task.id rows).
Proof.
  unfold next_id. induction rows as [|a rows IH]; [contradiction|].
  simpl. intros [->|Hr]; [lia|]. specialize (IH Hr). lia.
Qed.

Lemma get_by_app {A} (pk : A -> Z) l1 l2 k :
  get_by pk (l1 ++ l2) k
  = match get_by pk l1 k with
    | Some r => Some r
    | None => get_by pk l2 k
    end.
Proof.
  unfold get_by. induction l1 as [|a l1 IH]; [reflexivity|]. simpl.
  destruct (pk a =? k); [reflexivity | exact IH].
Qed.

Lemma get_Task_next_id db : get_Task db (next_id (map Task.id (tasks db))) = None.
Proof.
  unfold get_Task. apply get_by_None. intros r Hr.
  apply id_below_next_id in Hr. lia.
Qed.

(** The inserted row is read back under its new key, and the rows that
    were there are read back as before. *)
Lemma get_Task_created utc_now task_data db :
  get_Task (db_with_created utc_now task_data db)
           (next_id (map Task.id (tasks db)))
  = Some (created_row utc_now task_data db).
Proof.
  unfold get_Task, db_with_created. simpl. rewrite get_by_app.
  fold (get_Task db (next_id (map Task.id (tasks db)))).
  rewrite get_Task_next_id. unfold get_by. simpl.
  now rewrite Z.eqb_refl.
Qed.

Lemma get_Task_created_old utc_now task_data db k r :
  get_Task db k = Some r ->
  get_Task (db_with_created utc_now task_data db) k = Some r.
Proof.
  unfold get_Task, db_with_created. simpl. rewrite get_by_app.
  now intros ->.
Qed.

(** The check of a reference, by what it finds. *)
Lemma validate_exists_dangling {A} (get : DB -> Z -> option A) fk detail db :
  validate_exists get fk detail db
  = if negb (int64_opt fk) then (Raise OverflowError, db)
    else if dangling (get db) fk then (Raise (HTTPException 404 detail), db)
    else (Return tt, db).
Proof.
  destruct (int64_opt fk) eqn:Hfk; cbn [negb].
  - now rewrite validate_exists_run by exact Hfk.
  - now rewrite validate_exists_overflow by exact Hfk.
Qed.

(** [create_task], step by step. *)
Lemma create_task_run utc_now task_data db :
  create_task utc_now task_data db
  = if negb (int64_opt (TaskCreate.project_id task_data))
    then (Raise OverflowError, db)
    else if dangling (get_Project db) (TaskCreate.project_id task_data)
    then (Raise (HTTPException 404 "Project not found"), db)
    else if negb (int64_opt (TaskCreate.assignee_id task_data))
    then (Raise OverflowError, db)
    else if dangling (get_User db) (TaskCreate.assignee_id task_data)
    then (Raise (HTTPException 404 "User not found"), db)
    else if negb (int64_opt (TaskCreate.parent_task_id task_data))
    then (Raise OverflowError, db)
    else if dangling (get_Task db) (TaskCreate.parent_task_id task_data)
    then (Raise (HTTPException 404 "Parent task not found"), db)
    else
      let task := created_row utc_now task_data db in
      let db1 := db_with_created utc_now task_data db in
      match TaskCreate.tag_ids task_data with
      | Some (tag_id :: rest) =>
          if forallb int64 (tag_id :: rest) then
            let original := load_tags db1 (Task.id task) in
            match flush_tags (Task.id task) original
                    (original ++ found_tags db1 (tag_id :: rest))
                    (tasktaglink db1) with
            | Some links =>
                (Return (TaskRead.model_validate task), with_links db1 links)
            | None => (Raise IntegrityError, db1)
            end
          else (Raise OverflowError, db1)
      | _ => (Return (TaskRead.model_validate task), db1)
      end.
Proof.
  unfold create_task.
  unfold bind at 1. rewrite validate_exists_dangling.
  destruct (negb _); [reflexivity|]. destruct (dangling _ _); [reflexivity|].
  unfold bind at 1. rewrite validate_exists_dangling.
  destruct (negb _); [reflexivity|]. destruct (dangling _ _); [reflexivity|].
  unfold bind at 1. rewrite validate_exists_dangling.
  destruct (negb _); [reflexivity|]. destruct (dangling _ _); [reflexivity|].
  unfold bind at 1. unfold insert_task at 1.
  fold (created_row utc_now task_data db).
  fold (db_with_created utc_now task_data db).
  destruct (TaskCreate.tag_ids task_data) as [[|tag_id rest]|];
    try reflexivity.
  unfold truthy_list. unfold bind at 1. unfold bind at 1.
  rewrite collect_tags_run.
  destruct (forallb int64 (tag_id :: rest)); [|reflexivity].
  unfold refresh, commit, bind, query, ret, raise.
  destruct (flush_tags _ _ _ _) as [links|]; [|reflexivity].
  simpl option_map. cbv iota beta.
  change (get_Task (with_links (db_with_created utc_now task_data db) links))
    with (get_Task (db_with_created utc_now task_data db)).
  change (Task.id (created_row utc_now task_data db))
    with (next_id (map Task.id (tasks db))).
  now rewrite get_Task_created.
Qed.

Lemma dangling_true {A} (get : Z -> option A) k :
  k <> 0 -> get k = None -> dangling get (Some k) = true.
Proof.
  intros Hk Hget. unfold dangling. simpl. rewrite Hget.
  apply Z.eqb_neq in Hk. now rewrite Hk.
Qed.

Lemma dangling_zero {A} (get : Z -> option A) : dangling get (Some 0) = false.
Proof. reflexivity. Qed.

(** C3, as the code has it.  A create request is refused with a 404,
    and the database is left as it was (no task row is written), when a
    reference it gives is not 0, is a key that the store can hold and
    has no row: [project_id] with the detail "Project not found";
    [assignee_id], once the project reference passed, with "User not
    found"; [parent_task_id], once both passed, with "Parent task not
    found". *)
Theorem create_task_missing_reference :
  forall utc_now task_data db,
    (forall k,
        TaskCreate.project_id task_data = Some k -> k <> 0 ->
        int64 k = true ->
        get_Project db k = None ->
        create_task utc_now task_data db
        = (Raise (HTTPException 404 "Project not found"), db))
    /\ (forall k,
        reference_ok (get_Project db) (TaskCreate.project_id task_data)
        = true ->
        TaskCreate.assignee_id task_data = Some k -> k <> 0 ->
        int64 k = true ->
        get_User db k = None ->
        create_task utc_now task_data db
        = (Raise (HTTPException 404 "User not found"), db))
    /\ (forall k,
        reference_ok (get_Project db) (TaskCreate.project_id task_data)
        = true ->
        reference_ok (get_User db) (TaskCreate.assignee_id task_data)
        = true ->
        TaskCreate.parent_task_id task_data = Some k -> k <> 0 ->
        int64 k = true ->
        get_Task db k = None ->
        create_task utc_now task_data db
        = (Raise (HTTPException 404 "Parent task not found"), db)).
Proof.
  intros utc_now task_data db. rewrite create_task_run.
  split; [|split].
  - intros k -> Hk Hr Hnone. cbn [int64_opt]. rewrite Hr. cbn [negb].
    now rewrite dangling_true.
  - intros k Hp -> Hk Hr Hnone. unfold reference_ok in Hp.
    apply andb_true_iff in Hp. destruct Hp as [-> Hp].
    apply negb_true_iff in Hp. rewrite Hp. cbn [int64_opt negb]. rewrite Hr.
    cbn [negb]. now rewrite dangling_true.
  - intros k Hp Hu -> Hk Hr Hnone. unfold reference_ok in Hp, Hu.
    apply andb_true_iff in Hp. destruct Hp as [-> Hp].
    apply negb_true_iff in Hp. rewrite Hp.
    apply andb_true_iff in Hu. destruct Hu as [-> Hu].
    apply negb_true_iff in Hu. rewrite Hu.
    cbn [int64_opt negb]. rewrite Hr.
    cbn [negb]. now rewrite dangling_true.
Qed.

Lemma create_task_missing_reference_witness :
  create_task (fun _ => 7) (new_task "Write tests" (Some 9) None None (Some []))
              (sample_db 0)
  = (Raise (HTTPException 404 "Project not found"), sample_db 0)
  /\ create_task (fun _ => 7) (new_task "Write tests" (Some 1) (Some 9) None (Some []))
                 (sample_db 0)
     = (Raise (HTTPException 404 "User not found"), sample_db 0)
  /\ create_task (fun _ => 7)
                 (new_task "Write tests" (Some 1) (Some 2) (Some 9) (Some []))
                 (sample_db 0)
     = (Raise (HTTPException 404 "Parent task not found"), sample_db 0).
Proof.
  split; [|split].
  - apply (proj1 (create_task_missing_reference (fun _ => 7)
                    (new_task "Write tests" (Some 9) None None (Some []))
                    (sample_db 0)) 9);
      [reflexivity | lia | reflexivity | reflexivity].
  - apply (proj1 (proj2 (create_task_missing_reference (fun _ => 7)
                    (new_task "Write tests" (Some 1) (Some 9) None (Some []))
                    (sample_db 0))) 9);
      [reflexivity | reflexivity | lia | reflexivity | reflexivity].
  - apply (proj2 (proj2 (create_task_missing_reference (fun _ => 7)
                    (new_task "Write tests" (Some 1) (Some 2) (Some 9) (Some []))
                    (sample_db 0))) 9);
      [reflexivity | reflexivity | reflexivity | lia | reflexivity
       | reflexivity].
Defined.

(** C3 fails as stated: no project of the sample data has the key 0,
    and a create request with [project_id = 0] is answered with the new
    task, which is then in the task table. *)
Lemma create_task_project_zero_is_persisted :
  get_Project (sample_db 0) 0 = None
  /\ exists r db',
       create_task (fun _ => 7) (new_task "Write tests" (Some 0) None None (Some []))
                   (sample_db 0) = (Return r, db')
       /\ TaskRead.project_id r = Some 0
       /\ get_Task db' (TaskRead.id r) <> None
       /\ tasks db' <> tasks (sample_db 0).
Proof.
  split; [reflexivity|]. do 2 eexists.
  split; [reflexivity|]. split; [reflexivity|]. split; discriminate.
Qed.

(** C10.  A reference that is 0 is not checked.  On create, a
    [project_id], [assignee_id] or [parent_task_id] of 0 never gives
    the not-found error of that reference, and unless the request is
    refused for another reference (it names no row, or is no key that
    the store can hold) the row is written with the keys of the
    payload, so with 0 where 0 was given, whether or not a row with key
    0 exists.  On update, an [assignee_id] of 0 never gives "User not
    found", and a successful update stores and returns 0 as the
    assignee. *)
Theorem zero_reference_is_not_checked :
  (forall utc_now task_data db res db',
      create_task utc_now task_data db = (res, db') ->
      (TaskCreate.project_id task_data = Some 0 ->
       res <> Raise (HTTPException 404 "Project not found"))
      /\ (TaskCreate.assignee_id task_data = Some 0 ->
          res <> Raise (HTTPException 404 "User not found"))
      /\ (TaskCreate.parent_task_id task_data = Some 0 ->
          res <> Raise (HTTPException 404 "Parent task not found"))
      /\ ((forall detail, res <> Raise (HTTPException 404 detail)) ->
          int64_opt (TaskCreate.project_id task_data) = true ->
          int64_opt (TaskCreate.assignee_id task_data) = true ->
          int64_opt (TaskCreate.parent_task_id task_data) = true ->
          exists row,
            get_Task db' (next_id (map Task.id (tasks db))) = Some row
            /\ Task.project_id row = TaskCreate.project_id task_data
            /\ Task.assignee_id row = TaskCreate.assignee_id task_data
            /\ Task.parent_task_id row = TaskCreate.parent_task_id task_data))
  /\ (forall task_id task_data db res db',
      attr (TaskUpdate.assignee_id task_data) = Some 0 ->
      update_task task_id task_data db = (res, db') ->
      res <> Raise (HTTPException 404 "User not found")
      /\ (forall r, res = Return r ->
          TaskRead.assignee_id r = Some 0
          /\ exists row, get_Task db' task_id = Some row
                         /\ Task.assignee_id row = Some 0)).
Proof.
  split.
  - intros utc_now task_data db res db' H. rewrite create_task_run in H.
    destruct (int64_opt (TaskCreate.project_id task_data)) eqn:Rp;
      cbn [negb] in H.
    2:{ inversion H; subst. repeat split; try discriminate. }
    destruct (dangling (get_Project db) _) eqn:Hp.
    { inversion H; subst. repeat split.
      - intros E. rewrite E in Hp. discriminate.
      - discriminate.
      - discriminate.
      - intros Hno. now destruct (Hno "Project not found"). }
    destruct (int64_opt (TaskCreate.assignee_id task_data)) eqn:Ru;
      cbn [negb] in H.
    2:{ inversion H; subst. repeat split; try discriminate. }
    destruct (dangling (get_User db) _) eqn:Hu.
    { inversion H; subst. repeat split.
      - discriminate.
      - intros E. rewrite E in Hu. discriminate.
      - discriminate.
      - intros Hno. now destruct (Hno "User not found"). }
    destruct (int64_opt (TaskCreate.parent_task_id task_data)) eqn:Rt;
      cbn [negb] in H.
    2:{ inversion H; subst. repeat split; try discriminate. }
    destruct (dangling (get_Task db) _) eqn:Ht.
    { inversion H; subst. repeat split.
      - discriminate.
      - discriminate.
      - intros E. rewrite E in Ht. discriminate.
      - intros Hno. now destruct (Hno "Parent task not found"). }
    cbv zeta in H.
    assert (res <> Raise (HTTPException 404 "Project not found")
            /\ res <> Raise (HTTPException 404 "User not found")
            /\ res <> Raise (HTTPException 404 "Parent task not found")
            /\ get_Task db' (next_id (map Task.id (tasks db)))
               = Some (created_row utc_now task_data db)) as [H1 [H2 [H3 H4]]].
    { destruct (TaskCreate.tag_ids task_data) as [[|tag_id rest]|];
        try (inversion H; subst; repeat split; try discriminate;
             apply get_Task_created).
      destruct (forallb int64 (tag_id :: rest)).
      - destruct (flush_tags _ _ _ _) as [links|];
          inversion H; subst; repeat split; try discriminate;
          apply get_Task_created.
      - inversion H; subst; repeat split; try discriminate;
          apply get_Task_created. }
    repeat split; try (intros _; assumption).
    intros _ _ _ _. exists (created_row utc_now task_data db).
    split; [exact H4|]. repeat split; reflexivity.
  - intros task_id task_data db res db' Hzero H.
    assert (TaskUpdate.assignee_id task_data = Given (Some 0)) as Hgiven.
    { destruct (TaskUpdate.assignee_id task_data) as [|v]; simpl in Hzero;
        [discriminate | now subst]. }
    split.
    + destruct (update_task_inv _ _ _ H)
        as [[e [-> ->]] | [task [_ [_ [_ [_ [_ ->]]]]]]]; [|discriminate].
      intros E. inversion E; subst e.
      destruct (int64 task_id) eqn:Hk.
      2:{ rewrite (proj1 (update_task_overflow task_id task_data db) Hk) in H.
          discriminate. }
      destruct (get_Task db task_id) as [task|] eqn:Hget.
      2:{ unfold update_task, bind at 1 in H.
          rewrite (get_task_or_404_missing _ _ Hk Hget) in H. discriminate. }
      destruct (int64_list (attr (TaskUpdate.tag_ids task_data))) eqn:Hl.
      * rewrite (@update_task_run task_id task_data db task Hk Hget) in H;
          [|now rewrite Hzero|exact Hl].
        rewrite Hzero in H. simpl andb in H. cbv iota in H.
        destruct (flush_update _ _ _ db) as [db1|];
          [destruct (get_Task db1 (Task.id task))|];
          inversion H.
      * rewrite (proj2 (proj2 (update_task_overflow task_id task_data db))
                   task Hk Hget) in H;
          [|now rewrite Hzero|now rewrite Hzero|exact Hl].
        destruct (truthy_obj _); discriminate.
    + intros r ->.
      destruct (update_task_inv _ _ _ H)
        as [[e [He _]] | [task [_ [Hget _]]]]; [discriminate|].
      destruct (update_task_outcome _ _ _ Hget H)
        as [[e [He _]] | [Hr [Hafter _]]]; [discriminate|].
      inversion Hr. unfold patched. simpl. rewrite Hgiven. simpl.
      split; [reflexivity|]. eexists. split; [exact Hafter|].
      simpl. now rewrite Hgiven.
Qed.

(** On the sample data no user, project or task has the key 0; a task
    created with all three references 0 is stored with them, and
    assigning task 1 to 0 is stored as well. *)
Lemma zero_reference_is_not_checked_witness :
  (get_Project (sample_db 0) 0 = None
   /\ get_User (sample_db 0) 0 = None
   /\ get_Task (sample_db 0) 0 = None)
  /\ (exists row,
        get_Task (snd (create_task (fun _ => 7)
                         (new_task "Write tests" (Some 0) (Some 0) (Some 0) None)
                         (sample_db 0))) 4 = Some row
        /\ Task.project_id row = Some 0
        /\ Task.assignee_id row = Some 0
        /\ Task.parent_task_id row = Some 0)
  /\ (exists row,
        get_Task (snd (update_task 1
                         (TaskUpdate.mk Unset Unset Unset Unset Unset Unset
                                        Unset Unset (Given (Some 0)) Unset)
                         (sample_db 0))) 1 = Some row
        /\ Task.assignee_id row = Some 0).
Proof.
  split; [repeat split; reflexivity|]. split.
  - destruct (proj1 zero_reference_is_not_checked (fun _ => 7)
                (new_task "Write tests" (Some 0) (Some 0) (Some 0) None)
                (sample_db 0) _ _ eq_refl) as [_ [_ [_ Hrow]]].
    apply Hrow; [intros detail; discriminate | reflexivity..].
  - destruct (proj2 zero_reference_is_not_checked 1
                (TaskUpdate.mk Unset Unset Unset Unset Unset Unset
                               Unset Unset (Given (Some 0)) Unset)
                (sample_db 0) _ _ eq_refl eq_refl) as [_ Hrow].
    destruct (Hrow _ eq_refl) as [_ Hstored]. exact Hstored.
Defined.

(* ===================================================================== *)
(** * 14. Tags                                                            *)
(* ===================================================================== *)

Lemma filter_all {A} (f : A -> bool) l :
  (forall x, In x l -> f x = true) -> filter f l = l.
Proof.
  induction l as [|a l IH]; intros H; [reflexivity|]. simpl.
  rewrite (H a (or_introl eq_refl)). f_equal. apply IH.
  intros x Hx. apply H. now right.
Qed.

Lemma filter_none {A} (f : A -> bool) l :
  (forall x, In x l -> f x = false) -> filter f l = [].
Proof.
  induction l as [|a l IH]; intros H; [reflexivity|]. simpl.
  rewrite (H a (or_introl eq_refl)). apply IH.
  intros x Hx. apply H. now right.
Qed.

Lemma bool_ext (a b : bool) : (a = true <-> b = true) -> a = b.
Proof. destruct a, b; intros [H1 H2]; auto; symmetry; auto. Qed.

Lemma has_tag_In i l : has_tag i l = true <-> exists g, In g l /\ Tag.id g = i.
Proof.
  unfold has_tag. rewrite existsb_exists. split; intros [g [Hg E]];
    exists g; (split; [exact Hg|]); now apply Z.eqb_eq.
Qed.

Lemma has_tag_app i l1 l2 : has_tag i (l1 ++ l2) = has_tag i l1 || has_tag i l2.
Proof. unfold has_tag. apply existsb_app. Qed.

Lemma TaskTagLink_eqb_eq a b : TaskTagLink.eqb a b = true <-> a = b.
Proof.
  unfold TaskTagLink.eqb. destruct a as [a1 a2], b as [b1 b2]. simpl.
  rewrite andb_true_iff, !Z.eqb_eq. split.
  - intros [-> ->]. reflexivity.
  - intros H. inversion H. now split.
Qed.

Lemma has_link_In r table : has_link r table = true <-> In r table.
Proof.
  unfold has_link. rewrite existsb_exists. split.
  - intros [x [Hx E]]. apply TaskTagLink_eqb_eq in E. now subst.
  - intros H. exists r. split; [exact H|]. now apply TaskTagLink_eqb_eq.
Qed.

Lemma named_by_In tag_ids g : named_by tag_ids g = true <-> In (Tag.id g) tag_ids.
Proof.
  unfold named_by. rewrite existsb_exists. split.
  - intros [i [Hi E]]. apply Z.eqb_eq in E. now rewrite E.
  - intros H. exists (Tag.id g). split; [exact H | apply Z.eqb_refl].
Qed.

(** An id resolves exactly when a row of the tag table has it. *)
Lemma resolves_In db i :
  resolves db i = true <-> exists g, In g (tags db) /\ Tag.id g = i.
Proof.
  unfold resolves, get_Tag. split.
  - destruct (get_by Tag.id (tags db) i) as [g|] eqn:E; [|discriminate].
    intros _. exists g. split; [exact (get_by_In _ _ _ E)|].
    exact (get_by_key _ _ _ E).
  - intros [g [Hg E]].
    destruct (get_by Tag.id (tags db) i) as [t|] eqn:Hget; [reflexivity|].
    exfalso. exact (proj1 (get_by_None _ _ _) Hget g Hg E).
Qed.

(** ** The tags a list of ids finds *)

Lemma found_tags_In db ids g :
  In g (found_tags db ids) <-> exists i, In i ids /\ get_Tag db i = Some g.
Proof.
  induction ids as [|i ids IH]; simpl.
  - split; [contradiction | intros [i [[] _]]].
  - destruct (get_Tag db i) as [t|] eqn:E; simpl; rewrite IH; split.
    + intros [<-|[j [Hj Hg]]]; [exists i | exists j]; auto.
    + intros [j [[<-|Hj] Hg]]; [left; congruence | right; eauto].
    + intros [j [Hj Hg]]. eauto.
    + intros [j [[<-|Hj] Hg]]; [congruence | eauto].
Qed.

(** A found tag is the row of its own key. *)
Lemma found_tags_key db ids g :
  In g (found_tags db ids) -> get_Tag db (Tag.id g) = Some g.
Proof.
  intros H. apply found_tags_In in H. destruct H as [i [_ Hg]].
  pose proof (get_by_key _ _ _ Hg) as E. now rewrite E.
Qed.

Lemma found_tags_ids db ids :
  map Tag.id (found_tags db ids) = filter (resolves db) ids.
Proof.
  unfold resolves. induction ids as [|i ids IH]; [reflexivity|]. simpl.
  destruct (get_Tag db i) as [t|] eqn:E; simpl; [|exact IH].
  rewrite IH. f_equal. exact (get_by_key _ _ _ E).
Qed.



Lemma found_tags_app db l1 l2 :
  found_tags db (l1 ++ l2) = found_tags db l1 ++ found_tags db l2.
Proof.
  induction l1 as [|i l1 IH]; [reflexivity|]. simpl.
  destruct (get_Tag db i); simpl; now rewrite IH.
Qed.

(** The found tags have the ids of the list that resolve. *)
Lemma has_tag_found db ids i :
  has_tag i (found_tags db ids) = existsb (Z.eqb i) ids && resolves db i.
Proof.
  apply bool_ext. rewrite has_tag_In, andb_true_iff, existsb_exists. split.
  - intros [g [Hg E]]. apply found_tags_In in Hg. destruct Hg as [j [Hj Hget]].
    pose proof (get_by_key _ _ _ Hget) as Ej. subst i. split.
    + exists j. split; [exact Hj|]. rewrite Ej. apply Z.eqb_refl.
    + unfold resolves. now rewrite Ej, Hget.
  - intros [[j [Hj E]] Hres]. apply Z.eqb_eq in E. subst j.
    unfold resolves in Hres.
    destruct (get_Tag db i) as [g|] eqn:Hget; [|discriminate].
    exists g. split; [|exact (get_by_key _ _ _ Hget)].
    apply found_tags_In. eauto.
Qed.

Lemma has_tag_found_row db ids g :
  In g (tags db) -> has_tag (Tag.id g) (found_tags db ids) = named_by ids g.
Proof.
  intros Hg. rewrite has_tag_found.
  assert (resolves db (Tag.id g) = true) as ->
    by (apply resolves_In; now exists g).
  now rewrite andb_true_r.
Qed.

(** ** The tags of a task *)

Lemma load_tags_In db task_id g :
  In g (load_tags db task_id)
  <-> In g (tags db)
      /\ In (TaskTagLink.mk task_id (Tag.id g)) (tasktaglink db).
Proof. unfold load_tags. now rewrite filter_In, has_link_In. Qed.

Lemma load_tags_key db task_id g :
  In g (load_tags db task_id) -> resolves db (Tag.id g) = true.
Proof.
  intros H. apply load_tags_In in H. apply resolves_In. exists g. tauto.
Qed.

Lemma load_tags_ext db1 db2 task_id :
  tags db1 = tags db2 -> tasktaglink db1 = tasktaglink db2 ->
  load_tags db1 task_id = load_tags db2 task_id.
Proof. intros Et El. unfold load_tags. now rewrite Et, El. Qed.

Lemma has_tag_load db task_id i :
  has_tag i (load_tags db task_id)
  = resolves db i && has_link (TaskTagLink.mk task_id i) (tasktaglink db).
Proof.
  apply bool_ext. rewrite has_tag_In, andb_true_iff, resolves_In, has_link_In.
  split.
  - intros [g [Hg E]]. apply load_tags_In in Hg. subst i. split; [|tauto].
    exists g. tauto.
  - intros [[g [Hg E]] Hl]. exists g. split; [|exact E].
    apply load_tags_In. now rewrite E.
Qed.

Lemma no_member_nil {A} (l : list A) : (forall x, ~ In x l) -> l = [].
Proof. destruct l as [|a l]; [reflexivity|]. intros H. now destruct (H a); left. Qed.

Lemma load_tags_next_id db :
  links_attached db -> load_tags db (next_id (map Task.id (tasks db))) = [].
Proof.
  intros Hwf. apply no_member_nil. intros g Hg.
  apply load_tags_In in Hg. destruct Hg as [_ Hl].
  apply (Hwf _ Hl). apply get_Task_next_id.
Qed.

Lemma NoDup_map_filter {A B} (f : A -> B) (p : A -> bool) l :
  NoDup (map f l) -> NoDup (map f (filter p l)).
Proof.
  induction l as [|a l IH]; simpl; intros H; [constructor|].
  inversion H as [|? ? Hnotin Hrest]; subst.
  destruct (p a); simpl; [|now apply IH].
  constructor; [|now apply IH]. intros Hin. apply Hnotin.
  apply in_map_iff in Hin. destruct Hin as [x [E Hx]].
  apply filter_In in Hx. apply in_map_iff. exists x. tauto.
Qed.

(** With unique tag keys, no tag is twice among the tags of a task. *)
Lemma load_tags_NoDup db task_id :
  NoDup (map Tag.id (tags db)) -> NoDup (map Tag.id (load_tags db task_id)).
Proof. intros H. unfold load_tags. now apply NoDup_map_filter. Qed.

(** ** The objects of a list, each once *)

Lemma has_tag_filter_other i j l :
  has_tag i (filter (fun h => negb (Tag.id h =? j)) l)
  = negb (i =? j) && has_tag i l.
Proof.
  apply bool_ext. rewrite has_tag_In, andb_true_iff, negb_true_iff, has_tag_In.
  split.
  - intros [g [Hg E]]. apply filter_In in Hg. destruct Hg as [Hg Hne].
    apply negb_true_iff in Hne. subst i. split; [exact Hne | eauto].
  - intros [Hne [g [Hg E]]]. exists g. split; [|exact E].
    apply filter_In. split; [exact Hg|]. apply negb_true_iff. now rewrite E.
Qed.

Lemma has_tag_distinct i l : has_tag i (distinct l) = has_tag i l.
Proof.
  induction l as [|g l IH]; [reflexivity|]. cbn [distinct].
  change (has_tag i (g :: ?x)) with ((Tag.id g =? i) || has_tag i x).
  rewrite has_tag_filter_other, IH.
  destruct (Z.eqb_spec (Tag.id g) i) as [E|NE]; [reflexivity|].
  destruct (Z.eqb_spec i (Tag.id g)); [congruence | reflexivity].
Qed.

Lemma distinct_In g l : In g (distinct l) -> In g l.
Proof.
  revert g. induction l as [|a l IH]; intros g; [contradiction|].
  cbn [distinct]. intros [<-|H]; [now left|]. right. apply IH.
  now apply filter_In in H.
Qed.

Lemma distinct_NoDup l : NoDup (map Tag.id (distinct l)).
Proof.
  induction l as [|a l IH]; [constructor|]. cbn [distinct map].
  constructor.
  - intros Hin. apply in_map_iff in Hin. destruct Hin as [x [E Hx]].
    apply filter_In in Hx. destruct Hx as [_ Hne].
    apply negb_true_iff, Z.eqb_neq in Hne. contradiction.
  - now apply NoDup_map_filter.
Qed.

Lemma distinct_nil_iff l : distinct l = [] <-> l = [].
Proof. destruct l; [tauto|]. split; discriminate. Qed.

(** An object that the list already names adds nothing at its end. *)
Lemma distinct_snoc l t :
  distinct (l ++ [t]) = distinct l ++ (if has_tag (Tag.id t) l then [] else [t]).
Proof.
  induction l as [|a l IH]; [reflexivity|].
  cbn [app distinct]. rewrite IH, filter_app.
  change (has_tag (Tag.id t) (a :: l))
    with ((Tag.id a =? Tag.id t) || has_tag (Tag.id t) l).
  f_equal. f_equal.
  destruct (has_tag (Tag.id t) l); [now rewrite orb_true_r|].
  rewrite orb_false_r. cbn [filter].
  destruct (Z.eqb_spec (Tag.id t) (Tag.id a)) as [E|NE].
  - rewrite E, Z.eqb_refl. reflexivity.
  - destruct (Z.eqb_spec (Tag.id a) (Tag.id t)); [congruence|reflexivity].
Qed.

(** The same for the objects of a list that it names already. *)
Lemma distinct_snoc_list l extra :
  (forall x, In x extra -> has_tag (Tag.id x) l = true) ->
  distinct (l ++ extra) = distinct l.
Proof.
  revert l. induction extra as [|t extra IH]; intros l H.
  - now rewrite app_nil_r.
  - change (l ++ t :: extra) with (l ++ [t] ++ extra).
    rewrite app_assoc, IH.
    + rewrite distinct_snoc, (H t (or_introl eq_refl)). apply app_nil_r.
    + intros x Hx. rewrite has_tag_app. apply orb_true_iff. left.
      apply H. now right.
Qed.

(** ** The flush of a collection *)

Lemma insert_links_Some rows table table' :
  insert_links rows table = Some table' -> table' = table ++ rows.
Proof.
  revert table. induction rows as [|r rows IH]; intros table H; simpl in H.
  - inversion H. now rewrite app_nil_r.
  - destruct (has_link r table); [discriminate|].
    apply IH in H. rewrite H, <- app_assoc. reflexivity.
Qed.

(** The INSERT of link rows goes through exactly when the rows are
    pairwise distinct and none is in the table. *)
Lemma insert_links_Some_iff rows table :
  (exists table', insert_links rows table = Some table')
  <-> NoDup rows /\ (forall r, In r rows -> ~ In r table).
Proof.
  revert table. induction rows as [|r rows IH]; intros table; simpl.
  - split; [intros _; split; [constructor | contradiction] | eauto].
  - destruct (has_link r table) eqn:Hr.
    + apply has_link_In in Hr. split.
      * intros [t' H]. discriminate.
      * intros [_ H]. exfalso. apply (H r); [now left | exact Hr].
    + assert (~ In r table) as Hnot
        by (intros Hin; apply has_link_In in Hin; congruence).
      rewrite IH. split.
      * intros [Hnd Hdisj]. split.
        -- constructor; [|exact Hnd]. intros Hin.
           apply (Hdisj r Hin). apply in_or_app. right. now left.
        -- intros x [<-|Hx]; [exact Hnot|]. intros Hin.
           apply (Hdisj x Hx). apply in_or_app. now left.
      * intros [Hnd Hdisj]. inversion Hnd as [|? ? Hrin Hrest]; subst.
        split; [exact Hrest|]. intros x Hx Hin.
        apply in_app_or in Hin. destruct Hin as [Hin|[<-|[]]].
        -- apply (Hdisj x); [now right | exact Hin].
        -- contradiction.
Qed.

Lemma links_of_NoDup task_id l :
  NoDup (links_of task_id l) <-> NoDup (map Tag.id l).
Proof.
  unfold links_of. induction l as [|g l IH]; simpl.
  - split; constructor.
  - split; intros H; inversion H as [|? ? Hnotin Hrest]; subst;
      (constructor; [|now apply IH]); intros Hin; apply Hnotin.
    + apply in_map_iff in Hin. destruct Hin as [x [E Hx]].
      apply in_map_iff. exists x. split; [now rewrite E | exact Hx].
    + apply in_map_iff in Hin. destruct Hin as [x [E Hx]].
      apply in_map_iff. exists x. split; [now inversion E | exact Hx].
Qed.

Lemma links_of_In task_id l r :
  In r (links_of task_id l)
  <-> TaskTagLink.task_id r = task_id /\ has_tag (TaskTagLink.tag_id r) l = true.
Proof.
  unfold links_of. rewrite in_map_iff, has_tag_In. split.
  - intros [g [<- Hg]]. simpl. eauto.
  - intros [Et [g [Hg Eg]]]. exists g. split; [|exact Hg].
    destruct r as [t i]. simpl in *. now subst.
Qed.

Lemma delete_links_nil table : delete_links [] table = table.
Proof. unfold delete_links. apply filter_all. reflexivity. Qed.

(** The flush of a collection that was loaded from the table and now
    holds rows of the tag table always goes through: no pair is
    inserted twice, and none that the table has.  Afterwards the task
    is linked to the tags of the collection, and every other link row
    is as it was. *)
Lemma flush_tags_loaded db task_id current :
  (forall c, In c current -> resolves db (Tag.id c) = true) ->
  exists table',
    flush_tags task_id (load_tags db task_id) current (tasktaglink db)
    = Some table'
    /\ (forall i, resolves db i = true ->
                  has_link (TaskTagLink.mk task_id i) table' = has_tag i current)
    /\ (forall l, TaskTagLink.task_id l <> task_id ->
                  has_link l table' = has_link l (tasktaglink db)).
Proof.
  intros Hres. set (original := load_tags db task_id).
  set (table := tasktaglink db).
  assert (forall i, resolves db i = true ->
                    has_tag i original
                    = has_link (TaskTagLink.mk task_id i) table) as Horig.
  { intros i Hi. unfold original. now rewrite has_tag_load, Hi. }
  destruct (proj2 (insert_links_Some_iff
                     (links_of task_id (added original current))
                     (delete_links (links_of task_id (deleted original current))
                                   table))) as [table' Hflush].
  { split.
    - apply links_of_NoDup. unfold added. apply distinct_NoDup.
    - intros r Hr Hin. apply links_of_In in Hr. destruct Hr as [Et Ha].
      unfold added in Ha. rewrite has_tag_distinct in Ha.
      apply has_tag_In in Ha. destruct Ha as [a [Ha Ea]].
      apply filter_In in Ha. destruct Ha as [Ha Hnew].
      apply negb_true_iff in Hnew. rewrite Horig in Hnew by now apply Hres.
      unfold delete_links in Hin. apply filter_In in Hin.
      destruct Hin as [Hin _]. apply has_link_In in Hin.
      destruct r as [t i]. simpl in *. subst. congruence. }
  exists table'. split; [exact Hflush|].
  apply insert_links_Some in Hflush.
  assert (forall l, has_link l table'
                    = has_link l table
                      && negb (has_link l (links_of task_id
                                             (deleted original current)))
                      || has_link l (links_of task_id (added original current)))
    as Hmem.
  { intros l. apply bool_ext.
    rewrite orb_true_iff, andb_true_iff, negb_true_iff, !has_link_In, Hflush.
    rewrite in_app_iff. unfold delete_links. rewrite filter_In.
    rewrite negb_true_iff. tauto. }
  split.
  - intros i Hi. rewrite Hmem. apply bool_ext.
    rewrite orb_true_iff, andb_true_iff, negb_true_iff.
    rewrite <- Horig by exact Hi.
    assert (has_link (TaskTagLink.mk task_id i)
              (links_of task_id (deleted original current))
            = has_tag i original && negb (has_tag i current)) as ->.
    { apply bool_ext. rewrite has_link_In, links_of_In. cbn.
      unfold deleted. rewrite has_tag_In, andb_true_iff, has_tag_In.
      split.
      - intros [_ [g [Hg E]]]. apply filter_In in Hg. subst i.
        split; [exists g; tauto | tauto].
      - intros [[g [Hg E]] Hn]. split; [reflexivity|]. exists g.
        split; [|exact E]. apply filter_In. split; [exact Hg|].
        now rewrite E. }
    assert (has_link (TaskTagLink.mk task_id i)
              (links_of task_id (added original current))
            = has_tag i current && negb (has_tag i original)) as ->.
    { apply bool_ext. rewrite has_link_In, links_of_In. cbn.
      unfold added. rewrite has_tag_distinct.
      rewrite has_tag_In, andb_true_iff, has_tag_In.
      split.
      - intros [_ [g [Hg E]]]. apply filter_In in Hg. subst i.
        split; [exists g; tauto | tauto].
      - intros [[g [Hg E]] Hn]. split; [reflexivity|]. exists g.
        split; [|exact E]. apply filter_In. split; [exact Hg|].
        now rewrite E. }
    destruct (has_tag i original), (has_tag i current); cbn; intuition congruence.
  - intros l Hl. rewrite Hmem.
    assert (forall rows, has_link l (links_of task_id rows) = false) as Hno.
    { intros rows. destruct (has_link l (links_of task_id rows)) eqn:E;
        [|reflexivity].
      apply has_link_In, links_of_In in E. tauto. }
    rewrite !Hno. cbn. now rewrite andb_true_r, orb_false_r.
Qed.

(** A flush determines the table it leaves. *)
Lemma flush_tags_NoDup task_id original current table table' :
  NoDup table ->
  flush_tags task_id original current table = Some table' -> NoDup table'.
Proof.
  unfold flush_tags, delete_links. intros Hnd H.
  assert (forall rows t t', NoDup t -> insert_links rows t = Some t' -> NoDup t')
    as Hins.
  { induction rows as [|r rows IH]; intros t t' Ht E; simpl in E.
    - now inversion E; subst.
    - destruct (has_link r t) eqn:Hr; [discriminate|].
      apply IH in E; [exact E|].
      apply NoDup_app; [exact Ht | repeat constructor; intros [] |].
      intros x Hx [<-|[]]. apply has_link_In in Hx. congruence. }
  apply Hins in H; [exact H|]. now apply NoDup_filter.
Qed.

(** A flush only adds link rows of the task it flushes. *)
Lemma flush_tags_rows task_id original current table table' l :
  flush_tags task_id original current table = Some table' ->
  In l table' -> In l table \/ TaskTagLink.task_id l = task_id.
Proof.
  unfold flush_tags, delete_links, links_of. intros H Hl.
  apply insert_links_Some in H. subst table'.
  apply in_app_or in Hl. destruct Hl as [Hl|Hl].
  - left. now apply filter_In in Hl.
  - right. apply in_map_iff in Hl. now destruct Hl as [g [<- _]].
Qed.

(** A collection that names what was loaded, and nothing else, flushes
    to the same table. *)
Lemma flush_tags_same task_id original current table :
  (forall i, has_tag i current = has_tag i original) ->
  flush_tags task_id original current table = Some table.
Proof.
  intros Hsame. unfold flush_tags, added, deleted.
  rewrite !filter_none.
  - simpl. now rewrite delete_links_nil.
  - intros g Hg. apply negb_false_iff. rewrite Hsame.
    apply has_tag_In. now exists g.
  - intros g Hg. apply negb_false_iff. rewrite <- Hsame.
    apply has_tag_In. now exists g.
Qed.

(** The tags of the flushed task and of the other tasks, afterwards. *)
Lemma load_tags_flushed db db' task_id current :
  tags db' = tags db ->
  (forall c, In c current -> resolves db (Tag.id c) = true) ->
  flush_tags task_id (load_tags db task_id) current (tasktaglink db)
  = Some (tasktaglink db') ->
  load_tags db' task_id
  = filter (fun g => has_tag (Tag.id g) current) (tags db)
  /\ forall k, k <> task_id -> load_tags db' k = load_tags db k.
Proof.
  intros Etags Hres Hflush.
  destruct (@flush_tags_loaded db task_id current Hres) as [table' [E [Hown Hother]]].
  rewrite E in Hflush. inversion Hflush as [Etable]. clear Hflush E.
  unfold load_tags. rewrite Etags, <- Etable. split.
  - apply filter_ext_in. intros g Hg. apply Hown. apply resolves_In. now exists g.
  - intros k Hk. apply filter_ext. intros g. apply Hother. cbn. congruence.
Qed.

(* ===================================================================== *)
(** * 15. The link table                                                  *)
(* ===================================================================== *)

Lemma deleted_extend original tags' : deleted original (original ++ tags') = [].
Proof.
  unfold deleted. apply filter_none. intros o Ho. apply negb_false_iff.
  apply has_tag_In. exists o. split; [|reflexivity].
  apply in_or_app. now left.
Qed.

(** Extending a collection only adds link rows, all of the task. *)
Lemma flush_tags_extend task_id original tags' table table' :
  flush_tags task_id original (original ++ tags') table = Some table' ->
  table' = table ++ links_of task_id (added original (original ++ tags')).
Proof.
  unfold flush_tags. rewrite deleted_extend. simpl.
  rewrite delete_links_nil. apply insert_links_Some.
Qed.


(** A create request whose references do not all pass is refused, and
    nothing is written. *)
Lemma create_task_refused utc_now task_data db :
  references_pass db task_data = false ->
  exists e, create_task utc_now task_data db = (Raise e, db).
Proof.
  unfold references_pass, reference_ok. intros H. rewrite create_task_run.
  destruct (int64_opt (TaskCreate.project_id task_data)); cbn [negb]; [|eauto].
  destruct (dangling (get_Project db) _); [eauto|].
  destruct (int64_opt (TaskCreate.assignee_id task_data)); cbn [negb]; [|eauto].
  destruct (dangling (get_User db) _); [eauto|].
  destruct (int64_opt (TaskCreate.parent_task_id task_data)); cbn [negb];
    [|eauto].
  destruct (dangling (get_Task db) _); [eauto|]. discriminate.
Qed.

(** When they pass, the row is inserted, and then the tags of the
    list are attached: the flush of the extended collection always
    goes through, so the request returns unless an id of the list is no
    key that the store can hold. *)
Lemma create_task_passed utc_now task_data db :
  references_pass db task_data = true ->
  let task := created_row utc_now task_data db in
  let db1 := db_with_created utc_now task_data db in
  match TaskCreate.tag_ids task_data with
  | Some (tag_id :: rest) =>
      if forallb int64 (tag_id :: rest) then
        exists links,
          flush_tags (Task.id task) (load_tags db1 (Task.id task))
            (load_tags db1 (Task.id task) ++ found_tags db1 (tag_id :: rest))
            (tasktaglink db1) = Some links
          /\ create_task utc_now task_data db
             = (Return (TaskRead.model_validate task), with_links db1 links)
      else create_task utc_now task_data db = (Raise OverflowError, db1)
  | _ => create_task utc_now task_data db
         = (Return (TaskRead.model_validate task), db1)
  end.
Proof.
  unfold references_pass, reference_ok. intros H.
  apply andb_true_iff in H. destruct H as [H Ht].
  apply andb_true_iff in H. destruct H as [Hp Hu].
  apply andb_true_iff in Hp. destruct Hp as [Rp Hp].
  apply andb_true_iff in Hu. destruct Hu as [Ru Hu].
  apply andb_true_iff in Ht. destruct Ht as [Rt Ht].
  apply negb_true_iff in Hp, Hu, Ht.
  rewrite create_task_run, Rp, Hp, Ru, Hu, Rt, Ht. cbn [negb]. cbv zeta.
  destruct (TaskCreate.tag_ids task_data) as [[|tag_id rest]|];
    try reflexivity.
  destruct (forallb int64 (tag_id :: rest)); [|reflexivity].
  set (db1 := db_with_created utc_now task_data db).
  set (task := created_row utc_now task_data db).
  destruct (@flush_tags_loaded db1 (Task.id task)
              (load_tags db1 (Task.id task) ++ found_tags db1 (tag_id :: rest)))
    as [links [Hflush _]].
  { intros c Hc. apply in_app_or in Hc. destruct Hc as [Hc|Hc].
    - exact (load_tags_key _ _ _ Hc).
    - apply found_tags_key in Hc. unfold resolves. now rewrite Hc. }
  exists links. now rewrite Hflush.
Qed.

(** What [create_task] leaves in the database, whatever it answers. *)
Lemma create_task_effect utc_now task_data db res db' :
  create_task utc_now task_data db = (res, db') ->
  users db' = users db /\ projects db' = projects db
  /\ tags db' = tags db /\ comments db' = comments db
  /\ (exists new_links,
         tasktaglink db' = tasktaglink db ++ new_links
         /\ NoDup (map TaskTagLink.tag_id new_links)
         /\ forall l, In l new_links ->
                      TaskTagLink.task_id l = next_id (map Task.id (tasks db)))
  /\ (references_pass db task_data = false
      /\ (exists e, res = Raise e) /\ db' = db
      \/ references_pass db task_data = true
         /\ tasks db' = tasks db ++ [created_row utc_now task_data db]
         /\ (res = Return (TaskRead.model_validate
                             (created_row utc_now task_data db))
             /\ int64_list (TaskCreate.tag_ids task_data) = true
             \/ res = Raise OverflowError
                /\ int64_list (TaskCreate.tag_ids task_data) = false
                /\ db' = db_with_created utc_now task_data db)).
Proof.
  intros H.
  assert (exists new_links,
             tasktaglink db = tasktaglink db ++ new_links
             /\ NoDup (map TaskTagLink.tag_id new_links)
             /\ forall l, In l new_links ->
                          TaskTagLink.task_id l = next_id (map Task.id (tasks db)))
    as Hnil.
  { exists []. split; [now rewrite app_nil_r|].
    split; [constructor | contradiction]. }
  destruct (references_pass db task_data) eqn:Hpass.
  2:{ destruct (create_task_refused utc_now task_data db Hpass) as [e E].
      rewrite E in H. inversion H; subst.
      repeat split; try exact Hnil. left. eauto. }
  pose proof (create_task_passed utc_now task_data db Hpass) as Hrun.
  cbv zeta in Hrun. unfold int64_list.
  destruct (TaskCreate.tag_ids task_data) as [[|tag_id rest]|].
  - rewrite Hrun in H. inversion H; subst.
    do 4 (split; [reflexivity|]). split; [exact Hnil|]. right.
    split; [reflexivity|]. split; [reflexivity|]. left. split; reflexivity.
  - destruct (forallb int64 (tag_id :: rest)).
    + destruct Hrun as [links [Hflush E]]. rewrite E in H.
      inversion H; subst. do 4 (split; [reflexivity|]). split.
      * apply flush_tags_extend in Hflush. simpl.
        eexists. split; [exact Hflush|]. split.
        -- unfold links_of. rewrite map_map. cbn. apply distinct_NoDup.
        -- intros l Hl. unfold links_of in Hl.
           apply in_map_iff in Hl. now destruct Hl as [g [<- _]].
      * right. split; [reflexivity|]. split; [reflexivity|]. left.
        split; reflexivity.
    + rewrite Hrun in H. inversion H; subst.
      do 4 (split; [reflexivity|]). split; [exact Hnil|]. right.
      split; [reflexivity|]. split; [reflexivity|]. right.
      repeat split; reflexivity.
  - rewrite Hrun in H. inversion H; subst.
    do 4 (split; [reflexivity|]). split; [exact Hnil|]. right.
    split; [reflexivity|]. split; [reflexivity|]. left. split; reflexivity.
Qed.

Lemma get_by_map {A} (pk : A -> Z) (f : A -> A) rows k :
  (forall r, pk (f r) = pk r) ->
  get_by pk (map f rows) k = option_map f (get_by pk rows k).
Proof.
  intros Hf. unfold get_by. induction rows as [|a rows IH]; [reflexivity|].
  simpl. rewrite Hf. destruct (pk a =? k); [reflexivity | exact IH].
Qed.

Lemma get_by_filter_other {A} (pk : A -> Z) rows k j :
  k <> j ->
  get_by pk (filter (fun r => negb (pk r =? j)) rows) k = get_by pk rows k.
Proof.
  intros Hne. unfold get_by. induction rows as [|a rows IH]; [reflexivity|].
  simpl. destruct (Z.eqb_spec (pk a) j) as [E|NE]; simpl.
  - destruct (Z.eqb_spec (pk a) k); [congruence | exact IH].
  - destruct (pk a =? k); [reflexivity | exact IH].
Qed.

Lemma consistent_sample_db t0 : consistent (sample_db t0).
Proof.
  split.
  - simpl. repeat constructor; simpl; intuition discriminate.
  - simpl. repeat constructor; simpl; intuition discriminate.
  - intros l Hl. simpl in Hl.
    repeat (destruct Hl as [<-|Hl]; [discriminate|]). contradiction.
Qed.

Lemma consistent_create_task utc_now task_data db res db' :
  consistent db ->
  create_task utc_now task_data db = (res, db') -> consistent db'.
Proof.
  intros [Htags Hnd Hwf] H.
  destruct (create_task_effect _ _ _ H)
    as [_ [_ [Et [_ [[new_links [El [Hnew Hid]]] Hcases]]]]].
  destruct Hcases as [[_ [_ ->]]|[_ [Etasks _]]]; [now split|].
  split.
  - now rewrite Et.
  - rewrite El. apply NoDup_app; [exact Hnd | |].
    + apply (NoDup_map_inv TaskTagLink.tag_id). exact Hnew.
    + intros l Hold Hl. apply Hid in Hl. apply (Hwf l Hold).
      rewrite Hl. apply get_Task_next_id.
  - intros l Hl. rewrite El in Hl. unfold get_Task. rewrite Etasks.
    rewrite get_by_app. apply in_app_or in Hl. destruct Hl as [Hl|Hl].
    + specialize (Hwf l Hl). unfold get_Task in Hwf.
      now destruct (get_by Task.id (tasks db) (TaskTagLink.task_id l)).
    + rewrite (Hid l Hl).
      fold (get_Task db (next_id (map Task.id (tasks db)))).
      rewrite get_Task_next_id. unfold get_by. cbn.
      rewrite Z.eqb_refl. discriminate.
Qed.

Lemma consistent_update_task task_id task_data db res db' :
  consistent db ->
  update_task task_id task_data db = (res, db') -> consistent db'.
Proof.
  intros [Htags Hnd Hwf] H.
  destruct (update_task_inv _ _ _ H)
    as [[e [_ ->]] | [task [_ [Hget _]]]]; [now split|].
  pose proof (get_by_key _ _ _ Hget) as Hid.
  destruct (update_task_outcome _ _ _ Hget H)
    as [[e [_ ->]] | [_ [Hafter [_ Hflush]]]]; [now split|].
  apply flush_update_inv in Hflush.
  destruct Hflush as [row [Hrow [Htasks [_ [_ [Et [_ Hlinks]]]]]]].
  inversion Hrow; subst row.
  assert (forall k, get_Task db k <> None -> get_Task db' k <> None) as Hkeep.
  { intros k Hk. destruct (Z.eq_dec k task_id) as [->|Hne].
    - now rewrite Hafter.
    - unfold get_Task. rewrite Htasks, get_replace_other; [exact Hk|].
      simpl. congruence. }
  destruct (assigned_tags db task task_data) as [[original current]|].
  - split.
    + now rewrite Et.
    + exact (flush_tags_NoDup _ _ _ Hnd Hlinks).
    + intros l Hl.
      destruct (flush_tags_rows _ _ _ _ _ Hlinks Hl) as [Hold|Hnew].
      * apply Hkeep. now apply Hwf.
      * rewrite Hnew, Hid, Hafter. discriminate.
  - split; [now rewrite Et | now rewrite Hlinks|].
    intros l Hl. rewrite Hlinks in Hl. apply Hkeep. now apply Hwf.
Qed.

Lemma consistent_delete_task task_id db res db' :
  consistent db ->
  delete_task task_id db = (res, db') -> consistent db'.
Proof.
  intros [Htags Hnd Hwf] H. unfold delete_task, bind in H.
  destruct (get_task_or_404 task_id db) as [r d] eqn:E.
  destruct (get_task_or_404_inv _ _ E)
    as [-> [[_ ->]|[[_ [_ ->]]|[_ [task [Hget ->]]]]]];
    try (inversion H; subst; now split).
  pose proof (get_by_key _ _ _ Hget) as Hid.
  unfold commit, ret in H. inversion H; subst. split.
  - exact Htags.
  - simpl. now apply NoDup_filter.
  - intros l Hl. simpl in Hl. apply filter_In in Hl.
    destruct Hl as [Hl Hne]. apply negb_true_iff, Z.eqb_neq in Hne.
    specialize (Hwf l Hl). unfold get_Task, delete_row. simpl.
    rewrite get_by_map by apply orphan_subtask_id.
    rewrite get_by_filter_other by exact Hne.
    unfold get_Task in Hwf.
    now destruct (get_by Task.id (tasks db) (TaskTagLink.task_id l)).
Qed.

(* ===================================================================== *)
(** * 16. The tag ids of a request                                        *)
(* ===================================================================== *)

(** The tags of the ids of a list: the rows of the tag table that the
    list names. *)
Lemma filter_found_tags db ids :
  filter (fun g => has_tag (Tag.id g) (found_tags db ids)) (tags db)
  = filter (named_by ids) (tags db).
Proof. apply filter_ext_in. intros g Hg. now apply has_tag_found_row. Qed.

Lemma named_by_resolves db ids i :
  In i (map Tag.id (filter (named_by ids) (tags db)))
  <-> In i ids /\ resolves db i = true.
Proof.
  rewrite in_map_iff, resolves_In. split.
  - intros [g [E Hg]]. apply filter_In in Hg. destruct Hg as [Hg Hn].
    apply named_by_In in Hn. subst i. eauto.
  - intros [Hi [g [Hg E]]]. exists g. split; [exact E|].
    apply filter_In. split; [exact Hg|]. apply named_by_In. now rewrite E.
Qed.

(** A created task has the tags that its list names. *)
Lemma create_task_attaches_named utc_now task_data db r db' tag_ids :
  links_attached db ->
  TaskCreate.tag_ids task_data = Some tag_ids ->
  create_task utc_now task_data db = (Return r, db') ->
  load_tags db' (TaskRead.id r) = filter (named_by tag_ids) (tags db).
Proof.
  intros Hwf Hids H.
  destruct (create_task_effect _ _ _ H)
    as [_ [_ [_ [_ [_ [[_ [[e He] _]]|[Hpass [_ [[Hr Hl]|[He _]]]]]]]]]];
    try discriminate.
  inversion Hr; subst r. clear Hr.
  pose proof (create_task_passed utc_now task_data db Hpass) as Hrun.
  cbv zeta in Hrun. rewrite Hids in Hrun, Hl. cbn [int64_list] in Hl.
  set (db1 := db_with_created utc_now task_data db) in *.
  set (task := created_row utc_now task_data db) in *.
  assert (load_tags db1 (Task.id task) = []) as Hnone.
  { rewrite (@load_tags_ext _ db) by reflexivity. now apply load_tags_next_id. }
  change (TaskRead.id (TaskRead.model_validate task)) with (Task.id task).
  destruct tag_ids as [|tag_id rest].
  - rewrite Hrun in H. inversion H; subst db'. rewrite Hnone.
    symmetry. now apply filter_none.
  - rewrite Hl in Hrun. destruct Hrun as [links [Hflush E]].
    rewrite E in H. inversion H; subst db'.
    destruct (@load_tags_flushed db1 (with_links db1 links) (Task.id task)
                (load_tags db1 (Task.id task) ++ found_tags db1 (tag_id :: rest)))
      as [Hown _]; [reflexivity| |exact Hflush|].
    { intros c Hc. apply in_app_or in Hc. destruct Hc as [Hc|Hc].
      - exact (load_tags_key _ _ _ Hc).
      - apply found_tags_key in Hc. unfold resolves. now rewrite Hc. }
    rewrite Hown, Hnone. cbn [app].
    exact (filter_found_tags db1 (tag_id :: rest)).
Qed.


(** A successful update with a tag-id list leaves the task with the
    tags that the list names, and no other. *)
Lemma update_task_replaces_tags task_id task_data db r db' tag_ids :
  attr (TaskUpdate.tag_ids task_data) = Some tag_ids ->
  update_task task_id task_data db = (Return r, db') ->
  load_tags db' task_id = filter (named_by tag_ids) (tags db).
Proof.
  intros Hids H.
  destruct (update_task_inv _ _ _ H)
    as [[e [He _]] | [task [_ [Hget _]]]]; [discriminate|].
  pose proof (get_by_key _ _ _ Hget) as Hid.
  destruct (update_task_outcome _ _ _ Hget H)
    as [[e [He _]] | [_ [_ [_ Hflush]]]]; [discriminate|].
  apply flush_update_inv in Hflush.
  destruct Hflush as [row [_ [_ [_ [_ [Etags [_ Hlinks]]]]]]].
  unfold assigned_tags in Hlinks. rewrite Hids, Hid in Hlinks.
  destruct (@load_tags_flushed db db' task_id (found_tags db tag_ids))
    as [Hown _]; [exact Etags| |exact Hlinks|].
  { intros c Hc. apply found_tags_key in Hc. unfold resolves. now rewrite Hc. }
  rewrite Hown. apply filter_found_tags.
Qed.

Lemma update_task_missing task_id task_data db :
  int64 task_id = true -> get_Task db task_id = None ->
  update_task task_id task_data db
  = (Raise (HTTPException 404 "Task not found"), db).
Proof.
  intros Hk Hget. unfold update_task, bind at 1.
  now rewrite (get_task_or_404_missing _ _ Hk Hget).
Qed.







(** ** Naming a tag again *)

Lemma flush_tags_snoc_again task_id original current t table :
  has_tag (Tag.id t) current = true ->
  flush_tags task_id original (current ++ [t]) table
  = flush_tags task_id original current table.
Proof.
  intros Ht. unfold flush_tags. f_equal.
  - f_equal. unfold added. rewrite filter_app, distinct_snoc_list.
    + reflexivity.
    + intros x Hx. cbn [filter] in Hx.
      destruct (has_tag (Tag.id t) original) eqn:Ho; cbn in Hx;
        [contradiction|]. destruct Hx as [<-|[]].
      apply has_tag_In in Ht. destruct Ht as [c [Hc Ec]].
      apply has_tag_In. exists c. split; [|exact Ec].
      apply filter_In. split; [exact Hc|]. now rewrite Ec, Ho.
  - f_equal. f_equal. unfold deleted. apply filter_ext. intros o.
    rewrite has_tag_app. cbn [has_tag existsb].
    destruct (Z.eqb_spec (Tag.id t) (Tag.id o)) as [E|NE].
    + rewrite <- E, Ht. reflexivity.
    + now rewrite !orb_false_r.
Qed.

Lemma found_tags_snoc db ids i :
  found_tags db (ids ++ [i])
  = found_tags db ids ++ match get_Tag db i with
                         | Some t => [t]
                         | None => []
                         end.
Proof. rewrite found_tags_app. cbn. now destruct (get_Tag db i). Qed.

(** The collection that a list with an id named again assigns flushes
    as the one of the list itself. *)
Lemma flush_found_again db task_id original prefix ids i table :
  In i ids ->
  flush_tags task_id original (prefix ++ found_tags db (ids ++ [i])) table
  = flush_tags task_id original (prefix ++ found_tags db ids) table.
Proof.
  intros Hi. rewrite found_tags_snoc.
  destruct (get_Tag db i) as [t|] eqn:Hget; [|now rewrite app_nil_r].
  rewrite app_assoc. apply flush_tags_snoc_again.
  rewrite has_tag_app. apply orb_true_iff. right.
  apply has_tag_In. exists t. split; [|reflexivity].
  apply found_tags_In. eauto.
Qed.

Lemma forallb_snoc_In {A} (f : A -> bool) l x :
  In x l -> forallb f (l ++ [x]) = forallb f l.
Proof.
  intros Hx. rewrite forallb_app. cbn. rewrite andb_true_r.
  destruct (forallb f l) eqn:E; [|reflexivity]. cbn.
  exact (proj1 (forallb_forall _ _) E x Hx).
Qed.

Lemma create_task_names_again utc_now task_data db tag_ids i :
  TaskCreate.tag_ids task_data = Some tag_ids -> In i tag_ids ->
  create_task utc_now (create_with_tag_ids task_data (Some (tag_ids ++ [i]))) db
  = create_task utc_now task_data db.
Proof.
  intros Hids Hi. rewrite !create_task_run. cbv zeta.
  change (created_row utc_now (create_with_tag_ids task_data _) db)
    with (created_row utc_now task_data db).
  change (db_with_created utc_now (create_with_tag_ids task_data _) db)
    with (db_with_created utc_now task_data db).
  simpl TaskCreate.project_id. simpl TaskCreate.assignee_id.
  simpl TaskCreate.parent_task_id. simpl TaskCreate.tag_ids. rewrite Hids.
  destruct tag_ids as [|tag_id rest]; [contradiction|].
  cbn [app].
  change (tag_id :: rest ++ [i]) with ((tag_id :: rest) ++ [i]).
  rewrite (forallb_snoc_In int64 _ _ Hi).
  now rewrite flush_found_again by exact Hi.
Qed.

Lemma update_task_names_again task_id task_data db tag_ids i :
  TaskUpdate.tag_ids task_data = Given (Some tag_ids) -> In i tag_ids ->
  update_task task_id
    (update_with_tag_ids task_data (Given (Some (tag_ids ++ [i])))) db
  = update_task task_id task_data db.
Proof.
  intros Hids Hi.
  destruct (int64 task_id) eqn:Hk.
  2:{ now rewrite !(proj1 (update_task_overflow task_id _ db) Hk). }
  destruct (get_Task db task_id) as [task|] eqn:Hget.
  2:{ now rewrite !(@update_task_missing task_id _ db Hk Hget). }
  destruct (int64_opt (attr (TaskUpdate.assignee_id task_data))) eqn:Ha.
  2:{ rewrite !(proj1 (proj2 (update_task_overflow task_id _ db))
                   task Hk Hget); [reflexivity|exact Ha|exact Ha]. }
  destruct (dangling (get_User db) (attr (TaskUpdate.assignee_id task_data)))
    eqn:Hd.
  { rewrite !(@update_task_user_missing task_id _ db task Hk Hget);
      [reflexivity|exact Ha|exact Hd|exact Ha|exact Hd]. }
  destruct (forallb int64 tag_ids) eqn:Hl.
  - rewrite !(@update_task_run task_id _ db task Hk Hget);
      [|exact Ha|now rewrite Hids|exact Ha
       |cbn; now rewrite (forallb_snoc_In int64 _ _ Hi)].
    unfold assigned_tags.
    change (model_dump (update_with_tag_ids task_data _))
      with (model_dump task_data).
    simpl TaskUpdate.assignee_id. simpl TaskUpdate.tag_ids. rewrite Hids.
    unfold attr, flush_update.
    destruct (setattrs (Some task) (model_dump task_data)); [|reflexivity].
    pose proof (@flush_found_again db (Task.id task)
                  (load_tags db (Task.id task)) [] tag_ids i
                  (tasktaglink db) Hi) as E.
    cbn [app] in E. now rewrite E.
  - rewrite !(proj2 (proj2 (update_task_overflow task_id _ db))
                 task Hk Hget);
      [reflexivity|exact Ha|exact Hd|now rewrite Hids|exact Ha|exact Hd
       |cbn; now rewrite (forallb_snoc_In int64 _ _ Hi)].
Qed.

Lemma count_once db ids i :
  NoDup (map Tag.id (tags db)) -> In i ids -> resolves db i = true ->
  count_occ Z.eq_dec (map Tag.id (filter (named_by ids) (tags db))) i = 1%nat.
Proof.
  intros Hnd Hi Hres. apply NoDup_count_occ'.
  - now apply NoDup_map_filter.
  - apply named_by_resolves. auto.
Qed.

(** C5.  The tags of a task are a set.  After a create or an update
    that returned, each tag that the list names is among the tags of
    the task exactly once, however often the list names it; a list
    that names an id again has the outcome of the list without the
    repetition; and an update whose list names the tags that the task
    has leaves the link table as it is. *)
Theorem repeated_tag_id_is_attached_once :
  (forall utc_now task_data db r db' tag_ids i,
      consistent db ->
      TaskCreate.tag_ids task_data = Some tag_ids ->
      create_task utc_now task_data db = (Return r, db') ->
      In i tag_ids -> resolves db i = true ->
      count_occ Z.eq_dec (map Tag.id (load_tags db' (TaskRead.id r))) i
      = 1%nat)
  /\ (forall task_id task_data db r db' tag_ids i,
      consistent db ->
      attr (TaskUpdate.tag_ids task_data) = Some tag_ids ->
      update_task task_id task_data db = (Return r, db') ->
      In i tag_ids -> resolves db i = true ->
      count_occ Z.eq_dec (map Tag.id (load_tags db' task_id)) i = 1%nat)
  /\ (forall utc_now task_data db tag_ids i,
      TaskCreate.tag_ids task_data = Some tag_ids -> In i tag_ids ->
      create_task utc_now
        (create_with_tag_ids task_data (Some (tag_ids ++ [i]))) db
      = create_task utc_now task_data db)
  /\ (forall task_id task_data db tag_ids i,
      TaskUpdate.tag_ids task_data = Given (Some tag_ids) -> In i tag_ids ->
      update_task task_id
        (update_with_tag_ids task_data (Given (Some (tag_ids ++ [i])))) db
      = update_task task_id task_data db)
  /\ (forall task_id task_data db r db' tag_ids,
      attr (TaskUpdate.tag_ids task_data) = Some tag_ids ->
      update_task task_id task_data db = (Return r, db') ->
      filter (named_by tag_ids) (tags db) = load_tags db task_id ->
      tasktaglink db' = tasktaglink db).
Proof.
  split; [|split; [|split; [|split]]].
  - intros utc_now task_data db r db' tag_ids i Hc Hids H Hi Hres.
    rewrite (create_task_attaches_named _ _ (links_have_task Hc) Hids H).
    exact (@count_once db tag_ids i (tags_unique Hc) Hi Hres).
  - intros task_id task_data db r db' tag_ids i Hc Hids H Hi Hres.
    rewrite (update_task_replaces_tags _ _ _ Hids H).
    exact (@count_once db tag_ids i (tags_unique Hc) Hi Hres).
  - intros. now apply create_task_names_again.
  - intros. now apply update_task_names_again.
  - intros task_id task_data db r db' tag_ids Hids H Hsame.
    destruct (update_task_inv _ _ _ H)
      as [[e [He _]] | [task [_ [Hget _]]]]; [discriminate|].
    pose proof (get_by_key _ _ _ Hget) as Hid.
    destruct (update_task_outcome _ _ _ Hget H)
      as [[e [He _]] | [_ [_ [_ Hflush]]]]; [discriminate|].
    apply flush_update_inv in Hflush.
    destruct Hflush as [row [_ [_ [_ [_ [_ [_ Hlinks]]]]]]].
    unfold assigned_tags in Hlinks. rewrite Hids, Hid in Hlinks.
    rewrite flush_tags_same in Hlinks; [now inversion Hlinks|].
    intros j. rewrite <- Hsame.
    destruct (resolves db j) eqn:Hres.
    + apply resolves_In in Hres. destruct Hres as [g [Hg <-]].
      rewrite has_tag_found_row by exact Hg. symmetry. apply bool_ext.
      rewrite has_tag_In, named_by_In. split.
      * intros [x [Hx E]]. apply filter_In in Hx. destruct Hx as [_ Hx].
        apply named_by_In in Hx. now rewrite <- E.
      * intros Hn. exists g. split; [|reflexivity]. apply filter_In.
        split; [exact Hg|]. now apply named_by_In.
    + rewrite has_tag_found, Hres, andb_false_r. symmetry.
      destruct (has_tag j (filter _ _)) eqn:E; [|reflexivity].
      apply has_tag_In in E. destruct E as [g [Hg E]].
      apply filter_In in Hg. assert (resolves db j = true); [|congruence].
      apply resolves_In. exists g. tauto.
Qed.

(** C5 on the sample data: a create request that names tag 1 twice
    returns, and the new task has tag 1 once; so does an update of
    task 2 with the same list; and task 3, which has tag 1, keeps its
    link row when an update names tag 1 again. *)
Lemma repeated_tag_id_is_attached_once_witness :
  (exists r db',
      create_task (fun _ => 7)
                  (new_task "Write tests" None None None (Some [1; 1]))
                  (sample_db 0) = (Return r, db')
      /\ count_occ Z.eq_dec (map Tag.id (load_tags db' (TaskRead.id r))) 1
         = 1%nat)
  /\ (exists r db',
        update_task 2 (update_with_tag_ids (rename "Schema")
                         (Given (Some [1; 1]))) (sample_db 0)
        = (Return r, db')
        /\ count_occ Z.eq_dec (map Tag.id (load_tags db' 2)) 1 = 1%nat)
  /\ tasktaglink
       (snd (update_task 3 (update_with_tag_ids (rename "Components")
                              (Given (Some [1; 1]))) (sample_db 0)))
     = tasktaglink (sample_db 0).
Proof.
  destruct repeated_tag_id_is_attached_once as [Hcreate [Hupdate [_ [_ Hsame]]]].
  split; [|split].
  - do 2 eexists. split; [cbv; reflexivity|].
    apply (Hcreate (fun _ => 7)
             (new_task "Write tests" None None None (Some [1; 1]))
             (sample_db 0) _ _ [1; 1] 1 (consistent_sample_db 0)
             eq_refl eq_refl); [now left | reflexivity].
  - do 2 eexists. split; [cbv; reflexivity|].
    apply (Hupdate 2 (update_with_tag_ids (rename "Schema")
                        (Given (Some [1; 1])))
             (sample_db 0) _ _ [1; 1] 1 (consistent_sample_db 0)
             eq_refl eq_refl); [now left | reflexivity].
  - apply (Hsame 3 (update_with_tag_ids (rename "Components")
                      (Given (Some [1; 1])))
             (sample_db 0) _ _ [1; 1] eq_refl eq_refl). reflexivity.
Defined.

(* ===================================================================== *)
(** * 17. Listing: filters and pages                                      *)
(* ===================================================================== *)



Lemma opt_eqb_eq x k : opt_eqb x k = true <-> x = Some k.
Proof.
  destruct x as [n|]; simpl; [|split; discriminate].
  rewrite Z.eqb_eq. split; congruence.
Qed.

Lemma filter_twice {A} (f g : A -> bool) l :
  filter g (filter f l) = filter (fun x => f x && g x) l.
Proof.
  induction l as [|a l IH]; [reflexivity|]. simpl.
  destruct (f a); simpl; [|exact IH]. destruct (g a); now rewrite IH.
Qed.

Lemma filter_when {A} (c : bool) (f : A -> bool) l :
  (if c then filter f l else l) = filter (fun x => negb c || f x) l.
Proof.
  destruct c; simpl; [reflexivity|]. symmetry. now apply filter_all.
Qed.

(** The where clauses of [get_tasks], one after the other, select the
    tasks that pass all the given filters. *)
Lemma get_tasks_run pagination status priority project_id assignee_id db :
  get_tasks pagination status priority project_id assignee_id db
  = if listing_in_range pagination project_id assignee_id
    then (Return (ResponseModel.of_data
                    (map TaskRead.model_validate
                       (offset_limit (PaginationParams.skip pagination)
                          (PaginationParams.limit pagination)
                          (filter (passes status priority project_id
                                          assignee_id)
                                  (tasks db))))), db)
    else (Raise OverflowError, db).
Proof.
  unfold get_tasks, listing_in_range, bind.
  destruct (_ && _); [|reflexivity].
  unfold query, ret. do 5 f_equal.
  rewrite !filter_when, !filter_twice. apply filter_ext. intros r.
  unfold passes, status_is, priority_is, sql_eq, opt_eqb, truthy_status,
    truthy_priority, truthy_int.
  destruct status as [[]|], priority as [[]|]; simpl;
    destruct project_id as [k|], assignee_id as [j|]; simpl;
    try destruct (k =? 0); try destruct (j =? 0); simpl;
    try destruct (Task.project_id r); try destruct (Task.assignee_id r);
    simpl; rewrite ?andb_true_r, <- ?andb_assoc; reflexivity.
Qed.













(* ===================================================================== *)
(** * 18. Reading                                                         *)
(* ===================================================================== *)

Lemma get_task_run task_id db :
  get_task task_id db
  = if int64 task_id then
      match get_Task db task_id with
      | Some task => (Return (expand db task), db)
      | None => (Raise (HTTPException 404 "Task not found"), db)
      end
    else (Raise OverflowError, db).
Proof.
  unfold get_task, get_task_or_404, session_get, not_found, raise, bind,
    query, ret.
  destruct (int64 task_id); [|reflexivity]. now destruct (get_Task db task_id).
Qed.

Lemma get_subtasks_run task_id db :
  get_subtasks task_id db
  = if int64 task_id then
      match get_Task db task_id with
      | Some _ =>
          (Return (ResponseModel.of_data
                     (map TaskRead.model_validate
                        (filter (fun r => opt_eqb (Task.parent_task_id r) task_id)
                                (tasks db)))), db)
      | None => (Raise (HTTPException 404 "Task not found"), db)
      end
    else (Raise OverflowError, db).
Proof.
  unfold get_subtasks, get_task_or_404, session_get, not_found, raise, bind,
    query, ret.
  destruct (int64 task_id); [|reflexivity]. now destruct (get_Task db task_id).
Qed.

Lemma get_task_comments_run task_id db :
  get_task_comments task_id db
  = if int64 task_id then
      match get_Task db task_id with
      | Some _ =>
          (Return (ResponseModel.of_data
                     (filter (fun c => opt_eqb (Comment.task_id c) task_id)
                             (comments db))), db)
      | None => (Raise (HTTPException 404 "Task not found"), db)
      end
    else (Raise OverflowError, db).
Proof.
  unfold get_task_comments, get_task_or_404, session_get, not_found, raise,
    bind, query, ret.
  destruct (int64 task_id); [|reflexivity]. now destruct (get_Task db task_id).
Qed.

Lemma delete_task_run task_id db :
  delete_task task_id db
  = if int64 task_id then
      match get_Task db task_id with
      | Some task =>
          (Return (TaskRead.model_validate task), delete_row task_id db)
      | None => (Raise (HTTPException 404 "Task not found"), db)
      end
    else (Raise OverflowError, db).
Proof.
  destruct (int64 task_id) eqn:Hk.
  - destruct (get_Task db task_id) as [task|] eqn:Hget.
    + unfold delete_task, bind. rewrite (get_task_or_404_found _ _ Hk Hget).
      unfold commit, ret. now rewrite (get_by_key _ _ _ Hget).
    + unfold delete_task, bind.
      now rewrite (get_task_or_404_missing _ _ Hk Hget).
  - unfold delete_task, bind. now rewrite (get_task_or_404_overflow _ _ Hk).
Qed.



(** X4.  The GET routes only read: whatever they answer, the database
    after the request is the database before it, and the answer does
    not depend on the clock. *)
Theorem read_requests_change_nothing :
  forall utc_now utc_now' req db,
    is_read req = true ->
    snd (serve utc_now req db) = db
    /\ serve utc_now' req db = serve utc_now req db.
Proof.
  intros utc_now utc_now' req db Hread. unfold serve.
  destruct (validate req); [|split; reflexivity].
  destruct req; try discriminate; cbn [dispatch]; unfold route;
    rewrite ?get_tasks_run, ?get_task_run, ?get_subtasks_run,
      ?get_task_comments_run, ?get_task_stats_summary;
    try destruct (listing_in_range _ _ _);
    try destruct (int64 task_id);
    try destruct (get_Task db task_id); split; reflexivity.
Qed.

Lemma read_requests_change_nothing_witness :
  snd (serve (fun _ => 7) (GET_task 1) (sample_db 0)) = sample_db 0
  /\ serve (fun _ => 8) (GET_task 1) (sample_db 0)
     = serve (fun _ => 7) (GET_task 1) (sample_db 0).
Proof.
  apply (read_requests_change_nothing (fun _ => 7) (fun _ => 8) (GET_task 1)
           (sample_db 0)).
  reflexivity.
Defined.





(** X6.  The three routes on one task agree: when the single get of a
    task answers, the subtasks route answers the [subtasks] of that
    answer and the comments route the rows of its [comments]. *)
Theorem task_routes_agree :
  forall task_id db e db',
    get_task task_id db = (Return e, db') ->
    get_subtasks task_id db
    = (Return (ResponseModel.of_data (TaskReadWithRelations.subtasks e)), db)
    /\ exists rows,
         get_task_comments task_id db = (Return (ResponseModel.of_data rows), db)
         /\ map CommentRead.model_validate rows
            = TaskReadWithRelations.comments e.
Proof.
  intros task_id db e db' H. rewrite get_task_run in H.
  rewrite get_subtasks_run, get_task_comments_run.
  destruct (int64 task_id); [|discriminate].
  destruct (get_Task db task_id) as [task|] eqn:Hget; [|discriminate].
  pose proof (get_by_key _ _ _ Hget) as Hid.
  inversion H; subst e db'. unfold expand. simpl. rewrite Hid.
  split; [reflexivity|]. eexists. split; reflexivity.
Qed.

Lemma task_routes_agree_witness :
  get_subtasks 1 (sample_db 0)
  = (Return (ResponseModel.of_data
               (TaskReadWithRelations.subtasks
                  (expand (sample_db 0)
                     (Task.mk "Create user authentication"
                        (Some "Implement JWT authentication for the application")
                        TaskStatus.IN_PROGRESS TaskPriority.HIGH false None
                        (Some (float_of_int 8)) None 1 0 0 (Some 1) (Some 1)
                        None)))), sample_db 0).
Proof.
  exact (proj1 (@task_routes_agree 1 (sample_db 0) _ _ eq_refl)).
Defined.

(* ===================================================================== *)
(** * 19. Writing and reading back                                        *)
(* ===================================================================== *)

(** Link rows of another task do not change the tags of a task. *)
Lemma load_tags_more_links db db' task_id new_links :
  tags db' = tags db ->
  tasktaglink db' = tasktaglink db ++ new_links ->
  (forall l, In l new_links -> TaskTagLink.task_id l <> task_id) ->
  load_tags db' task_id = load_tags db task_id.
Proof.
  intros Etags Elinks Hother. unfold load_tags. rewrite Etags, Elinks.
  apply filter_ext. intros g. apply bool_ext.
  rewrite !has_link_In, in_app_iff. split; [|now left].
  intros [H|H]; [exact H|]. now apply Hother in H.
Qed.



(** X8.  A create request touches nothing that was stored: every task
    that was stored is read back unchanged under its key and with the
    tags it had, the other tables are as they were, and a request that
    is refused with a 404 leaves the whole database as it was. *)
Theorem create_task_keeps_the_rest :
  forall utc_now task_data db res db',
    create_task utc_now task_data db = (res, db') ->
    (forall k task, get_Task db k = Some task ->
                    get_Task db' k = Some task
                    /\ load_tags db' k = load_tags db k)
    /\ users db' = users db /\ projects db' = projects db
    /\ tags db' = tags db /\ comments db' = comments db
    /\ (forall detail, res = Raise (HTTPException 404 detail) -> db' = db).
Proof.
  intros utc_now task_data db res db' H.
  destruct (create_task_effect _ _ _ H)
    as [Hu [Hp [Hg [Hc [[new_links [Hlinks [_ Hnew]]] Hres]]]]].
  split; [|repeat split; try assumption].
  - intros k task Hget. split.
    + destruct Hres as [[_ [_ ->]] | [_ [Htasks _]]]; [exact Hget|].
      unfold get_Task in *. now rewrite Htasks, get_by_app, Hget.
    + apply load_tags_more_links with (new_links := new_links); try assumption.
      intros l Hl E. rewrite (Hnew l Hl) in E. rewrite <- E in Hget.
      now rewrite get_Task_next_id in Hget.
  - intros detail ->.
    destruct Hres as [[_ [_ ->]] | [_ [_ [[Hr _] | [Hr _]]]]];
      [reflexivity | discriminate | discriminate].
Qed.

Lemma create_task_keeps_the_rest_witness :
  get_Task (snd (create_task (fun _ => 7)
                   (new_task "Write tests" None None None (Some [1; 1]))
                   (sample_db 0))) 3
  = get_Task (sample_db 0) 3
  /\ load_tags (snd (create_task (fun _ => 7)
                       (new_task "Write tests" None None None (Some [1; 1]))
                       (sample_db 0))) 3
     = load_tags (sample_db 0) 3.
Proof.
  destruct (@create_task_keeps_the_rest (fun _ => 7)
              (new_task "Write tests" None None None (Some [1; 1]))
              (sample_db 0) _ _ eq_refl) as [Hkeep _].
  destruct (Hkeep 3 _ eq_refl) as [Hget Htags].
  split; [exact Hget | exact Htags].
Defined.








Lemma orphan_subtask_rest task_id r :
  set_parent_task_id (orphan_subtask task_id r) None = set_parent_task_id r None
  /\ (Task.parent_task_id r <> Some task_id -> orphan_subtask task_id r = r).
Proof.
  unfold orphan_subtask.
  destruct (opt_eqb (Task.parent_task_id r) task_id) eqn:E.
  - split; [reflexivity|]. intros Hne. apply opt_eqb_eq in E. contradiction.
  - split; reflexivity.
Qed.

Lemma load_tags_without task_id k db db' :
  tags db' = tags db ->
  tasktaglink db'
  = filter (fun l => negb (TaskTagLink.task_id l =? task_id)) (tasktaglink db) ->
  k <> task_id ->
  load_tags db' k = load_tags db k.
Proof.
  intros Etags Elinks Hne. unfold load_tags. rewrite Etags, Elinks.
  apply filter_ext. intros g. apply bool_ext.
  rewrite !has_link_In, filter_In. cbn [TaskTagLink.task_id].
  split; [now intros [H _] | intros H; split; [exact H|]].
  now destruct (Z.eqb_spec k task_id).
Qed.

(** X11.  Deleting a task deletes nothing else: every other task is
    still stored under its key, equal to what it was but for its parent
    reference (and equal altogether when the deleted task was not its
    parent), with the tags it had; every comment is still stored with
    its key, content and author; users, projects and tags are as they
    were. *)
Theorem delete_task_keeps_the_rest :
  forall task_id db r db',
    delete_task task_id db = (Return r, db') ->
    (forall k task,
        k <> task_id -> get_Task db k = Some task ->
        exists task',
          get_Task db' k = Some task'
          /\ set_parent_task_id task' None = set_parent_task_id task None
          /\ (Task.parent_task_id task <> Some task_id -> task' = task)
          /\ load_tags db' k = load_tags db k)
    /\ map (fun c => (Comment.id c, Comment.content c, Comment.author_id c))
           (comments db')
       = map (fun c => (Comment.id c, Comment.content c, Comment.author_id c))
             (comments db)
    /\ users db' = users db /\ projects db' = projects db
    /\ tags db' = tags db.
Proof.
  intros task_id db r db' H. rewrite delete_task_run in H.
  destruct (int64 task_id); [|discriminate].
  destruct (get_Task db task_id) as [deleted_task|]; [|discriminate].
  inversion H; subst r db'. split; [|split; [|repeat split]].
  - intros k task Hne Hget. exists (orphan_subtask task_id task).
    destruct (orphan_subtask_rest task_id task) as [Hrest Hsame].
    split; [|split; [exact Hrest | split; [exact Hsame|]]].
    + unfold get_Task, delete_row. simpl.
      rewrite get_by_map by apply orphan_subtask_id.
      rewrite get_by_filter_other by exact Hne.
      unfold get_Task in Hget. now rewrite Hget.
    + now apply load_tags_without with (task_id := task_id).
  - unfold delete_row. simpl. rewrite map_map. apply map_ext. intros c.
    unfold orphan_comment. now destruct (opt_eqb (Comment.task_id c) task_id).
Qed.

Lemma delete_task_keeps_the_rest_witness :
  (exists task',
      get_Task (snd (delete_task 1 (sample_db 0))) 3 = Some task'
      /\ Task.title task' = "Build React components"
      /\ load_tags (snd (delete_task 1 (sample_db 0))) 3
         = load_tags (sample_db 0) 3)
  /\ map (fun c => (Comment.id c, Comment.content c, Comment.author_id c))
         (comments (snd (delete_task 1 (sample_db 0))))
     = map (fun c => (Comment.id c, Comment.content c, Comment.author_id c))
           (comments (sample_db 0)).
Proof.
  destruct (@delete_task_keeps_the_rest 1 (sample_db 0) _ _ eq_refl)
    as [Htasks [Hcomments _]].
  split.
  - destruct (Htasks 3 _ ltac:(lia) eq_refl) as [task' [Hget [Hrest [_ Htags]]]].
    exists task'. split; [exact Hget|]. split; [|exact Htags].
    exact (f_equal Task.title Hrest).
  - exact Hcomments.
Defined.

(* ===================================================================== *)
(** * 20. What every request keeps                                        *)
(* ===================================================================== *)

Lemma StronglySorted_snoc l y :
  StronglySorted Z.lt l -> (forall x, In x l -> x < y) ->
  StronglySorted Z.lt (l ++ [y]).
Proof.
  induction l as [|a l IH]; intros Hs Hlt; simpl.
  - repeat constructor.
  - apply StronglySorted_inv in Hs. destruct Hs as [Hs Hall]. constructor.
    + apply IH; [exact Hs|]. intros x Hx. apply Hlt. now right.
    + apply Forall_app. split; [exact Hall|].
      constructor; [|constructor]. apply Hlt. now left.
Qed.

Lemma StronglySorted_filter (p : Z -> bool) l :
  StronglySorted Z.lt l -> StronglySorted Z.lt (filter p l).
Proof.
  induction l as [|a l IH]; intros Hs; [constructor|].
  apply StronglySorted_inv in Hs. destruct Hs as [Hs Hall]. simpl.
  destruct (p a); [|now apply IH].
  constructor; [now apply IH|]. rewrite Forall_forall in *.
  intros x Hx. apply filter_In in Hx. now apply Hall.
Qed.

Lemma StronglySorted_firstn n (l : list Z) :
  StronglySorted Z.lt l -> StronglySorted Z.lt (firstn n l).
Proof.
  revert l. induction n as [|n IH]; intros l Hs; [constructor|].
  destruct l as [|a l]; [constructor|].
  apply StronglySorted_inv in Hs. destruct Hs as [Hs Hall]. simpl.
  constructor; [now apply IH|]. rewrite Forall_forall in *.
  intros x Hx. apply Hall. rewrite <- (firstn_skipn n l).
  apply in_or_app. now left.
Qed.

Lemma StronglySorted_skipn n (l : list Z) :
  StronglySorted Z.lt l -> StronglySorted Z.lt (skipn n l).
Proof.
  revert l. induction n as [|n IH]; intros l Hs; [exact Hs|].
  destruct l as [|a l]; [constructor|].
  apply StronglySorted_inv in Hs. destruct Hs as [Hs _]. simpl. now apply IH.
Qed.

Lemma map_filter_key {A} (pk : A -> Z) (p : Z -> bool) (rows : list A) :
  map pk (filter (fun r => p (pk r)) rows) = filter p (map pk rows).
Proof.
  induction rows as [|a rows IH]; [reflexivity|]. simpl.
  destruct (p (pk a)); simpl; now rewrite IH.
Qed.

Lemma StronglySorted_map_filter {A} (pk : A -> Z) (p : A -> bool) rows :
  StronglySorted Z.lt (map pk rows) ->
  StronglySorted Z.lt (map pk (filter p rows)).
Proof.
  induction rows as [|a rows IH]; intros Hs; [constructor|].
  simpl in Hs. apply StronglySorted_inv in Hs. destruct Hs as [Hs Hall].
  simpl. destruct (p a); [|now apply IH].
  simpl. constructor; [now apply IH|]. rewrite Forall_forall in *.
  intros x Hx. apply Hall. apply in_map_iff in Hx.
  destruct Hx as [r [<- Hr]]. apply filter_In in Hr. apply in_map. tauto.
Qed.

Lemma replace_task_keys row rows :
  map Task.id (replace_task row rows) = map Task.id rows.
Proof.
  unfold replace_task. rewrite map_map. apply map_ext. intros r.
  destruct (Z.eqb_spec (Task.id r) (Task.id row)); congruence.
Qed.

Lemma delete_row_keys task_id db :
  map Task.id (tasks (delete_row task_id db))
  = filter (fun i => negb (i =? task_id)) (map Task.id (tasks db)).
Proof.
  unfold delete_row. simpl. rewrite map_map.
  rewrite (map_ext _ Task.id) by apply orphan_subtask_id.
  apply (map_filter_key Task.id (fun i => negb (i =? task_id))).
Qed.

(** What [update_task] leaves in the task table. *)
Lemma update_task_tasks task_id task_data db res db' :
  update_task task_id task_data db = (res, db') ->
  db' = db
  \/ exists task,
       get_Task db task_id = Some task
       /\ tasks db' = replace_task (patched task_data task) (tasks db).
Proof.
  intros H. destruct (update_task_inv _ _ _ H)
    as [[e [_ ->]] | [task [_ [Hget _]]]]; [now left|].
  destruct (update_task_outcome _ _ _ Hget H)
    as [[e [_ ->]] | [_ [_ [_ Hflush]]]]; [now left|].
  right. exists task. split; [exact Hget|].
  destruct (flush_update_inv _ _ _ _ Hflush) as [row [Hrow [Htasks _]]].
  now inversion Hrow; subst row.
Qed.

Lemma serve_read utc_now req db :
  is_read req = true -> snd (serve utc_now req db) = db.
Proof.
  intros Hread. unfold serve. destruct (validate req); [|reflexivity].
  destruct req; try discriminate; cbn [dispatch]; unfold route;
    rewrite ?get_tasks_run, ?get_task_run, ?get_subtasks_run,
      ?get_task_comments_run, ?get_task_stats_summary;
    try destruct (listing_in_range _ _ _);
    try destruct (int64 task_id);
    try destruct (get_Task db task_id); reflexivity.
Qed.

(** An invariant of the three writing handlers is one of every
    request. *)
Lemma serve_keeps (P : DB -> Prop) :
  (forall utc_now task_data db res db',
      P db -> create_task utc_now task_data db = (res, db') -> P db') ->
  (forall task_id task_data db res db',
      P db -> update_task task_id task_data db = (res, db') -> P db') ->
  (forall task_id db res db',
      P db -> delete_task task_id db = (res, db') -> P db') ->
  forall utc_now req db, P db -> P (snd (serve utc_now req db)).
Proof.
  intros Hcreate Hupdate Hdelete utc_now req db HP.
  destruct (is_read req) eqn:Hread; [now rewrite serve_read|].
  unfold serve. destruct (validate req); [|exact HP].
  destruct req; try discriminate; cbn [dispatch]; unfold route.
  - destruct (create_task utc_now task_data db) as [res db'] eqn:H.
    simpl. eauto.
  - destruct (update_task task_id task_data db) as [res db'] eqn:H.
    simpl. eauto.
  - destruct (delete_task task_id db) as [res db'] eqn:H. simpl. eauto.
Qed.

Lemma keys_increasing_create utc_now task_data db res db' :
  keys_increasing db ->
  create_task utc_now task_data db = (res, db') -> keys_increasing db'.
Proof.
  unfold keys_increasing. intros Hs H.
  destruct (create_task_effect _ _ _ H)
    as [_ [_ [_ [_ [_ [[_ [_ ->]] | [_ [-> _]]]]]]]]; [exact Hs|].
  rewrite map_app. apply StronglySorted_snoc; [exact Hs|].
  intros x Hx. apply in_map_iff in Hx. destruct Hx as [r [<- Hr]].
  now apply id_below_next_id.
Qed.

Lemma keys_increasing_update task_id task_data db res db' :
  keys_increasing db ->
  update_task task_id task_data db = (res, db') -> keys_increasing db'.
Proof.
  unfold keys_increasing. intros Hs H.
  destruct (update_task_tasks _ _ _ H) as [-> | [task [_ ->]]]; [exact Hs|].
  now rewrite replace_task_keys.
Qed.

Lemma keys_increasing_delete task_id db res db' :
  keys_increasing db ->
  delete_task task_id db = (res, db') -> keys_increasing db'.
Proof.
  unfold keys_increasing. intros Hs H. rewrite delete_task_run in H.
  destruct (int64 task_id); [|inversion H; subst; exact Hs].
  destruct (get_Task db task_id); inversion H; subst; [|exact Hs].
  rewrite delete_row_keys. now apply StronglySorted_filter.
Qed.

(** X12.  The keys of the task table stay in growing order, hence
    distinct, through every request; and on such a table a listing
    comes in growing order of [id], whatever its filters and page. *)
Theorem keys_stay_increasing :
  forall utc_now req db,
    keys_increasing db ->
    keys_increasing (snd (serve utc_now req db))
    /\ NoDup (map Task.id (tasks (snd (serve utc_now req db))))
    /\ forall pagination status priority project_id assignee_id rows db',
         get_tasks pagination status priority project_id assignee_id db
         = (Return (ResponseModel.of_data rows), db') ->
         StronglySorted Z.lt (map TaskRead.id rows).
Proof.
  intros utc_now req db Hs.
  assert (keys_increasing (snd (serve utc_now req db))) as Hs'.
  { revert utc_now req db Hs. apply serve_keeps.
    - intros. eapply keys_increasing_create; eassumption.
    - intros. eapply keys_increasing_update; eassumption.
    - intros. eapply keys_increasing_delete; eassumption. }
  split; [exact Hs'|]. split.
  - unfold keys_increasing in Hs'.
    induction Hs' as [|a l Hl IH Hall]; constructor; [|exact IH].
    intros Hin. rewrite Forall_forall in Hall. apply Hall in Hin. lia.
  - intros pagination status priority project_id assignee_id rows db' H.
    rewrite get_tasks_run in H.
    destruct (listing_in_range _ _ _); [|discriminate].
    inversion H. rewrite map_map.
    change (fun x => TaskRead.id (TaskRead.model_validate x)) with Task.id.
    unfold offset_limit.
    destruct (PaginationParams.limit pagination <? 0);
      rewrite <- ?firstn_map, <- skipn_map;
      try apply StronglySorted_firstn; apply StronglySorted_skipn;
      apply StronglySorted_map_filter; subst db'; exact Hs.
Qed.

Lemma keys_stay_increasing_witness :
  keys_increasing
    (snd (serve (fun _ => 7)
            (POST_task (new_task "Write tests" None None None None))
            (snd (serve (fun _ => 7) (DELETE_task 2) (sample_db 0))))).
Proof.
  apply keys_stay_increasing.
  apply keys_stay_increasing.
  unfold keys_increasing. simpl.
  repeat (constructor; [|repeat constructor; lia]). constructor.
Defined.

(** X13.  The tag and the link table stay what their keys make them,
    through every request: no two tags share an id, no pair of a task
    and a tag is there twice, every pair belongs to a stored task, and
    so no tag is twice among the tags of a task. *)
Theorem links_stay_consistent :
  forall utc_now req db,
    consistent db ->
    consistent (snd (serve utc_now req db))
    /\ forall task_id,
         NoDup (map Tag.id (load_tags (snd (serve utc_now req db)) task_id)).
Proof.
  intros utc_now req db Hc.
  assert (consistent (snd (serve utc_now req db))) as Hc'.
  { revert utc_now req db Hc. apply serve_keeps.
    - intros. eapply consistent_create_task; eassumption.
    - intros. eapply consistent_update_task; eassumption.
    - intros. eapply consistent_delete_task; eassumption. }
  split; [exact Hc'|]. intros task_id.
  apply load_tags_NoDup. exact (tags_unique Hc').
Qed.

Lemma links_stay_consistent_witness :
  consistent
    (snd (serve (fun _ => 7)
            (PUT_task 1 (update_with_tag_ids (rename "Sign in")
                           (Given (Some [1; 2]))))
            (sample_db 0))).
Proof.
  apply links_stay_consistent. apply consistent_sample_db.
Defined.

Lemma next_id_positive ids : 0 < next_id ids.
Proof.
  unfold next_id. assert (0 <= fold_right Z.max 0 ids); [|lia].
  induction ids as [|a ids IH]; simpl; lia.
Qed.

Lemma parents_older_create utc_now task_data db res db' :
  parents_older db ->
  create_task utc_now task_data db = (res, db') -> parents_older db'.
Proof.
  intros Hold H.
  destruct (create_task_effect _ _ _ H)
    as [_ [_ [_ [_ [_ [[_ [_ ->]] | [Hpass [Htasks _]]]]]]]]; [exact Hold|].
  assert (dangling (get_Task db) (TaskCreate.parent_task_id task_data)
          = false) as Hparent.
  { unfold references_pass, reference_ok in Hpass.
    apply andb_prop in Hpass. destruct Hpass as [_ Hpass].
    apply andb_prop in Hpass. destruct Hpass as [_ Hpass].
    now apply negb_true_iff in Hpass. }
  intros r p Hr Hp. rewrite Htasks in Hr. apply in_app_or in Hr.
  destruct Hr as [Hr | [<- | []]]; [now apply Hold|].
  change (TaskCreate.parent_task_id task_data = Some p) in Hp.
  change (p < next_id (map Task.id (tasks db))).
  unfold dangling in Hparent. rewrite Hp in Hparent. simpl in Hparent.
  destruct (Z.eq_dec p 0) as [E|Hne].
  - rewrite E. apply next_id_positive.
  - apply Z.eqb_neq in Hne. rewrite Hne in Hparent. simpl in Hparent.
    destruct (get_Task db p) as [t|] eqn:Hget; [|discriminate].
    rewrite <- (get_by_key _ _ _ Hget).
    apply id_below_next_id. exact (get_by_In _ _ _ Hget).
Qed.

Lemma parents_older_update task_id task_data db res db' :
  parents_older db ->
  update_task task_id task_data db = (res, db') -> parents_older db'.
Proof.
  intros Hold H.
  destruct (update_task_tasks _ _ _ H) as [-> | [task [Hget Htasks]]];
    [exact Hold|].
  intros r p Hr Hp. rewrite Htasks in Hr. unfold replace_task in Hr.
  apply in_map_iff in Hr. destruct Hr as [r0 [E Hr0]].
  destruct (Task.id r0 =? Task.id (patched task_data task)).
  - subst r. simpl in *. apply (Hold task p); [|exact Hp].
    exact (get_by_In _ _ _ Hget).
  - subst r0. now apply Hold.
Qed.

Lemma parents_older_delete task_id db res db' :
  parents_older db ->
  delete_task task_id db = (res, db') -> parents_older db'.
Proof.
  intros Hold H. rewrite delete_task_run in H.
  destruct (int64 task_id); [|inversion H; subst; exact Hold].
  destruct (get_Task db task_id); inversion H; subst; [|exact Hold].
  intros r p Hr Hp. unfold delete_row in Hr. simpl in Hr.
  apply in_map_iff in Hr. destruct Hr as [r0 [<- Hr0]].
  apply filter_In in Hr0. destruct Hr0 as [Hr0 _].
  rewrite orphan_subtask_id. unfold orphan_subtask in Hp.
  destruct (opt_eqb (Task.parent_task_id r0) task_id); [discriminate|].
  now apply Hold.
Qed.

Lemma ancestor_is_older db a b :
  parents_older db -> ancestor db a b -> b < a.
Proof.
  intros Hold H. induction H as [r p Hr Hp | r p a Hr Hp _ IH].
  - now apply Hold.
  - specialize (Hold r p Hr Hp). lia.
Qed.

(** X14.  The router never builds a cycle of parents: when the parent
    of every stored task has a smaller key than the task, this is so
    after every request (a new task can only name a task that is
    already stored, and no update changes a parent), and then no task
    is among its own ancestors. *)
Theorem parents_stay_older :
  forall utc_now req db,
    parents_older db ->
    parents_older (snd (serve utc_now req db))
    /\ forall k, ~ ancestor (snd (serve utc_now req db)) k k.
Proof.
  intros utc_now req db Hold.
  assert (parents_older (snd (serve utc_now req db))) as Hold'.
  { revert utc_now req db Hold. apply serve_keeps.
    - intros. eapply parents_older_create; eassumption.
    - intros. eapply parents_older_update; eassumption.
    - intros. eapply parents_older_delete; eassumption. }
  split; [exact Hold'|]. intros k Hk.
  apply (ancestor_is_older Hold') in Hk. lia.
Qed.

Lemma parents_older_sample_db t0 : parents_older (sample_db t0).
Proof.
  intros r p Hr Hp. simpl in Hr.
  destruct Hr as [<-|[<-|[<-|[]]]]; simpl in Hp; inversion Hp; subst;
    simpl; lia.
Qed.

Lemma parents_stay_older_witness :
  parents_older
    (snd (serve (fun _ => 7)
            (POST_task (new_task "Write tests" None None (Some 3) None))
            (sample_db 0))).
Proof.
  apply parents_stay_older. apply parents_older_sample_db.
Defined.

(* ===================================================================== *)
(** * 21. Statistics and writes                                           *)
(* ===================================================================== *)

Lemma len_app {A} (l1 l2 : list A) : len (l1 ++ l2) = len l1 + len l2.
Proof. unfold len. rewrite length_app. lia. Qed.

Lemma len_filter_le {A} (p : A -> bool) l : len (filter p l) <= len l.
Proof. unfold len. pose proof (filter_length_le p l). lia. Qed.

Lemma len_filter_disjoint {A} (p q : A -> bool) l :
  (forall x, p x = true -> q x = false) ->
  len (filter p l) + len (filter q l) <= len l.
Proof.
  intros Hpq.
  assert (List.length (filter p l) + List.length (filter q l)
          <= List.length l)%nat as Hnat.
  { induction l as [|a l IH]; simpl; [lia|].
    destruct (p a) eqn:Hp; [rewrite (Hpq a Hp)|destruct (q a)]; simpl; lia. }
  unfold len. lia.
Qed.

(** X15.  The counts of the summary fit together on every database:
    none is negative, the completed tasks are at most all tasks, and
    the pending and the in-progress tasks together are at most all
    tasks. *)
Theorem get_task_stats_counts :
  forall db,
    exists s,
      get_task_stats db = (Return s, db)
      /\ 0 <= Stats.completed_tasks s <= Stats.total_tasks s
      /\ 0 <= Stats.pending_tasks s
      /\ 0 <= Stats.in_progress_tasks s
      /\ Stats.pending_tasks s + Stats.in_progress_tasks s
         <= Stats.total_tasks s.
Proof.
  intros db. exists (summary db). split; [apply get_task_stats_summary|].
  unfold summary. simpl. repeat split; try apply len_nonneg.
  - apply len_filter_le.
  - apply len_filter_disjoint. intros r. unfold status_is.
    now destruct (Task.status r).
Qed.

Lemma filter_one {A} (p : A -> bool) a :
  len (filter p [a]) = int_of_bool (p a).
Proof. unfold len. simpl. now destruct (p a). Qed.

(** X16.  The summary follows a create: after a create request that
    returned, there is one task more; the completed count is one more
    exactly when the payload set the [is_completed] flag, whatever its
    status; the pending and in-progress counts are one more exactly
    when the status of the payload is theirs. *)
Theorem get_task_stats_after_create :
  forall utc_now task_data db r db',
    create_task utc_now task_data db = (Return r, db') ->
    exists s s',
      get_task_stats db = (Return s, db)
      /\ get_task_stats db' = (Return s', db')
      /\ Stats.total_tasks s' = Stats.total_tasks s + 1
      /\ Stats.completed_tasks s'
         = Stats.completed_tasks s
           + int_of_bool (TaskCreate.is_completed task_data)
      /\ Stats.pending_tasks s'
         = Stats.pending_tasks s
           + int_of_bool (TaskStatus.eqb (TaskCreate.status task_data)
                                         TaskStatus.PENDING)
      /\ Stats.in_progress_tasks s'
         = Stats.in_progress_tasks s
           + int_of_bool (TaskStatus.eqb (TaskCreate.status task_data)
                                         TaskStatus.IN_PROGRESS).
Proof.
  intros utc_now task_data db r db' H.
  exists (summary db), (summary db').
  split; [apply get_task_stats_summary|].
  split; [apply get_task_stats_summary|].
  destruct (create_task_effect _ _ _ H)
    as [_ [_ [_ [_ [_ [[_ [[e He] _]] | [_ [Htasks _]]]]]]]]; [discriminate|].
  unfold summary. simpl. rewrite Htasks, !filter_app, !len_app, !filter_one.
  repeat split; reflexivity.
Qed.

Lemma get_task_stats_after_create_witness :
  exists s s',
    get_task_stats (sample_db 0) = (Return s, sample_db 0)
    /\ Stats.completed_tasks s = 1
    /\ get_task_stats
         (snd (create_task (fun _ => 7)
                 (TaskCreate.mk "Ship" None TaskStatus.COMPLETED
                    TaskPriority.LOW false None None None None None None None)
                 (sample_db 0)))
       = (Return s',
          snd (create_task (fun _ => 7)
                 (TaskCreate.mk "Ship" None TaskStatus.COMPLETED
                    TaskPriority.LOW false None None None None None None None)
                 (sample_db 0)))
    /\ Stats.total_tasks s' = Stats.total_tasks s + 1
    /\ Stats.completed_tasks s' = Stats.completed_tasks s + 0.
Proof.
  destruct (@get_task_stats_after_create (fun _ => 7)
              (TaskCreate.mk "Ship" None TaskStatus.COMPLETED
                 TaskPriority.LOW false None None None None None None None)
              (sample_db 0) _ _ eq_refl)
    as [s [s' [Hs [Hs' [Htotal [Hcompleted _]]]]]].
  exists s, s'. split; [exact Hs|]. split.
  - rewrite get_task_stats_summary in Hs. inversion Hs. reflexivity.
  - split; [exact Hs'|]. split; [exact Htotal | exact Hcompleted].
Defined.

Lemma StronglySorted_lt_NoDup l : StronglySorted Z.lt l -> NoDup l.
Proof.
  intros Hs. induction Hs as [|a l Hl IH Hall]; constructor; [|exact IH].
  intros Hin. rewrite Forall_forall in Hall. apply Hall in Hin. lia.
Qed.

Lemma len_filter_map {A} (p : A -> bool) (f : A -> A) l :
  (forall x, p (f x) = p x) -> len (filter p (map f l)) = len (filter p l).
Proof.
  intros Hp. unfold len. f_equal.
  induction l as [|a l IH]; [reflexivity|]. simpl. rewrite Hp.
  destruct (p a); simpl; now rewrite IH.
Qed.

Lemma len_cons {A} (a : A) l : len (a :: l) = len l + 1.
Proof. unfold len. cbn [List.length]. lia. Qed.

(** Counting after a DELETE by key, on a table with distinct keys. *)
Lemma len_filter_delete (p : Task.t -> bool) task_id rows task :
  NoDup (map Task.id rows) ->
  get_by Task.id rows task_id = Some task ->
  (forall r, p (orphan_subtask task_id r) = p r) ->
  len (filter p (map (orphan_subtask task_id)
                   (filter (fun r => negb (Task.id r =? task_id)) rows)))
  + int_of_bool (p task)
  = len (filter p rows).
Proof.
  intros Hnd Hget Hp. rewrite len_filter_map by exact Hp.
  induction rows as [|a rows IH]; [discriminate|].
  inversion Hnd as [|? ? Hnotin Hrest]; subst.
  unfold get_by in Hget. simpl in Hget. simpl filter at 2.
  destruct (Z.eqb_spec (Task.id a) task_id) as [E|NE].
  - inversion Hget; subst a. simpl negb. cbv iota.
    rewrite (@filter_all _ (fun r => negb (Task.id r =? task_id)) rows).
    + cbn [filter]. unfold int_of_bool.
      destruct (p task); rewrite ?len_cons; lia.
    + intros x Hx. apply negb_true_iff, Z.eqb_neq. intros Ex.
      apply Hnotin. rewrite E, <- Ex. now apply in_map.
  - simpl negb. cbv iota. specialize (IH Hrest Hget).
    cbn [filter]. destruct (p a); rewrite ?len_cons; lia.
Qed.

(** X17.  The summary follows a delete: on a task table with distinct
    keys, after a delete that returned there is one task less, and each
    of the other counts is one less exactly when the deleted task
    counted for it. *)
Theorem get_task_stats_after_delete :
  forall task_id db r db',
    keys_increasing db ->
    delete_task task_id db = (Return r, db') ->
    exists s s',
      get_task_stats db = (Return s, db)
      /\ get_task_stats db' = (Return s', db')
      /\ Stats.total_tasks s' = Stats.total_tasks s - 1
      /\ Stats.completed_tasks s'
         = Stats.completed_tasks s - int_of_bool (TaskRead.is_completed r)
      /\ Stats.pending_tasks s'
         = Stats.pending_tasks s
           - int_of_bool (TaskStatus.eqb (TaskRead.status r) TaskStatus.PENDING)
      /\ Stats.in_progress_tasks s'
         = Stats.in_progress_tasks s
           - int_of_bool (TaskStatus.eqb (TaskRead.status r)
                                         TaskStatus.IN_PROGRESS).
Proof.
  intros task_id db r db' Hs H.
  exists (summary db), (summary db').
  split; [apply get_task_stats_summary|].
  split; [apply get_task_stats_summary|].
  rewrite delete_task_run in H.
  destruct (int64 task_id); [|discriminate].
  destruct (get_Task db task_id) as [task|] eqn:Hget; [|discriminate].
  inversion H; subst r db'. apply StronglySorted_lt_NoDup in Hs.
  assert (forall p, (forall x, p (orphan_subtask task_id x) = p x) ->
                    len (filter p (tasks (delete_row task_id db)))
                    = len (filter p (tasks db)) - int_of_bool (p task)) as Hcount.
  { intros p Hp.
    pose proof (@len_filter_delete p task_id (tasks db) task Hs Hget Hp) as E.
    unfold delete_row. simpl. lia. }
  assert (forall x : Task.t,
             Task.is_completed (orphan_subtask task_id x) = Task.is_completed x
             /\ Task.status (orphan_subtask task_id x) = Task.status x) as Hsame.
  { intros x. unfold orphan_subtask.
    now destruct (opt_eqb (Task.parent_task_id x) task_id). }
  unfold summary. simpl. repeat split.
  - pose proof (Hcount (fun _ => true) (fun _ => eq_refl)) as E.
    rewrite !filter_all in E by reflexivity. exact E.
  - apply Hcount. intros x. apply Hsame.
  - apply (Hcount (status_is (Some TaskStatus.PENDING))). intros x.
    unfold status_is. now rewrite (proj2 (Hsame x)).
  - apply (Hcount (status_is (Some TaskStatus.IN_PROGRESS))). intros x.
    unfold status_is. now rewrite (proj2 (Hsame x)).
Qed.

Lemma keys_increasing_sample_db t0 : keys_increasing (sample_db t0).
Proof.
  unfold keys_increasing. simpl.
  repeat (constructor; [|repeat constructor; lia]). constructor.
Qed.

Lemma get_task_stats_after_delete_witness :
  exists s s',
    get_task_stats (sample_db 0) = (Return s, sample_db 0)
    /\ get_task_stats (snd (delete_task 2 (sample_db 0)))
       = (Return s', snd (delete_task 2 (sample_db 0)))
    /\ Stats.total_tasks s' = Stats.total_tasks s - 1
    /\ Stats.completed_tasks s' = Stats.completed_tasks s - 1.
Proof.
  destruct (@get_task_stats_after_delete 2 (sample_db 0) _ _
              (keys_increasing_sample_db 0) eq_refl)
    as [s [s' [Hs [Hs' [Htotal [Hcompleted _]]]]]].
  exists s, s'. repeat split; assumption.
Defined.




(* ===================================================================== *)
(** * 22. Seeding                                                         *)
(* ===================================================================== *)

Lemma init_db_guard utc_now db :
  users db <> [] -> init_db utc_now db = (Return tt, db).
Proof.
  intros Hne. unfold init_db, bind, query.
  destruct (users db) as [|u rest]; [contradiction | reflexivity].
Qed.

Lemma keeps_a_user_ret {A} (a : A) : keeps_a_user (ret a).
Proof. intros db r db' Hu H. now inversion H; subst. Qed.

Lemma keeps_a_user_bind {A B} (m : M A) (k : A -> M B) :
  keeps_a_user m -> (forall a, keeps_a_user (k a)) -> keeps_a_user (bind m k).
Proof.
  intros Hm Hk db r db' Hu H. unfold bind in H.
  destruct (m db) as [[a|e] db1] eqn:E.
  - exact (Hk a _ _ _ (Hm _ _ _ Hu E) H).
  - inversion H; subst. exact (Hm _ _ _ Hu E).
Qed.

Lemma keeps_a_user_commit f :
  (forall db db1, f db = Some db1 -> users db1 = users db) ->
  keeps_a_user (commit f).
Proof.
  intros Hf db r db' Hu H. unfold commit in H.
  destruct (f db) as [db1|] eqn:E; inversion H; subst; [|exact Hu].
  now rewrite (Hf _ _ E).
Qed.

Lemma keeps_a_user_insert_User mk_row : keeps_a_user (insert_User mk_row).
Proof.
  intros db r db' Hu H. inversion H; subst. simpl.
  now destruct (users db).
Qed.

Lemma keeps_a_user_insert_Project mk_row : keeps_a_user (insert_Project mk_row).
Proof. intros db r db' Hu H. now inversion H; subst. Qed.

Lemma keeps_a_user_insert_Tag mk_row : keeps_a_user (insert_Tag mk_row).
Proof. intros db r db' Hu H. now inversion H; subst. Qed.

Lemma keeps_a_user_insert_task mk_row : keeps_a_user (insert_task mk_row).
Proof. intros db r db' Hu H. now inversion H; subst. Qed.

Lemma keeps_a_user_insert_Comment mk_row : keeps_a_user (insert_Comment mk_row).
Proof. intros db r db' Hu H. now inversion H; subst. Qed.

(** After [init_db] there is a user, whether it seeded or not. *)
Lemma adds_a_user_bind {A B} (m : M A) (k : A -> M B) :
  adds_a_user m -> (forall a, keeps_a_user (k a)) -> adds_a_user (bind m k).
Proof.
  intros Hm Hk db r db' H. unfold bind in H.
  destruct (m db) as [[a|e] db1] eqn:E.
  - exact (Hk a _ _ _ (Hm _ _ _ E) H).
  - inversion H; subst. exact (Hm _ _ _ E).
Qed.

Lemma adds_a_user_insert_User mk_row : adds_a_user (insert_User mk_row).
Proof.
  intros db r db' H. inversion H; subst. simpl.
  now destruct (users db).
Qed.

Ltac solve_keeps_a_user :=
  repeat lazymatch goal with
         | |- keeps_a_user (bind _ _) =>
             apply keeps_a_user_bind; [|intros ?]
         | |- keeps_a_user (ret _) => apply keeps_a_user_ret
         | |- keeps_a_user (insert_User _) => apply keeps_a_user_insert_User
         | |- keeps_a_user (insert_Project _) =>
             apply keeps_a_user_insert_Project
         | |- keeps_a_user (insert_Tag _) => apply keeps_a_user_insert_Tag
         | |- keeps_a_user (insert_task _) => apply keeps_a_user_insert_task
         | |- keeps_a_user (insert_Comment _) =>
             apply keeps_a_user_insert_Comment
         | |- keeps_a_user (commit _) => apply keeps_a_user_commit
         end.

(** After [init_db] there is a user, whether it seeded or not. *)
Lemma init_db_users utc_now db : users (snd (init_db utc_now db)) <> [].
Proof.
  destruct (users db) as [|u rest] eqn:Hu.
  2:{ rewrite init_db_guard by (rewrite Hu; discriminate).
      cbn [snd]. rewrite Hu. discriminate. }
  assert (forall A B (f : DB -> A) (k : A -> M B) d,
             bind (query f) k d = k (f d) d) as Hquery by reflexivity.
  unfold init_db. rewrite Hquery, Hu. cbn [hd_error truthy_obj].
  match goal with
  | |- users (snd (?m ?d)) <> [] =>
      assert (adds_a_user m) as Hadds;
      [| destruct (m d) as [r db'] eqn:H; exact (Hadds d r db' H) ]
  end.
  apply adds_a_user_bind; [apply adds_a_user_insert_User|intros user1].
  solve_keeps_a_user.
  - intros d d1 Hd. now inversion Hd; subst.
  - intros d d1 Hd.
    destruct (extend_tags d _ _ _) as [links1|]; [|discriminate Hd].
    destruct (extend_tags d _ _ _) as [links2|]; [|discriminate Hd].
    destruct (extend_tags d _ _ _) as [links3|]; [|discriminate Hd].
    injection Hd as <-. reflexivity.
Qed.

(** X19.  [init_db] seeds once.  On a database that has a user it
    returns at once and changes nothing, so a second run after any run
    changes nothing; on the empty tables it puts the sample data (two
    users, two projects, four tags, three tasks of which the third is a
    subtask of the first, four tag links, two comments), with keys from
    1, on which the tag and the link table are consistent, the task
    keys grow and parents are older than their subtasks. *)
Theorem init_db_seeds_once :
  (forall utc_now db,
      users db <> [] -> init_db utc_now db = (Return tt, db))
  /\ (forall utc_now utc_now' db,
      init_db utc_now' (snd (init_db utc_now db))
      = (Return tt, snd (init_db utc_now db)))
  /\ (forall t0, init_db (fun _ => t0) empty_db = (Return tt, sample_db t0))
  /\ (forall utc_now,
      fst (init_db utc_now empty_db) = Return tt
      /\ consistent (snd (init_db utc_now empty_db))
      /\ keys_increasing (snd (init_db utc_now empty_db))
      /\ parents_older (snd (init_db utc_now empty_db))).
Proof.
  split; [|split; [|split]].
  - intros. now apply init_db_guard.
  - intros utc_now utc_now' db. apply init_db_guard. apply init_db_users.
  - intros t0. reflexivity.
  - intros utc_now. split; [reflexivity|].
    remember (snd (init_db utc_now empty_db)) as d eqn:E.
    cbv in E. subst d. split; [|split].
    + split.
      * cbv. repeat constructor; simpl; intuition discriminate.
      * cbv. repeat constructor; simpl; intuition discriminate.
      * intros l Hl. cbv in Hl.
        repeat (destruct Hl as [<-|Hl]; [cbv; discriminate|]).
        contradiction.
    + unfold keys_increasing. cbv.
      repeat (constructor; [|repeat constructor; reflexivity]). constructor.
    + intros r p Hr Hp. cbv in Hr.
      destruct Hr as [<-|[<-|[<-|[]]]]; cbv in Hp; inversion Hp; subst;
        reflexivity.
Qed.

Lemma init_db_seeds_once_witness :
  init_db (fun _ => 9) (sample_db 0) = (Return tt, sample_db 0).
Proof.
  apply (proj1 init_db_seeds_once). discriminate.
Defined.
